(** * Echo-DND backbone ([guided_diffusion/unet.py]): shapes, construction, forward pass

    The network is embedded at two levels.

    - _Shape level._  A tensor is represented by its shape (a list of
      naturals); every module of [unet.py] becomes a record holding the
      attributes its constructor stores, and every [forward] becomes a
      function from shapes to a [result] that is either a shape or the Python
      exception the call raises.  Constructors run in a small state-and-error
      monad: the state is the number of parameter tensors drawn so far from the
      random initialiser, so that two freshly built layers never share their
      initial weights while a deep copy does.

    - _Value level._  The residual block and the output projections are also
      embedded on tensors of float32 values (IEEE 754 binary32, with its
      rounding, infinities and NaN), which is what the statements about zero
      initialisation need; the two attention kernels are embedded on tensors
      of real numbers, for the statements about the two head-splitting orders
      and about the scaling, which are statements of exact arithmetic. *)

From Stdlib Require Import ZArith List String Lia Bool QArith Reals Lra SpecFloat.
From stdpp Require Import base option list gmap strings pretty.

Open Scope Z_scope.
Open Scope nat_scope.

(** ** Python exceptions and results *)

Inductive exn : Type :=
| AssertionError (msg : string)
| AttributeError (msg : string)
| NotImplementedError (msg : string)
| ValueError (msg : string)
| RuntimeError (msg : string)
| IndexError
| ZeroDivisionError.

Inductive result (A : Type) : Type :=
| Ok (a : A)
| Raise (e : exn).
Arguments Ok {A} a.
Arguments Raise {A} e.

Definition is_Ok {A} (r : result A) : Prop := exists a, r = Ok a.
Definition raises {A} (r : result A) : Prop := exists e, r = Raise e.

#[global] Instance result_ret : MRet result := fun _ a => Ok a.
#[global] Instance result_bind : MBind result := fun _ _ f r =>
  match r with
  | Ok a => f a
  | Raise e => Raise e
  end.

(** [assert cond, msg] *)
Definition py_assert (cond : bool) (msg : string) : result unit :=
  if cond then Ok tt else Raise (AssertionError msg).

(** [l.pop()] on a Python list: removes and returns the last element. *)
Definition pop {A} (l : list A) : result (A * list A) :=
  match reverse l with
  | [] => Raise IndexError
  | x :: r => Ok (x, reverse r)
  end.

(** [l[i]] for a non-negative index. *)
Definition getitem {A} (l : list A) (i : nat) : result A :=
  match l !! i with
  | Some a => Ok a
  | None => Raise IndexError
  end.

(** ** Shapes and the shape rules of the tensor primitives

    The tensor primitives belong to the tensor library, not to [unet.py];
    they are modelled by their shape rules on batched inputs
    ([N x C x spatial...]). *)

Definition Shape := list nat.

Definition prod_list (l : list nat) : nat := foldr Nat.mul 1 l.

(** Output length of a convolution or pooling window along one axis:
    [floor((n + 2p - k) / s) + 1], an error when the window does not fit. *)
Definition window_out (k p : nat) (n s : nat) : result nat :=
  if (n + 2 * p <? k) || (s =? 0) || (k =? 0)
  then Raise (RuntimeError "window does not fit the input")
  else Ok ((n + 2 * p - k) `div` s + 1).

Fixpoint window_spatial (k : nat -> nat) (p : nat) (sp strides : list nat)
  : result (list nat) :=
  match sp, strides with
  | [], [] => Ok []
  | n :: sp', s :: strides' =>
      n' ← window_out (k s) p n s;
      rest ← window_spatial k p sp' strides';
      Ok (n' :: rest)
  | _, _ => Raise (RuntimeError "spatial rank mismatch")
  end.

(** Broadcasting of two shapes, aligned on the trailing axes. *)
Fixpoint broadcast_rev (a b : list nat) : result (list nat) :=
  match a, b with
  | [], _ => Ok b
  | _, [] => Ok a
  | x :: a', y :: b' =>
      rest ← broadcast_rev a' b';
      if x =? y then Ok (x :: rest)
      else if x =? 1 then Ok (y :: rest)
      else if y =? 1 then Ok (x :: rest)
      else Raise (RuntimeError "shapes cannot be broadcast")
  end.

(** Shape of [a + b] and of [a * b]. *)
Definition broadcast (a b : Shape) : result Shape :=
  r ← broadcast_rev (reverse a) (reverse b); Ok (reverse r).

(** [th.cat([a, b], dim=1)]: all axes but the channel axis must agree. *)
Definition cat1 (a b : Shape) : result Shape :=
  match a, b with
  | n :: c :: sp, n' :: c' :: sp' =>
      if bool_decide (n = n' /\ sp = sp') then Ok (n :: (c + c') :: sp)
      else Raise (RuntimeError "Sizes of tensors must match except in dimension 1")
  | _, _ => Raise (IndexError)
  end.

(** [x[:, lo:hi]] for [0 <= lo <= hi]. *)
Definition slice1 (x : Shape) (lo hi : nat) : result Shape :=
  match x with
  | n :: c :: sp => Ok (n :: (Nat.min hi c - Nat.min lo c) :: sp)
  | _ => Raise IndexError
  end.

(** [t.squeeze()]: drops every axis of length one. *)
Definition squeeze (s : Shape) : Shape := filter (fun d => d <> 1) s.

(** [th.chunk(t, 2, dim=1)] followed by unpacking into two names. *)
Definition chunk2_1 (s : Shape) : result (Shape * Shape) :=
  match s with
  | n :: c :: sp =>
      let size := (c + 1) `div` 2 in
      if (c <=? 1) then Raise (ValueError "not enough values to unpack")
      else Ok (n :: size :: sp, n :: (c - size) :: sp)
  | _ => Raise IndexError
  end.

(** [F.interpolate(x, scale_factor=2, mode="nearest")]: defined on 3-D, 4-D
    and 5-D tensors; the batch may be empty, the other axes may not. *)
Definition interpolate_x2 (x : Shape) : result Shape :=
  match x with
  | n :: c :: sp =>
      if bool_decide (1 <= length sp <= 3)
      then if forallb (Nat.ltb 0) (c :: sp)
           then Ok (n :: c :: map (fun d => d * 2) sp)
           else Raise (RuntimeError "interpolate: non-empty data tensor expected")
      else Raise (NotImplementedError "Input Error: Only 3D, 4D and 5D input Tensors supported")
  | _ => Raise (NotImplementedError "Input Error: Only 3D, 4D and 5D input Tensors supported")
  end.

(** [F.interpolate(x, (x.shape[2], x.shape[3] * 2, x.shape[4] * 2), mode="nearest")] *)
Definition interpolate_inner2 (x : Shape) : result Shape :=
  match x with
  | [n; c; d; h; w] =>
      if forallb (Nat.ltb 0) [c; d; h; w]
      then Ok [n; c; d; h * 2; w * 2]
      else Raise (RuntimeError "interpolate: non-empty data tensor expected")
  | _ :: _ :: _ :: _ :: _ :: _ =>
      Raise (ValueError "Input and output must have the same number of spatial dimensions")
  | _ => Raise IndexError
  end.

(** ** Construction monad and parameter initialisation *)

(** How a parameter tensor was initialised: all zeros (after [zero_module])
    or drawn from the random initialiser; [Drawn i] is the [i]-th draw since
    the program started, so equal tags mean equal initial values. *)
Inductive Init : Type :=
| Zeros
| Drawn (seed : nat).

Definition Build (A : Type) : Type := nat -> result (A * nat).

#[global] Instance Build_ret : MRet Build := fun _ a s => Ok (a, s).
#[global] Instance Build_bind : MBind Build := fun _ _ f m s =>
  match m s with
  | Ok (a, s') => f a s'
  | Raise e => Raise e
  end.

Definition draw : Build Init := fun s => Ok (Drawn s, S s).
Definition fail {A} (e : exn) : Build A := fun _ => Raise e.
Definition build_assert (cond : bool) (msg : string) : Build unit :=
  if cond then mret tt else fail (AssertionError msg).

(** [a or b] on an optional integer: [None] and [0] are both falsy. *)
Definition py_or (a : option nat) (b : nat) : nat :=
  match a with
  | Some (S n) => S n
  | _ => b
  end.

(** ** Primitive layers ([guided_diffusion/nn.py])

    Modelled from the spec: [conv_nd], [linear], [avg_pool_nd],
    [normalization], [zero_module], [checkpoint] and [timestep_embedding] are
    imported from [nn.py], which [unet.py] only names.  The
    spec describes them as a convolution, a linear projection, a
    stride-matched average pool, a normalisation, zero initialisation of a
    module's parameters, an execution-strategy toggle without effect on
    outputs, and a sinusoidal encoding of width [dim] of a batch of scalar
    timesteps. *)

Module Conv.
Record t : Type := mk {
  dims : nat;
  in_channels : nat;
  out_channels : nat;
  kernel_size : nat;
  stride : list nat;
  padding : nat;
  weight : Init;
}.

Definition forward (c : t) (x : Shape) : result Shape :=
  match x with
  | n :: ch :: sp =>
      if bool_decide (ch = in_channels c /\ length sp = dims c)
      then sp' ← window_spatial (fun _ => kernel_size c) (padding c) sp (stride c);
           Ok (n :: out_channels c :: sp')
      else Raise (RuntimeError "conv: input does not match the layer")
  | _ => Raise (RuntimeError "conv: input does not match the layer")
  end.
End Conv.

Definition conv_nd (dims cin cout k : nat) (stride : list nat) (padding : nat)
  : Build Conv.t :=
  if bool_decide (1 <= dims <= 3)
  then w ← draw; mret (Conv.mk dims cin cout k stride padding w)
  else fail (ValueError ("unsupported dimensions: " +:+ pretty dims)).

(** A stride given as one integer applies to every axis. *)
Definition every_axis (dims s : nat) : list nat := replicate dims s.

Module AvgPool.
Record t : Type := mk {
  dims : nat;
  kernel_size : list nat;
  stride : list nat;
}.

(** The pool takes a batch [n :: ch :: sp] and also a single item without
    the batch axis, whose leading axis is then the channel axis. *)
Definition forward (p : t) (x : Shape) : result Shape :=
  match x with
  | n :: ch :: sp =>
      if bool_decide (length sp = dims p)
      then sp' ← window_spatial (fun s => s) 0 sp (stride p);
           Ok (n :: ch :: sp')
      else if bool_decide (S (length sp) = dims p)
      then sp' ← window_spatial (fun s => s) 0 (ch :: sp) (stride p);
           Ok (n :: sp')
      else Raise (RuntimeError "avg_pool: input does not match the layer")
  | _ => Raise (RuntimeError "avg_pool: input does not match the layer")
  end.
End AvgPool.

Definition avg_pool_nd (dims : nat) (kernel stride : list nat) : Build AvgPool.t :=
  if bool_decide (1 <= dims <= 3)
  then mret (AvgPool.mk dims kernel stride)
  else fail (ValueError ("unsupported dimensions: " +:+ pretty dims)).

Module Linear.
Record t : Type := mk {
  in_features : nat;
  out_features : nat;
  weight : Init;
}.

Definition forward (l : t) (x : Shape) : result Shape :=
  match reverse x with
  | d :: r =>
      if bool_decide (d = in_features l) then Ok (reverse (out_features l :: r))
      else Raise (RuntimeError "linear: shapes cannot be multiplied")
  | [] => Raise (RuntimeError "linear: shapes cannot be multiplied")
  end.
End Linear.

Definition linear (fin fout : nat) : Build Linear.t :=
  w ← draw; mret (Linear.mk fin fout w).

Module Norm.
(** The normalisation starts from fixed (not random) scale and offset. *)
Record t : Type := mk { channels : nat }.

Definition forward (g : t) (x : Shape) : result Shape :=
  match x with
  | n :: ch :: sp =>
      if bool_decide (ch = channels g) then Ok x
      else Raise (RuntimeError "normalization: channel count does not match")
  | _ => Raise (RuntimeError "normalization: channel count does not match")
  end.
End Norm.

Definition normalization (channels : nat) : Build Norm.t := mret (Norm.mk channels).

Definition zero_module (c : Conv.t) : Conv.t :=
  Conv.mk (Conv.dims c) (Conv.in_channels c) (Conv.out_channels c)
          (Conv.kernel_size c) (Conv.stride c) (Conv.padding c) Zeros.

(** [timestep_embedding(timesteps, dim)] on a 1-D batch of timesteps. *)
Definition timestep_embedding (timesteps : Shape) (dim : nat) : result Shape :=
  match timesteps with
  | [n] => Ok [n; dim]
  | _ => Raise (RuntimeError "timestep_embedding: timesteps must be a 1-D batch")
  end.

(** ** [Upsample] *)

Module Upsample.
Record t : Type := mk {
  channels : nat;
  out_channels : nat;
  use_conv : bool;
  dims : nat;
  conv : option Conv.t;
}.

Definition __init__ (channels : nat) (use_conv : bool) (dims : nat)
    (out_channels : option nat) : Build t :=
  let out_channels := py_or out_channels channels in
  if use_conv
  then c ← conv_nd dims channels out_channels 3 (every_axis dims 1) 1;
       mret (mk channels out_channels use_conv dims (Some c))
  else mret (mk channels out_channels use_conv dims None).

Definition forward (u : t) (x : Shape) : result Shape :=
  c ← getitem x 1;
  _ ← py_assert (c =? channels u) "";
  x ← (if dims u =? 3 then interpolate_inner2 x else interpolate_x2 x);
  if use_conv u
  then match conv u with
       | Some cv => Conv.forward cv x
       | None => Raise (AttributeError "'Upsample' object has no attribute 'conv'")
       end
  else Ok x.
End Upsample.

(** ** [Downsample] *)

Module Downsample.
Inductive op_t : Type :=
| OpConv (c : Conv.t)
| OpAvgPool (p : AvgPool.t).

Record t : Type := mk {
  channels : nat;
  out_channels : nat;
  use_conv : bool;
  dims : nat;
  op : op_t;
}.

(** [stride = 2 if dims != 3 else (1, 2, 2)] *)
Definition stride_of (dims : nat) : list nat :=
  if negb (dims =? 3) then every_axis dims 2 else [1; 2; 2].

Definition __init__ (channels : nat) (use_conv : bool) (dims : nat)
    (out_channels : option nat) : Build t :=
  let out_channels := py_or out_channels channels in
  let stride := stride_of dims in
  if use_conv
  then c ← conv_nd dims channels out_channels 3 stride 1;
       mret (mk channels out_channels use_conv dims (OpConv c))
  else _ ← build_assert (channels =? out_channels) "";
       p ← avg_pool_nd dims stride stride;
       mret (mk channels out_channels use_conv dims (OpAvgPool p)).

Definition forward (d : t) (x : Shape) : result Shape :=
  c ← getitem x 1;
  _ ← py_assert (c =? channels d) "";
  match op d with
  | OpConv cv => Conv.forward cv x
  | OpAvgPool p => AvgPool.forward p x
  end.
End Downsample.

(** ** [ResBlock] *)

(** [nn.Dropout(p=dropout)]: the constructor of the layer refuses a
    probability outside [0, 1] (its message goes on with the number). *)
Definition dropout_module (p : Q) : Build unit :=
  if Qle_bool 0 p && Qle_bool p 1 then mret ()
  else fail (ValueError "dropout probability has to be between 0 and 1").

Module ResBlock.
Inductive resample : Type :=
| RUp (u : Upsample.t)
| RDown (d : Downsample.t)
| RIdentity.

Inductive skip : Type :=
| SkipIdentity
| SkipConv (c : Conv.t).

Record t : Type := mk {
  channels : nat;
  emb_channels : nat;
  dropout : Q;
  out_channels : nat;
  use_conv : bool;
  use_checkpoint : bool;
  use_scale_shift_norm : bool;
  in_norm : Norm.t;          (* in_layers[0]; in_layers[1] is SiLU *)
  in_conv : Conv.t;          (* in_layers[2] *)
  updown : bool;
  h_upd : resample;
  x_upd : resample;
  emb_linear : Linear.t;     (* emb_layers[1]; emb_layers[0] is SiLU *)
  out_norm : Norm.t;         (* out_layers[0]; then SiLU and Dropout *)
  out_conv : Conv.t;         (* out_layers[3], zero-initialised *)
  skip_connection : skip;
}.

Definition __init__ (channels emb_channels : nat) (dropout : Q)
    (out_channels : option nat) (use_conv use_scale_shift_norm : bool)
    (dims : nat) (use_checkpoint up down : bool) : Build t :=
  let out_channels := py_or out_channels channels in
  n1 ← normalization channels;
  c1 ← conv_nd dims channels out_channels 3 (every_axis dims 1) 1;
  let updown := up || down in
  '(h_upd, x_upd) ←
    (if up then
       h ← Upsample.__init__ channels false dims None;
       x ← Upsample.__init__ channels false dims None;
       mret (RUp h, RUp x)
     else if down then
       h ← Downsample.__init__ channels false dims None;
       x ← Downsample.__init__ channels false dims None;
       mret (RDown h, RDown x)
     else mret (RIdentity, RIdentity));
  l ← linear emb_channels
        (if use_scale_shift_norm then 2 * out_channels else out_channels);
  n2 ← normalization out_channels;
  _ ← dropout_module dropout;
  c2 ← conv_nd dims out_channels out_channels 3 (every_axis dims 1) 1;
  sk ← (if out_channels =? channels then mret SkipIdentity
        else if use_conv then
          c ← conv_nd dims channels out_channels 3 (every_axis dims 1) 1;
          mret (SkipConv c)
        else
          c ← conv_nd dims channels out_channels 1 (every_axis dims 1) 0;
          mret (SkipConv c));
  mret (mk channels emb_channels dropout out_channels use_conv use_checkpoint
           use_scale_shift_norm n1 c1 updown h_upd x_upd l n2 (zero_module c2) sk).

Definition resample_forward (r : resample) (x : Shape) : result Shape :=
  match r with
  | RUp u => Upsample.forward u x
  | RDown d => Downsample.forward d x
  | RIdentity => Ok x
  end.

Definition skip_forward (s : skip) (x : Shape) : result Shape :=
  match s with
  | SkipIdentity => Ok x
  | SkipConv c => Conv.forward c x
  end.

(** [while len(emb_out.shape) < len(h.shape): emb_out = emb_out[..., None]] *)
Definition append_axes (emb_out h : Shape) : Shape :=
  emb_out ++ replicate (length h - length emb_out) 1.

Definition _forward (b : t) (x emb : Shape) : result Shape :=
  '(h, x) ←
    (if updown b then
       h ← Norm.forward (in_norm b) x;
       h ← resample_forward (h_upd b) h;
       x ← resample_forward (x_upd b) x;
       h ← Conv.forward (in_conv b) h;
       Ok (h, x)
     else
       h ← Norm.forward (in_norm b) x;
       h ← Conv.forward (in_conv b) h;
       Ok (h, x));
  emb_out ← Linear.forward (emb_linear b) emb;
  let emb_out := append_axes emb_out h in
  h ← (if use_scale_shift_norm b then
         '(scale, shift) ← chunk2_1 emb_out;
         h ← Norm.forward (out_norm b) h;
         h ← broadcast h scale;
         h ← broadcast h shift;
         Conv.forward (out_conv b) h
       else
         h ← broadcast h emb_out;
         h ← Norm.forward (out_norm b) h;
         Conv.forward (out_conv b) h);
  sx ← skip_forward (skip_connection b) x;
  broadcast sx h.

(** [checkpoint(self._forward, (x, emb), self.parameters(), self.use_checkpoint)] *)
Definition forward (b : t) (x emb : Shape) : result Shape := _forward b x emb.
End ResBlock.

(** ** Attention *)

(** [t.reshape(..., -1, ...)]: the free axis is inferred from the element
    count [total] and the product [known] of the given axes. *)
Definition infer_axis (total known : nat) : result nat :=
  if (known =? 0) || negb (total `mod` known =? 0)
  then Raise (RuntimeError "reshape: invalid shape for the input size")
  else Ok (total `div` known).

(** The order in which a kernel splits its input: [QKVAttentionLegacy]
    reshapes to the heads first and then splits [q], [k], [v];
    [QKVAttention] chunks [q], [k], [v] first. *)
Inductive head_order : Type := HeadsFirst | QKVFirst.

(** The head width [ch] and the number of heads as naturals, following
    [assert width % (3 * self.n_heads) == 0] and
    [ch = width // (3 * self.n_heads)], and what fails before the first
    einsum when they are not positive:
    - in [QKVAttentionLegacy], [reshape(bs * n_heads, ch * 3, length)]
      refuses a negative axis, and at [ch = 0] [split(0, dim=1)] returns one
      piece, which does not unpack into [q, k, v];
    - in [QKVAttention], [1 / math.sqrt(math.sqrt(ch))] divides by zero at
      [ch = 0] and leaves the domain of [math.sqrt] at [ch < 0]. *)
Definition head_width (order : head_order) (n_heads : Z) (bs width : nat)
  : result (nat * nat) :=
  if (n_heads =? 0)%Z then Raise ZeroDivisionError
  else
    _ ← py_assert ((Z.of_nat width `mod` (3 * n_heads)) =? 0)%Z "";
    let ch := (Z.of_nat width `div` (3 * n_heads))%Z in
    match order with
    | HeadsFirst =>
        if (n_heads <? 0)%Z && negb ((bs =? 0) && (width =? 0))
        then Raise (RuntimeError "reshape: invalid shape dimension")
        else if (ch =? 0)%Z
        then Raise (ValueError "not enough values to unpack (expected 3, got 1)")
        else Ok (Z.to_nat n_heads, Z.to_nat ch)
    | QKVFirst =>
        if (ch =? 0)%Z then Raise ZeroDivisionError
        else if (n_heads <? 0)%Z then Raise (ValueError "math domain error")
        else Ok (Z.to_nat n_heads, Z.to_nat ch)
    end.

Module QKVAttentionLegacy.
Record t : Type := mk { n_heads : Z }.

Definition forward (a : t) (qkv : Shape) : result Shape :=
  match qkv with
  | [bs; width; length] =>
      '(h, ch) ← head_width HeadsFirst (n_heads a) bs width;
      (* q, k, v : [bs * h; ch; length] after reshape and split *)
      let weight := [bs * h; length; length] in
      let a := [bs * h; ch; length] in
      c ← infer_axis (prod_list a) (bs * length);
      Ok [bs; c; length]
  | _ => Raise (ValueError "cannot unpack qkv.shape")
  end.
End QKVAttentionLegacy.

Module QKVAttention.
Record t : Type := mk { n_heads : Z }.

Definition forward (a : t) (qkv : Shape) : result Shape :=
  match qkv with
  | [bs; width; length] =>
      '(h, ch) ← head_width QKVFirst (n_heads a) bs width;
      (* q, k, v : [bs; width / 3; length] after chunk, viewed as
         [bs * h; ch; length] *)
      let weight := [bs * h; length; length] in
      let a := [bs * h; ch; length] in
      c ← infer_axis (prod_list a) (bs * length);
      Ok [bs; c; length]
  | _ => Raise (ValueError "cannot unpack qkv.shape")
  end.
End QKVAttention.

Module AttentionBlock.
Inductive attention_t : Type :=
| New (a : QKVAttention.t)
| Legacy (a : QKVAttentionLegacy.t).

Record t : Type := mk {
  channels : nat;
  num_heads : Z;
  use_checkpoint : bool;
  norm : Norm.t;
  qkv : Conv.t;
  attention : attention_t;
  proj_out : Conv.t;
}.

Definition not_divisible_msg (channels : nat) (num_head_channels : Z) : string :=
  "q,k,v channels " +:+ pretty channels +:+
  " is not divisible by num_head_channels " +:+ pretty num_head_channels.

Definition __init__ (channels : nat) (num_heads num_head_channels : Z)
    (use_checkpoint use_new_attention_order : bool) : Build t :=
  num_heads ←
    (if (num_head_channels =? -1)%Z then mret num_heads
     else if (num_head_channels =? 0)%Z then fail ZeroDivisionError
     else
       _ ← build_assert
             ((Z.of_nat channels `mod` num_head_channels) =? 0)%Z
             (not_divisible_msg channels num_head_channels);
       mret (Z.of_nat channels `div` num_head_channels)%Z);
  n ← normalization channels;
  qkv ← conv_nd 1 channels (channels * 3) 1 (every_axis 1 1) 0;
  let attention :=
    if use_new_attention_order then New (QKVAttention.mk num_heads)
    else Legacy (QKVAttentionLegacy.mk num_heads) in
  p ← conv_nd 1 channels channels 1 (every_axis 1 1) 0;
  mret (mk channels num_heads use_checkpoint n qkv attention (zero_module p)).

Definition attention_forward (a : attention_t) (qkv : Shape) : result Shape :=
  match a with
  | New a => QKVAttention.forward a qkv
  | Legacy a => QKVAttentionLegacy.forward a qkv
  end.

Definition _forward (blk : t) (x : Shape) : result Shape :=
  match x with
  | b :: c :: spatial =>
      t ← infer_axis (prod_list x) (b * c);
      let x := [b; c; t] in
      h ← Norm.forward (norm blk) x;
      qkv ← Conv.forward (qkv blk) h;
      h ← attention_forward (attention blk) qkv;
      h ← Conv.forward (proj_out blk) h;
      s ← broadcast x h;
      if prod_list s =? prod_list (b :: c :: spatial)
      then Ok (b :: c :: spatial)
      else Raise (RuntimeError "reshape: invalid shape for the input size")
  | _ => Raise (ValueError "cannot unpack x.shape")
  end.

(** [checkpoint(self._forward, (x,), self.parameters(), True)] *)
Definition forward (blk : t) (x : Shape) : result Shape := _forward blk x.
End AttentionBlock.

(** ** [TimestepEmbedSequential] *)

(** The modules that occur as children of a [TimestepEmbedSequential]. *)
Inductive Layer : Type :=
| LConv (c : Conv.t)
| LResBlock (b : ResBlock.t)
| LAttention (a : AttentionBlock.t)
| LDownsample (d : Downsample.t)
| LUpsample (u : Upsample.t).

Module TimestepEmbedSequential.
(** [built_at_ds] is bookkeeping of this development only: the value the
    constructor's running downsample factor [ds] had when it created the
    first layer of the block.  [forward] never reads it. *)
Record t : Type := mk {
  layers : list Layer;
  built_at_ds : nat;
}.

(** [layer(x, emb)] for a [TimestepBlock], [layer(x)] otherwise. *)
Definition layer_forward (l : Layer) (x emb : Shape) : result Shape :=
  match l with
  | LResBlock b => ResBlock.forward b x emb
  | LConv c => Conv.forward c x
  | LAttention a => AttentionBlock.forward a x
  | LDownsample d => Downsample.forward d x
  | LUpsample u => Upsample.forward u x
  end.

Fixpoint run (ls : list Layer) (x emb : Shape) : result Shape :=
  match ls with
  | [] => Ok x
  | l :: ls' => x ← layer_forward l x emb; run ls' x emb
  end.

Definition forward (s : t) (x emb : Shape) : result Shape := run (layers s) x emb.
End TimestepEmbedSequential.

(** ** The conditioning module ([guided_diffusion/hrnet.py]) *)

Module HRNet.
(** Modelled from the spec: the class [HRNet] is imported from [hrnet.py];
    its constructor is taken to store its arguments, and its forward pass
    is a parameter of the backbone's forward pass (see [EchoDNDUNet.forward]). *)
Record t : Type := mk {
  in_ch : Z;
  out_ch : nat;
  mid_ch : nat;
  num_stage : nat;
}.
End HRNet.

(** ** [EchoDNDUNet] *)

Inductive dtype : Type := float16 | float32.

Module Embedding.
Record t : Type := mk { num_embeddings : nat; embedding_dim : nat; weight : Init }.
End Embedding.

(** [nn.Sequential(normalization(ch), nn.SiLU(), zero_module(conv_nd(...)))] *)
Module OutProjection.
Record t : Type := mk { norm : Norm.t; conv : Conv.t }.

Definition forward (o : t) (h : Shape) : result Shape :=
  h ← Norm.forward (norm o) h; Conv.forward (conv o) h.
End OutProjection.

Definition deepcopy {A : Type} (a : A) : A := a.

Fixpoint enumerate_from {A} (k : nat) (l : list A) : list (nat * A) :=
  match l with
  | [] => []
  | x :: r => (k, x) :: enumerate_from (S k) r
  end.
Definition enumerate {A} (l : list A) : list (nat * A) := enumerate_from 0 l.

(** [range(n)] *)
Definition range (n : nat) : list nat := seq 0 n.

Module Config.
(** The arguments of [EchoDNDUNet.__init__]. *)
Record t : Type := mk {
  image_size : nat;
  in_channels : nat;
  model_channels : nat;
  out_channels_gaussian : nat;
  out_channels_bernoulli : nat;
  num_res_blocks : nat;
  attention_resolutions : gset nat;
  dropout : Q;
  channel_mult : list nat;
  conv_resample : bool;
  dims : nat;
  num_classes : option nat;
  use_checkpoint : bool;
  use_fp16 : bool;
  num_heads : Z;
  num_head_channels : Z;
  num_heads_upsample : Z;
  use_scale_shift_norm : bool;
  resblock_updown : bool;
  use_new_attention_order : bool;
  high_way : bool;
}.
End Config.

Module EchoDNDUNet.
Import Config.

Record t : Type := mk {
  image_size : nat;
  in_channels : nat;
  model_channels : nat;
  num_res_blocks : nat;
  attention_resolutions : gset nat;
  dropout : Q;
  channel_mult : list nat;
  conv_resample : bool;
  num_classes : option nat;
  use_checkpoint : bool;
  dtype_ : dtype;
  num_heads : Z;
  num_head_channels : Z;
  num_heads_upsample : Z;
  time_embed : Linear.t * Linear.t;
  label_emb : option Embedding.t;
  input_blocks_gaussian : list TimestepEmbedSequential.t;
  _feature_size : nat;
  middle_block_gaussian : TimestepEmbedSequential.t;
  output_blocks_gaussian : list TimestepEmbedSequential.t;
  out_gaussian : OutProjection.t;
  input_blocks_bernoulli : list TimestepEmbedSequential.t;
  middle_block_bernoulli : TimestepEmbedSequential.t;
  output_blocks_bernoulli : list TimestepEmbedSequential.t;
  out_bernoulli : OutProjection.t;
  mfcm : option HRNet.t;
}.

(** The local variables the constructor updates while it builds one
    pathway. *)
Record locals : Type := mkLocals {
  blocks : list TimestepEmbedSequential.t;  (* the ModuleList being filled *)
  feature_size : nat;                       (* self._feature_size *)
  input_block_chans : list nat;
  ch : nat;
  ds : nat;
}.

Definition time_embed_dim (cfg : Config.t) : nat := Config.model_channels cfg * 4.

Definition plain_ResBlock (cfg : Config.t) (channels : nat)
    (out_channels : option nat) (up down : bool) : Build ResBlock.t :=
  ResBlock.__init__ channels (time_embed_dim cfg) (Config.dropout cfg) out_channels
    false (Config.use_scale_shift_norm cfg) (Config.dims cfg)
    (Config.use_checkpoint cfg) up down.

Definition attention_layers (cfg : Config.t) (ds ch : nat) (heads : Z)
  : Build (list Layer) :=
  if bool_decide (ds ∈ Config.attention_resolutions cfg)
  then a ← AttentionBlock.__init__ ch heads (Config.num_head_channels cfg)
             (Config.use_checkpoint cfg) (Config.use_new_attention_order cfg);
       mret [LAttention a]
  else mret [].

(** [for _ in range(num_res_blocks): ...] of the encoder. *)
Fixpoint encoder_res_blocks (cfg : Config.t) (mult : nat) (n : nat) (st : locals)
  : Build locals :=
  match n with
  | 0 => mret st
  | S n' =>
      rb ← plain_ResBlock cfg (ch st) (Some (mult * Config.model_channels cfg))
             false false;
      let ch := mult * Config.model_channels cfg in
      at_ ← attention_layers cfg (ds st) ch (Config.num_heads cfg);
      let layers := LResBlock rb :: at_ in
      encoder_res_blocks cfg mult n'
        (mkLocals (blocks st ++ [TimestepEmbedSequential.mk layers (ds st)])
                  (feature_size st + ch)
                  (input_block_chans st ++ [ch])
                  ch (ds st))
  end.

(** The layer of the transition appended when [level != len(channel_mult) - 1]. *)
Definition down_layer (cfg : Config.t) (ch out_ch : nat) : Build Layer :=
  if Config.resblock_updown cfg
  then rb ← plain_ResBlock cfg ch (Some out_ch) false true;
       mret (LResBlock rb)
  else d ← Downsample.__init__ ch (Config.conv_resample cfg)
             (Config.dims cfg) (Some out_ch);
       mret (LDownsample d).

Definition encoder_downsample (cfg : Config.t) (st : locals) : Build locals :=
  let out_ch := ch st in
  l ← down_layer cfg (ch st) out_ch;
  let ch := out_ch in
  mret (mkLocals (blocks st ++ [TimestepEmbedSequential.mk [l] (ds st)])
                 (feature_size st + ch)
                 (input_block_chans st ++ [ch])
                 ch (ds st * 2)).

(** [for level, mult in enumerate(channel_mult): ...] *)
Fixpoint encoder_levels (cfg : Config.t) (levels : list (nat * nat)) (st : locals)
  : Build locals :=
  match levels with
  | [] => mret st
  | (level, mult) :: rest =>
      st ← encoder_res_blocks cfg mult (Config.num_res_blocks cfg) st;
      st ← (if negb (level =? length (Config.channel_mult cfg) - 1)
            then encoder_downsample cfg st
            else mret st);
      encoder_levels cfg rest st
  end.

Definition lift {A} (r : result A) : Build A := fun s =>
  match r with
  | Ok a => Ok (a, s)
  | Raise e => Raise e
  end.

(** The layer appended when [level and i == num_res_blocks]. *)
Definition up_layer (cfg : Config.t) (ch out_ch : nat) : Build Layer :=
  if Config.resblock_updown cfg
  then rb ← plain_ResBlock cfg ch (Some out_ch) true false;
       mret (LResBlock rb)
  else u ← Upsample.__init__ ch (Config.conv_resample cfg)
             (Config.dims cfg) (Some out_ch);
       mret (LUpsample u).

(** [for i in range(num_res_blocks + 1): ...] of the decoder. *)
Fixpoint decoder_res_blocks (cfg : Config.t) (level mult : nat) (is_ : list nat)
    (st : locals) : Build locals :=
  match is_ with
  | [] => mret st
  | i :: is' =>
      '(ich, chans) ← lift (pop (input_block_chans st));
      rb ← plain_ResBlock cfg (ch st + ich) (Some (Config.model_channels cfg * mult))
             false false;
      let ch := Config.model_channels cfg * mult in
      at_ ← attention_layers cfg (ds st) ch (Config.num_heads_upsample cfg);
      '(up, ds') ←
        (if negb (level =? 0) && (i =? Config.num_res_blocks cfg)
         then
           let out_ch := ch in
           l ← up_layer cfg ch out_ch;
           mret ([l], ds st `div` 2)
         else mret ([], ds st));
      let layers := LResBlock rb :: at_ ++ up in
      decoder_res_blocks cfg level mult is'
        (mkLocals (blocks st ++ [TimestepEmbedSequential.mk layers (ds st)])
                  (feature_size st + ch)
                  chans ch ds')
  end.

(** [for level, mult in list(enumerate(channel_mult))[::-1]: ...] *)
Fixpoint decoder_levels (cfg : Config.t) (levels : list (nat * nat)) (st : locals)
  : Build locals :=
  match levels with
  | [] => mret st
  | (level, mult) :: rest =>
      st ← decoder_res_blocks cfg level mult
             (range (Config.num_res_blocks cfg + 1)) st;
      decoder_levels cfg rest st
  end.

Definition middle_block (cfg : Config.t) (ch ds : nat)
  : Build TimestepEmbedSequential.t :=
  r1 ← plain_ResBlock cfg ch None false false;
  a ← AttentionBlock.__init__ ch (Config.num_heads cfg) (Config.num_head_channels cfg)
        (Config.use_checkpoint cfg) (Config.use_new_attention_order cfg);
  r2 ← plain_ResBlock cfg ch None false false;
  mret (TimestepEmbedSequential.mk [LResBlock r1; LAttention a; LResBlock r2] ds).

Definition out_projection (cfg : Config.t) (ch out_channels : nat)
  : Build OutProjection.t :=
  n ← normalization ch;
  c ← conv_nd (Config.dims cfg) (Config.model_channels cfg) out_channels 3
        (every_axis (Config.dims cfg) 1) 1;
  mret (OutProjection.mk n (zero_module c)).

(** The part of [__init__] that builds the input blocks, the middle block
    and the output blocks of the Gaussian pathway; it returns the local
    variables as they are when the encoder loop ends and when the decoder
    loop ends, and the middle block. *)
Definition gaussian_pathway (cfg : Config.t)
  : Build (locals * TimestepEmbedSequential.t * locals) :=
  let model_channels := Config.model_channels cfg in
  stem ← conv_nd (Config.dims cfg) (Config.in_channels cfg) model_channels 3
           (every_axis (Config.dims cfg) 1) 1;
  let st := mkLocals [TimestepEmbedSequential.mk [LConv stem] 1]
              model_channels [model_channels] model_channels 1 in
  enc ← encoder_levels cfg (enumerate (Config.channel_mult cfg)) st;
  middle ← middle_block cfg (ch enc) (ds enc);
  let st := mkLocals [] (feature_size enc + ch enc) (input_block_chans enc)
              (ch enc) (ds enc) in
  dec ← decoder_levels cfg (reverse (enumerate (Config.channel_mult cfg))) st;
  mret (enc, middle, dec).

(** The configuration after the constructor has rebound its local
    [num_heads_upsample]. *)
Definition set_num_heads_upsample (cfg : Config.t) (v : Z) : Config.t :=
  Config.mk (Config.image_size cfg) (Config.in_channels cfg)
    (Config.model_channels cfg) (Config.out_channels_gaussian cfg)
    (Config.out_channels_bernoulli cfg) (Config.num_res_blocks cfg)
    (Config.attention_resolutions cfg) (Config.dropout cfg)
    (Config.channel_mult cfg) (Config.conv_resample cfg)
    (Config.dims cfg) (Config.num_classes cfg)
    (Config.use_checkpoint cfg) (Config.use_fp16 cfg)
    (Config.num_heads cfg) (Config.num_head_channels cfg)
    v (Config.use_scale_shift_norm cfg)
    (Config.resblock_updown cfg) (Config.use_new_attention_order cfg)
    (Config.high_way cfg).

Definition __init__ (cfg : Config.t) : Build t :=
  let num_heads_upsample :=
    if (Config.num_heads_upsample cfg =? -1)%Z then Config.num_heads cfg
    else Config.num_heads_upsample cfg in
  let cfg := set_num_heads_upsample cfg num_heads_upsample in
  let model_channels := Config.model_channels cfg in
  l1 ← linear model_channels (time_embed_dim cfg);
  l2 ← linear (time_embed_dim cfg) (time_embed_dim cfg);
  label_emb ←
    match Config.num_classes cfg with
    | Some n => w ← draw; mret (Some (Embedding.mk n (time_embed_dim cfg) w))
    | None => mret None
    end;
  '(enc, middle, st) ← gaussian_pathway cfg;
  let input_blocks := blocks enc in
  let output_blocks := blocks st in
  out_g ← out_projection cfg (ch st) (Config.out_channels_gaussian cfg);
  let input_blocks_b := deepcopy input_blocks in
  let middle_b := deepcopy middle in
  let output_blocks_b := deepcopy output_blocks in
  out_b ← out_projection cfg (ch st) (Config.out_channels_bernoulli cfg);
  let mfcm :=
    if Config.high_way cfg
    then Some (HRNet.mk (Z.of_nat (Config.in_channels cfg) - 1) 1 32 4)
    else None in
  mret (mk (Config.image_size cfg) (Config.in_channels cfg) model_channels
           (Config.num_res_blocks cfg) (Config.attention_resolutions cfg)
           (Config.dropout cfg) (Config.channel_mult cfg)
           (Config.conv_resample cfg) (Config.num_classes cfg)
           (Config.use_checkpoint cfg)
           (if Config.use_fp16 cfg then float16 else float32)
           (Config.num_heads cfg) (Config.num_head_channels cfg)
           num_heads_upsample (l1, l2) label_emb
           input_blocks (feature_size st) middle output_blocks out_g
           input_blocks_b middle_b output_blocks_b out_b mfcm).
End EchoDNDUNet.

(** ** [EchoDNDUNet.forward] *)

(** [th.cat(ts, 1)] *)
Fixpoint cat1_list (ts : list Shape) : result Shape :=
  match ts with
  | [] => Raise (RuntimeError "torch.cat(): expected a non-empty list of Tensors")
  | [a] => Ok a
  | a :: rest => b ← cat1_list rest; cat1 a b
  end.

Section Forward.
(** The forward pass of the conditioning module, [self.mfcm(x)]: from the
    shape of the image channel to the anchor features [anch] (indexed as
    [anch[0]], [anch[1]]) and the calibration map [cal]. *)
Variable HRNet_forward : HRNet.t -> Shape -> result (list Shape * Shape).

Import EchoDNDUNet.

Definition mfcm_forward (net : t) (x : Shape) : result (list Shape * Shape) :=
  match mfcm net with
  | Some m => HRNet_forward m x
  | None => Raise (AttributeError "'EchoDNDUNet' object has no attribute 'mfcm'")
  end.

(** The variables the two loops of [forward] update. *)
Record vars : Type := mkVars {
  h_gaussian : Shape;
  h_bernoulli : Shape;
  hs_gaussian : list Shape;
  hs_bernoulli : list Shape;
  emb : Shape;
}.

(** [h + th.cat((anch[0], anch[0], anch[1]), 1).detach()] *)
Definition add_anchor (h : Shape) (anch : list Shape) : result Shape :=
  a0 ← getitem anch 0;
  a0' ← getitem anch 0;
  a1 ← getitem anch 1;
  a ← cat1_list [a0; a0'; a1];
  broadcast h a.

(** [for ind in range(len(self.input_blocks_gaussian)): ...] *)
Fixpoint encoder_loop (net : t) (anch : list Shape) (inds : list nat) (st : vars)
  : result vars :=
  match inds with
  | [] => Ok st
  | ind :: rest =>
      let emb := if 2 <? length (emb st) then squeeze (emb st) else emb st in
      bg ← getitem (input_blocks_gaussian net) ind;
      h_g ← TimestepEmbedSequential.forward bg (h_gaussian st) emb;
      bb ← getitem (input_blocks_bernoulli net) ind;
      h_b ← TimestepEmbedSequential.forward bb (h_bernoulli st) emb;
      '(h_g, h_b) ←
        (if ind =? 0
         then h_g ← add_anchor h_g anch;
              h_b ← add_anchor h_b anch;
              Ok (h_g, h_b)
         else Ok (h_g, h_b));
      encoder_loop net anch rest
        (mkVars h_g h_b (hs_gaussian st ++ [h_g]) (hs_bernoulli st ++ [h_b]) emb)
  end.

(** [for ind in range(len(self.output_blocks_gaussian)): ...] *)
Fixpoint decoder_loop (net : t) (inds : list nat) (st : vars) : result vars :=
  match inds with
  | [] => Ok st
  | ind :: rest =>
      '(skip_g, hs_g) ← pop (hs_gaussian st);
      h_g ← cat1 (h_gaussian st) skip_g;
      bg ← getitem (output_blocks_gaussian net) ind;
      h_g ← TimestepEmbedSequential.forward bg h_g (emb st);
      '(skip_b, hs_b) ← pop (hs_bernoulli st);
      h_b ← cat1 (h_bernoulli st) skip_b;
      bb ← getitem (output_blocks_bernoulli net) ind;
      h_b ← TimestepEmbedSequential.forward bb h_b (emb st);
      decoder_loop net rest (mkVars h_g h_b hs_g hs_b (emb st))
  end.

(** [h.type(self.dtype)].  The shapes of this development are the shapes
    of float32 tensors: [x] is a float32 tensor, and the constructor leaves
    every parameter in float32 (nothing in the file converts a module to
    float16).  A layer with float32 parameters refuses a float16 tensor, and
    the first statement that runs on [h_gaussian] after the cast is the call
    of [input_blocks_gaussian[0]], whose first layer is the stem
    convolution: with [self.dtype = th.float16] that call raises, and the
    error is raised here, at the cast. *)
Definition as_dtype (d : dtype) (h : Shape) : result Shape :=
  match d with
  | float32 => Ok h
  | float16 => Raise (RuntimeError "Input type and weight type should be the same")
  end.

(** The body of [forward] up to the end of the decoder loop, returning the
    loop variables as they are when the output projections are reached
    together with the calibration map. *)
Definition forward_trunk (net : t) (x timesteps : Shape) (y : option Shape)
  : result (vars * Shape) :=
  c ← getitem x 1;
  _ ← py_assert (c =? 3) "Input must have 3 channels";
  x_img ← slice1 x 0 1;
  noise_gaussian ← slice1 x 1 2;
  noise_bernoulli ← slice1 x 2 3;
  _ ← py_assert (eqb (bool_decide (y <> None)) (bool_decide (num_classes net <> None)))
        "must specify y if and only if the model is class-conditional";
  te ← timestep_embedding timesteps (model_channels net);
  e ← Linear.forward (fst (time_embed net)) te;
  emb0 ← Linear.forward (snd (time_embed net)) e;
  if bool_decide (num_classes net <> None)
  then Raise (NotImplementedError "Class-conditional model not implemented")
  else
    '(anch, cal) ← mfcm_forward net x_img;
    h_g ← cat1_list [x_img; noise_gaussian] ≫= as_dtype (dtype_ net);
    h_b ← cat1_list [x_img; noise_bernoulli] ≫= as_dtype (dtype_ net);
    st ← encoder_loop net anch (range (length (input_blocks_gaussian net)))
           (mkVars h_g h_b [] [] emb0);
    h_g ← TimestepEmbedSequential.forward (middle_block_gaussian net)
            (h_gaussian st) (emb st);
    h_b ← TimestepEmbedSequential.forward (middle_block_bernoulli net)
            (h_bernoulli st) (emb st);
    st ← decoder_loop net (range (length (output_blocks_gaussian net)))
           (mkVars h_g h_b (hs_gaussian st) (hs_bernoulli st) (emb st));
    Ok (st, cal).

Definition forward (net : t) (x timesteps : Shape) (y : option Shape)
  : result (Shape * Shape * Shape) :=
  '(st, cal) ← forward_trunk net x timesteps y;
  (* [h.type(x_img.dtype)]: back to float32, the type of [x] *)
  out_gaussian ← OutProjection.forward (out_gaussian net) (h_gaussian st);
  out_bernoulli ← OutProjection.forward (out_bernoulli net) (h_bernoulli st);
  Ok (out_gaussian, out_bernoulli, cal).
End Forward.

(** *** The configuration of the end-to-end example *)

Definition example_config : Config.t :=
  Config.mk 64 2 32 2 1 1 {[2]} 0%Q [1; 2; 4] true 2 None false false
            1%Z (-1)%Z (-1)%Z false false false true.

(** A conditioning module that meets its call contract at base width 32:
    anchors of 8 and 16 channels at the input resolution. *)
Definition example_mfcm (m : HRNet.t) (x : Shape) : result (list Shape * Shape) :=
  match x with
  | [n; _; h; w] => Ok ([[n; 8; h; w]; [n; 16; h; w]], [n; 1; h; w])
  | _ => Raise (RuntimeError "HRNet: expected a batch of 2-D images")
  end.

Definition build {A} (b : Build A) : result A :=
  match b 0 with
  | Ok (a, _) => Ok a
  | Raise e => Raise e
  end.

(** * Value level: the residual block on float32 tensors *)

(** The values of a tensor are IEEE 754 binary32 numbers: 24 bits of
    precision, exponents below 128, with the arithmetic of the Standard
    Library's [SpecFloat].  Results are rounded to nearest even and overflow
    to an infinity; [0 * inf], [inf - inf] and every operation on a NaN give
    NaN. *)
Abbreviation f32 := spec_float.

Definition f32_add : f32 -> f32 -> f32 := SFadd 24 128.
Definition f32_mul : f32 -> f32 -> f32 := SFmul 24 128.
Definition f32_div : f32 -> f32 -> f32 := SFdiv 24 128.
Definition f32_zero : f32 := S754_zero false.
Definition f32_one : f32 := SFone 24 128.
Definition f32_of_nat (n : nat) : f32 := binary_normalize 24 128 (Z.of_nat n) 0 false.

(** Neither an infinity nor a NaN. *)
Definition is_finite (v : f32) : bool :=
  match v with
  | S754_zero _ | S754_finite _ _ _ => true
  | S754_infinity _ | S754_nan => false
  end.

(** The same number: the same float, or two zeros, which differ in their
    sign at most (and which [==] does not tell apart). *)
Definition same_value (a b : f32) : Prop :=
  a = b \/ exists s s', a = S754_zero s /\ b = S754_zero s'.

(** A tensor: its shape and the value at each multi-index.  Values outside
    the shape are irrelevant; [teq] compares tensors on the indices inside. *)
Record Tensor : Type := mkT {
  shape : Shape;
  at_ : list nat -> f32;
}.

Definition in_range (s : Shape) (idx : list nat) : Prop := Forall2 lt idx s.

Definition teq (a b : Tensor) : Prop :=
  shape a = shape b /\
  forall idx, in_range (shape a) idx -> same_value (at_ a idx) (at_ b idx).

(** Sums accumulate from the right, starting from [+0]. *)
Definition Fsum (l : list f32) : f32 := foldr f32_add f32_zero l.

(** All multi-indices below the given bounds, in row-major order. *)
Fixpoint indices (bounds : list nat) : list (list nat) :=
  match bounds with
  | [] => [[]]
  | d :: r => i ← seq 0 d; (fun idx => i :: idx) <$> indices r
  end.

(** The index a broadcast operand of shape [s] is read at, for the index
    [idx] of the result: the trailing axes, with 0 on axes of length one. *)
Definition operand_index (s : Shape) (idx : list nat) : list nat :=
  zip_with (fun d i => if d =? 1 then 0 else i) s (drop (length idx - length s) idx).

Definition map_values (f : f32 -> f32) (x : Tensor) : Tensor :=
  mkT (shape x) (fun idx => f (at_ x idx)).

Definition zip_values (f : f32 -> f32 -> f32) (a b : Tensor) : result Tensor :=
  s ← broadcast (shape a) (shape b);
  Ok (mkT s (fun idx =>
               f (at_ a (operand_index (shape a) idx))
                 (at_ b (operand_index (shape b) idx)))).

Definition add_v : Tensor -> Tensor -> result Tensor := zip_values f32_add.
Definition mul_v : Tensor -> Tensor -> result Tensor := zip_values f32_mul.

Section ResBlockValues.
(** The value at index [idx] of the parameter tensors drawn at draw number
    [seed] ([0 :: _] indexes the weight, [1 :: _] the bias). *)
Variable initial_value : nat -> list nat -> f32.
(** The values a normalisation layer returns ([guided_diffusion/nn.py]),
    [nn.SiLU] on one number, and the values a dropout layer returns (random
    in training mode): kernels of the library, about which nothing is
    assumed. *)
Variable norm_values : Norm.t -> Tensor -> list nat -> f32.
Variable silu_value : f32 -> f32.
Variable dropout_values : Q -> Tensor -> list nat -> f32.

Definition param (i : Init) (idx : list nat) : f32 :=
  match i with
  | Zeros => f32_zero
  | Drawn seed => initial_value seed idx
  end.

(** Input position read by kernel offset [k] for output position [p], or
    [None] inside the zero padding. *)
Definition tap (pad : nat) (p s k n : nat) : option nat :=
  let z := p * s + k in
  if (pad <=? z) && (z - pad <? n) then Some (z - pad) else None.

Fixpoint taps (pad : nat) (ps ss ks ns : list nat) : option (list nat) :=
  match ps, ss, ks, ns with
  | [], [], [], [] => Some []
  | p :: ps, s :: ss, k :: ks, n :: ns =>
      q ← tap pad p s k n; qs ← taps pad ps ss ks ns; Some (q :: qs)
  | _, _, _, _ => None
  end.

Definition conv_at (cv : Conv.t) (x : Tensor) (idx : list nat) : f32 :=
  match idx, shape x with
  | n :: o :: p, _ :: _ :: sp =>
      f32_add (param (Conv.weight cv) [1; o])
        (Fsum (c ← seq 0 (Conv.in_channels cv);
               k ← indices (replicate (Conv.dims cv) (Conv.kernel_size cv));
               [f32_mul (param (Conv.weight cv) (0 :: o :: c :: k))
                  match taps (Conv.padding cv) p (Conv.stride cv) k sp with
                  | Some q => at_ x (n :: c :: q)
                  | None => f32_zero
                  end]))
  | _, _ => f32_zero
  end.

Definition Conv_forward_v (cv : Conv.t) (x : Tensor) : result Tensor :=
  s ← Conv.forward cv (shape x); Ok (mkT s (conv_at cv x)).

Definition pool_at (p : AvgPool.t) (x : Tensor) (idx : list nat) : f32 :=
  let lead := length idx - AvgPool.dims p in
  let pos := drop lead idx in
  f32_div (Fsum (k ← indices (AvgPool.kernel_size p);
                 [at_ x (take lead idx ++
                         zip_with Nat.add (zip_with Nat.mul pos (AvgPool.stride p)) k)]))
          (f32_of_nat (prod_list (AvgPool.kernel_size p))).

Definition AvgPool_forward_v (p : AvgPool.t) (x : Tensor) : result Tensor :=
  s ← AvgPool.forward p (shape x); Ok (mkT s (pool_at p x)).

Definition linear_at (l : Linear.t) (x : Tensor) (idx : list nat) : f32 :=
  match reverse idx with
  | o :: r =>
      f32_add (param (Linear.weight l) [1; o])
        (Fsum (i ← seq 0 (Linear.in_features l);
               [f32_mul (param (Linear.weight l) [0; o; i])
                        (at_ x (reverse (i :: r)))]))
  | [] => f32_zero
  end.

Definition Linear_forward_v (l : Linear.t) (x : Tensor) : result Tensor :=
  s ← Linear.forward l (shape x); Ok (mkT s (linear_at l x)).

Definition Norm_forward_v (g : Norm.t) (x : Tensor) : result Tensor :=
  s ← Norm.forward g (shape x); Ok (mkT s (norm_values g x)).

Definition Dropout_forward_v (p : Q) (x : Tensor) : Tensor :=
  mkT (shape x) (dropout_values p x).

(** Nearest-neighbour interpolation by a factor of two. *)
Definition interpolate_x2_v (x : Tensor) : result Tensor :=
  s ← interpolate_x2 (shape x);
  Ok (mkT s (fun idx =>
               match idx with
               | n :: c :: p => at_ x (n :: c :: map (fun i => i `div` 2) p)
               | _ => f32_zero
               end)).

Definition interpolate_inner2_v (x : Tensor) : result Tensor :=
  s ← interpolate_inner2 (shape x);
  Ok (mkT s (fun idx =>
               match idx with
               | [n; c; d; h; w] => at_ x [n; c; d; h `div` 2; w `div` 2]
               | _ => f32_zero
               end)).

Definition Upsample_forward_v (u : Upsample.t) (x : Tensor) : result Tensor :=
  c ← getitem (shape x) 1;
  _ ← py_assert (c =? Upsample.channels u) "";
  x ← (if Upsample.dims u =? 3 then interpolate_inner2_v x else interpolate_x2_v x);
  if Upsample.use_conv u
  then match Upsample.conv u with
       | Some cv => Conv_forward_v cv x
       | None => Raise (AttributeError "'Upsample' object has no attribute 'conv'")
       end
  else Ok x.

Definition Downsample_forward_v (d : Downsample.t) (x : Tensor) : result Tensor :=
  c ← getitem (shape x) 1;
  _ ← py_assert (c =? Downsample.channels d) "";
  match Downsample.op d with
  | Downsample.OpConv cv => Conv_forward_v cv x
  | Downsample.OpAvgPool p => AvgPool_forward_v p x
  end.

Definition resample_forward_v (r : ResBlock.resample) (x : Tensor) : result Tensor :=
  match r with
  | ResBlock.RUp u => Upsample_forward_v u x
  | ResBlock.RDown d => Downsample_forward_v d x
  | ResBlock.RIdentity => Ok x
  end.

Definition skip_forward_v (s : ResBlock.skip) (x : Tensor) : result Tensor :=
  match s with
  | ResBlock.SkipIdentity => Ok x
  | ResBlock.SkipConv c => Conv_forward_v c x
  end.

(** [emb_out[..., None]], repeated until the ranks agree. *)
Definition append_axes_v (emb_out h : Tensor) : Tensor :=
  mkT (ResBlock.append_axes (shape emb_out) (shape h))
      (fun idx => at_ emb_out (take (length (shape emb_out)) idx)).

(** [scale, shift = th.chunk(emb_out, 2, dim=1)] *)
Definition chunk2_1_v (t : Tensor) : result (Tensor * Tensor) :=
  '(s1, s2) ← chunk2_1 (shape t);
  Ok (mkT s1 (at_ t),
      mkT s2 (fun idx =>
                match idx, s1 with
                | n :: c :: r, _ :: size :: _ => at_ t (n :: (size + c) :: r)
                | _, _ => f32_zero
                end)).

(** [out_layers[1:-1]]: SiLU and dropout, the layers between the
    normalisation and the zero-initialised convolution of [out_layers]. *)
Definition out_middle_v (b : ResBlock.t) (h : Tensor) : Tensor :=
  Dropout_forward_v (ResBlock.dropout b) (map_values silu_value h).

(** [out_layers[1:]]: SiLU, dropout, and the zero-initialised convolution. *)
Definition out_rest_v (b : ResBlock.t) (h : Tensor) : result Tensor :=
  Conv_forward_v (ResBlock.out_conv b) (out_middle_v b h).

Definition ResBlock_forward_v (b : ResBlock.t) (x emb : Tensor) : result Tensor :=
  '(h, x) ←
    (if ResBlock.updown b then
       h ← Norm_forward_v (ResBlock.in_norm b) x;
       h ← resample_forward_v (ResBlock.h_upd b) (map_values silu_value h);
       x ← resample_forward_v (ResBlock.x_upd b) x;
       h ← Conv_forward_v (ResBlock.in_conv b) h;
       Ok (h, x)
     else
       h ← Norm_forward_v (ResBlock.in_norm b) x;
       h ← Conv_forward_v (ResBlock.in_conv b) (map_values silu_value h);
       Ok (h, x));
  emb_out ← Linear_forward_v (ResBlock.emb_linear b) (map_values silu_value emb);
  let emb_out := append_axes_v emb_out h in
  h ← (if ResBlock.use_scale_shift_norm b then
         '(scale, shift) ← chunk2_1_v emb_out;
         h ← Norm_forward_v (ResBlock.out_norm b) h;
         h ← mul_v h (map_values (f32_add f32_one) scale);
         h ← add_v h shift;
         out_rest_v b h
       else
         h ← add_v h emb_out;
         h ← Norm_forward_v (ResBlock.out_norm b) h;
         out_rest_v b h);
  sx ← skip_forward_v (ResBlock.skip_connection b) x;
  add_v sx h.

(** The features the zero-initialised convolution of [out_layers] is
    applied to in [ResBlock_forward_v]: the body of [_forward] up to that
    convolution. *)
Definition out_conv_input_v (b : ResBlock.t) (x emb : Tensor) : result Tensor :=
  '(h, x) ←
    (if ResBlock.updown b then
       h ← Norm_forward_v (ResBlock.in_norm b) x;
       h ← resample_forward_v (ResBlock.h_upd b) (map_values silu_value h);
       x ← resample_forward_v (ResBlock.x_upd b) x;
       h ← Conv_forward_v (ResBlock.in_conv b) h;
       Ok (h, x)
     else
       h ← Norm_forward_v (ResBlock.in_norm b) x;
       h ← Conv_forward_v (ResBlock.in_conv b) (map_values silu_value h);
       Ok (h, x));
  emb_out ← Linear_forward_v (ResBlock.emb_linear b) (map_values silu_value emb);
  let emb_out := append_axes_v emb_out h in
  if ResBlock.use_scale_shift_norm b then
    '(scale, shift) ← chunk2_1_v emb_out;
    h ← Norm_forward_v (ResBlock.out_norm b) h;
    h ← mul_v h (map_values (f32_add f32_one) scale);
    h ← add_v h shift;
    Ok (out_middle_v b h)
  else
    h ← add_v h emb_out;
    h ← Norm_forward_v (ResBlock.out_norm b) h;
    Ok (out_middle_v b h).

(** The skip path of the block: the input, resampled when the block
    resamples, through [skip_connection]. *)
Definition skip_path_v (b : ResBlock.t) (x : Tensor) : result Tensor :=
  x ← (if ResBlock.updown b then resample_forward_v (ResBlock.x_upd b) x else Ok x);
  skip_forward_v (ResBlock.skip_connection b) x.

(** [nn.Sequential(normalization(ch), nn.SiLU(), zero_module(conv_nd(...)))] *)
Definition OutProjection_forward_v (o : OutProjection.t) (h : Tensor) : result Tensor :=
  h ← Norm_forward_v (OutProjection.norm o) h;
  Conv_forward_v (OutProjection.conv o) (map_values silu_value h).

(** The features the zero-initialised convolution of an output projection
    is applied to. *)
Definition projection_conv_input_v (o : OutProjection.t) (h : Tensor) : result Tensor :=
  h ← Norm_forward_v (OutProjection.norm o) h;
  Ok (map_values silu_value h).
End ResBlockValues.

(** *** Concrete numerics for the examples

    Stand-ins for the kernels of the library: every drawn parameter is one,
    and the normalisation, SiLU and dropout return the values they are given
    (as the real layers do with a NaN). *)
Definition ones_init : nat -> list nat -> f32 := fun _ _ => f32_one.
Definition pass_through_norm : Norm.t -> Tensor -> list nat -> f32 := fun _ t => at_ t.
Definition pass_through_silu : f32 -> f32 := fun v => v.
Definition pass_through_dropout : Q -> Tensor -> list nat -> f32 := fun _ t => at_ t.

(** A [1 x 32 x 2] input of ones with a NaN at [[0, 0, 0]], a
    [1 x 2 x 5 x 3] input and embeddings of small whole numbers. *)
Definition nan_input : Tensor :=
  mkT [1; 32; 2] (fun idx => if bool_decide (idx = [0; 0; 0]) then S754_nan else f32_one).
Definition counting_input : Tensor :=
  mkT [1; 2; 5; 3] (fun idx => f32_of_nat (sum_list idx)).
Definition zero_embedding : Tensor := mkT [1; 4] (fun _ => f32_zero).
Definition counting_embedding : Tensor :=
  mkT [1; 8] (fun idx => f32_of_nat (sum_list idx)).

(** * Value level: the two attention kernels *)

(** Here an [N x C x T] tensor of reals is the list of its [N] batch
    entries, each the list of its [C] rows of length [T]; the shape
    [bs, width, length = qkv.shape] is passed alongside. *)
Abbreviation Batch := (list (list (list R))).

Definition Rsum (l : list R) : R := foldr Rplus 0%R l.

Definition has_shape (bs width length_ : nat) (x : Batch) : Prop :=
  length x = bs /\
  Forall (fun rows => length rows = width /\
                      Forall (fun r => length r = length_) rows) x.

(** [x.reshape(n, m, T)] for an [N x C x T] tensor with [n * m = N * C]: the
    rows keep their row-major order and are regrouped [m] at a time. *)
Definition regroup (n m : nat) (x : Batch) : Batch :=
  reshape (replicate n m) (concat x).

(** [x.split(ch, dim=1)] unpacked into three names (the axis has [3 * ch] rows). *)
Definition split3 (ch : nat) (x : Batch) : Batch * Batch * Batch :=
  (take ch <$> x, (fun rows => take ch (drop ch rows)) <$> x,
   (fun rows => take ch (drop (2 * ch) rows)) <$> x).

(** [x.chunk(3, dim=1)] unpacked into three names: pieces of
    [ceil(width / 3)] rows, the last one taking what remains. *)
Definition chunk3 (width : nat) (x : Batch) : Batch * Batch * Batch :=
  let size := (width + 2) `div` 3 in
  (take size <$> x, (fun rows => take size (drop size rows)) <$> x,
   (fun rows => drop (2 * size) rows) <$> x).

(** [x * scale] *)
Definition scale_by (scale : R) (x : Batch) : Batch :=
  (fun rows : list (list R) =>
     (fun row : list R => (fun v => Rmult v scale) <$> row) <$> rows) <$> x.

(** [th.einsum("bct,bcs->bts", q, k)] *)
Definition einsum_bct_bcs_bts (length_ : nat) (q k : Batch) : Batch :=
  zip_with (fun qb kb =>
    (fun t => (fun s =>
       Rsum (zip_with (fun qc kc => Rmult (nth t qc 0%R) (nth s kc 0%R)) qb kb))
       <$> seq 0 length_) <$> seq 0 length_) q k.

(** [th.softmax(weight, dim=-1)] *)
Definition softmax_row (row : list R) : list R :=
  let z := Rsum (exp <$> row) in (fun v => Rdiv (exp v) z) <$> row.
Definition softmax_last (w : Batch) : Batch :=
  (fun wb : list (list R) => softmax_row <$> wb) <$> w.

(** [th.einsum("bts,bcs->bct", weight, v)] *)
Definition einsum_bts_bcs_bct (weight v : Batch) : Batch :=
  zip_with (fun wb vb =>
    (fun vc => (fun wt => Rsum (zip_with Rmult wt vc)) <$> wb) <$> vb) weight v.

(** [1 / math.sqrt(math.sqrt(ch))] *)
Definition attention_scale (ch : nat) : R := Rdiv 1 (sqrt (sqrt (INR ch))).

Definition QKVAttentionLegacy_forward_v (a : QKVAttentionLegacy.t)
    (bs width length_ : nat) (qkv : Batch) : result Batch :=
  '(h, ch) ← head_width HeadsFirst (QKVAttentionLegacy.n_heads a) bs width;
  let '(q, k, v) := split3 ch (regroup (bs * h) (ch * 3) qkv) in
  let scale := attention_scale ch in
  let weight := einsum_bct_bcs_bts length_ (scale_by scale q) (scale_by scale k) in
  let weight := softmax_last weight in
  let a := einsum_bts_bcs_bct weight v in
  c ← infer_axis (prod_list [bs * h; ch; length_]) (bs * length_);
  Ok (regroup bs c a).

Definition QKVAttention_forward_v (a : QKVAttention.t)
    (bs width length_ : nat) (qkv : Batch) : result Batch :=
  '(h, ch) ← head_width QKVFirst (QKVAttention.n_heads a) bs width;
  let '(q, k, v) := chunk3 width qkv in
  let scale := attention_scale ch in
  let weight := einsum_bct_bcs_bts length_
                  (regroup (bs * h) ch (scale_by scale q))
                  (regroup (bs * h) ch (scale_by scale k)) in
  let weight := softmax_last weight in
  let a := einsum_bts_bcs_bct weight (regroup (bs * h) ch v) in
  c ← infer_axis (prod_list [bs * h; ch; length_]) (bs * length_);
  Ok (regroup bs c a).

(** The channel order [QKVAttention] reads, produced from the order
    [QKVAttentionLegacy] reads: per batch entry, the [q] rows of all heads,
    then the [k] rows, then the [v] rows. *)
Definition legacy_to_new_layout (h ch : nat) (qkv : Batch) : Batch :=
  (fun rows =>
     let heads := reshape (replicate h (ch * 3)) rows in
     concat (take ch <$> heads) ++
     concat ((fun g => take ch (drop ch g)) <$> heads) ++
     concat ((fun g => take ch (drop (2 * ch) g)) <$> heads)) <$> qkv.

(** * Auxiliary definitions for the statements *)

(** The configuration the body of [EchoDNDUNet.__init__] works with. *)
Definition effective (cfg : Config.t) : Config.t :=
  EchoDNDUNet.set_num_heads_upsample cfg
    (if (Config.num_heads_upsample cfg =? -1)%Z then Config.num_heads cfg
     else Config.num_heads_upsample cfg).

(** The constructor's local variables once the first input block exists. *)
Definition stem_locals (cfg : Config.t) (stem : Conv.t) : EchoDNDUNet.locals :=
  EchoDNDUNet.mkLocals [TimestepEmbedSequential.mk [LConv stem] 1]
    (Config.model_channels cfg) [Config.model_channels cfg]
    (Config.model_channels cfg) 1.

(** Spatial extents after one downsampling and after one upsampling
    transition: every axis for 1-D and 2-D signals, the two inner axes for
    3-D ones. *)
Definition halve (dims : nat) (sp : list nat) : list nat :=
  zip_with Nat.div sp (Downsample.stride_of dims).
Definition double (dims : nat) (sp : list nat) : list nat :=
  zip_with Nat.mul sp (Downsample.stride_of dims).

(** The extents can be halved: each resampled axis is positive and even. *)
Definition halvable (dims : nat) (sp : list nat) : Prop :=
  Forall2 (fun n s => 0 < n /\ (s | n)) sp (Downsample.stride_of dims).

(** The extents can be halved [j] times in a row and stay positive. *)
Fixpoint halvable_n (dims j : nat) (sp : list nat) : Prop :=
  match j with
  | 0 => length sp = dims /\ Forall (lt 0) sp
  | S j' => halvable dims sp /\ halvable_n dims j' (halve dims sp)
  end.

(** [heads] heads (or heads of width [num_head_channels], when that is
    configured) split [c] channels evenly. *)
Definition heads_ok (num_head_channels heads : Z) (c : nat) : Prop :=
  0 < c /\
  if (num_head_channels =? -1)%Z
  then (0 < heads)%Z /\ (heads | Z.of_nat c)%Z
  else (0 < num_head_channels)%Z /\ (num_head_channels | Z.of_nat c)%Z.

(** What a block built with the flags [up] and [down] asks of the spatial
    extents of its input, and the extents it produces ([up] wins when both
    are set, as in [ResBlock.__init__]). *)
Definition resample_pre (up down : bool) (dims : nat) (sp : list nat) : Prop :=
  if up then length sp = dims /\ Forall (lt 0) sp
  else if down then halvable dims sp
  else length sp = dims /\ Forall (lt 0) sp.
Definition resampled (up down : bool) (dims : nat) (sp : list nat) : list nat :=
  if up then double dims sp else if down then halve dims sp else sp.

(** The spatial extents a block built with the flags [up] and [down]
    accepts: positive ones, and for a down block ([down] without [up])
    extents no shorter than the pooling window, even or odd. *)
Definition resample_accepts (up down : bool) (dims : nat) (sp : list nat) : Prop :=
  length sp = dims /\
  if up then Forall (lt 0) sp
  else if down then Forall2 le (Downsample.stride_of dims) sp
  else Forall (lt 0) sp.

(** The resampling unit [ResBlock.__init__] stores in [h_upd] and in [x_upd]. *)
Definition built_resample (up down : bool) (dims channels : nat) : ResBlock.resample :=
  if up then ResBlock.RUp (Upsample.mk channels channels false dims None)
  else if down then
    ResBlock.RDown
      (Downsample.mk channels channels false dims
         (Downsample.OpAvgPool
            (AvgPool.mk dims (Downsample.stride_of dims) (Downsample.stride_of dims))))
  else ResBlock.RIdentity.

(** Channel counts a layer takes and produces. *)
Definition layer_in_channels (l : Layer) : nat :=
  match l with
  | LConv c => Conv.in_channels c
  | LResBlock b => ResBlock.channels b
  | LAttention a => AttentionBlock.channels a
  | LDownsample d => Downsample.channels d
  | LUpsample u => Upsample.channels u
  end.
Definition layer_out_channels (l : Layer) : nat :=
  match l with
  | LConv c => Conv.out_channels c
  | LResBlock b => ResBlock.out_channels b
  | LAttention a => AttentionBlock.channels a
  | LDownsample d => Downsample.out_channels d
  | LUpsample u => Upsample.out_channels u
  end.

(** The kinds of layer: a downsampling transition ([Downsample], or a
    [ResBlock] built with [down=True]), an upsampling transition, a residual
    stage (a [ResBlock] that does not resample), an attention unit. *)
Definition is_downsampling (l : Layer) : bool :=
  match l with
  | LDownsample _ => true
  | LResBlock b => match ResBlock.h_upd b with ResBlock.RDown _ => true | _ => false end
  | _ => false
  end.
Definition is_upsampling (l : Layer) : bool :=
  match l with
  | LUpsample _ => true
  | LResBlock b => match ResBlock.h_upd b with ResBlock.RUp _ => true | _ => false end
  | _ => false
  end.
Definition is_residual_stage (l : Layer) : bool :=
  match l with
  | LResBlock b => match ResBlock.h_upd b with ResBlock.RIdentity => true | _ => false end
  | _ => false
  end.
Definition is_attention (l : Layer) : bool :=
  match l with
  | LAttention _ => true
  | _ => false
  end.

(** ** The stages the constructor appends

    These predicates say how a block of [input_blocks] or [output_blocks]
    came to be, in terms of the constructors that built its layers. *)

(** The attention layers appended after a residual block at downsample
    factor [ds]: one [AttentionBlock] when [ds in attention_resolutions],
    none otherwise. *)
Definition attention_of (cfg : Config.t) (ds ch : nat) (heads : Z) (at_ : list Layer)
  : Prop :=
  if bool_decide (ds ∈ Config.attention_resolutions cfg)
  then exists a s s',
         AttentionBlock.__init__ ch heads (Config.num_head_channels cfg)
           (Config.use_checkpoint cfg) (Config.use_new_attention_order cfg) s
         = Ok (a, s') /\ at_ = [LAttention a]
  else at_ = [].

(** A residual stage from [cin] to [cout] channels built at factor [ds],
    followed by an upsampling layer when [up]. *)
Definition res_stage (cfg : Config.t) (cin cout ds : nat) (heads : Z) (up : bool)
    (blk : TimestepEmbedSequential.t) : Prop :=
  exists rb at_ upl s1 s2,
    EchoDNDUNet.plain_ResBlock cfg cin (Some cout) false false s1 = Ok (rb, s2) /\
    attention_of cfg ds cout heads at_ /\
    (if up then exists l s3 s4,
                 EchoDNDUNet.up_layer cfg cout cout s3 = Ok (l, s4) /\ upl = [l]
     else upl = []) /\
    blk = TimestepEmbedSequential.mk (LResBlock rb :: at_ ++ upl) ds.

(** A downsampling transition on [c] channels built at factor [ds]. *)
Definition down_stage (cfg : Config.t) (c ds : nat) (blk : TimestepEmbedSequential.t)
  : Prop :=
  exists l s1 s2,
    EchoDNDUNet.down_layer cfg c c s1 = Ok (l, s2) /\
    blk = TimestepEmbedSequential.mk [l] ds.

(** The residual stages of one encoder level, in order. *)
Fixpoint res_chain (cfg : Config.t) (cin cout ds : nat)
    (blks : list TimestepEmbedSequential.t) : Prop :=
  match blks with
  | [] => True
  | b :: r =>
      res_stage cfg cin cout ds (Config.num_heads cfg) false b /\
      res_chain cfg cout cout ds r
  end.

(** The stages of one decoder level: stage [i] takes the current channels
    plus the [i]-th popped skip width, and the last stage of a level other
    than level 0 upsamples, after which [ds] is halved. *)
Fixpoint dec_chain (cfg : Config.t) (level mult cin ds : nat)
    (is_ popped : list nat) (blks : list TimestepEmbedSequential.t) : Prop :=
  match is_, popped, blks with
  | [], [], [] => True
  | i :: is', ich :: popped', b :: blks' =>
      let up := negb (level =? 0) && (i =? Config.num_res_blocks cfg) in
      res_stage cfg (cin + ich) (Config.model_channels cfg * mult) ds
        (Config.num_heads_upsample cfg) up b /\
      dec_chain cfg level mult (Config.model_channels cfg * mult)
        (if up then ds `div` 2 else ds) is' popped' blks'
  | _, _, _ => False
  end.

(** One pathway's share of the two loops of [forward]: every input block
    pushes its output on the skip stack, every output block pops one entry
    and concatenates it to its input. *)
Fixpoint run_encoder (blks : list TimestepEmbedSequential.t) (h : Shape)
    (hs : list Shape) (emb : Shape) : result (Shape * list Shape) :=
  match blks with
  | [] => Ok (h, hs)
  | b :: r =>
      h ← TimestepEmbedSequential.forward b h emb;
      run_encoder r h (hs ++ [h]) emb
  end.

Fixpoint run_decoder (blks : list TimestepEmbedSequential.t) (h : Shape)
    (hs : list Shape) (emb : Shape) : result (Shape * list Shape) :=
  match blks with
  | [] => Ok (h, hs)
  | b :: r =>
      '(skip, hs) ← pop hs;
      h ← cat1 h skip;
      h ← TimestepEmbedSequential.forward b h emb;
      run_decoder r h hs emb
  end.

(** The value of [ds] after the stages [is_] of one decoder level. *)
Fixpoint decoder_ds (cfg : Config.t) (level ds : nat) (is_ : list nat) : nat :=
  match is_ with
  | [] => ds
  | i :: r =>
      decoder_ds cfg level
        (if negb (level =? 0) && (i =? Config.num_res_blocks cfg)
         then ds `div` 2 else ds) r
  end.

(** *** Further configurations used as examples *)



(** The example configuration with [high_way=False]. *)
Definition no_highway_config : Config.t :=
  Config.mk 64 2 32 2 1 1 {[2]} 0%Q [1; 2; 4] true 2 None false false
            1%Z (-1)%Z (-1)%Z false false false false.

(** The example configuration with [num_classes=10]. *)
Definition class_conditional_config : Config.t :=
  Config.mk 64 2 32 2 1 1 {[2]} 0%Q [1; 2; 4] true 2 (Some 10) false false
            1%Z (-1)%Z (-1)%Z false false false true.

(** The example configuration with [channel_mult=(2, 4)]. *)
Definition wide_first_level_config : Config.t :=
  Config.mk 64 2 32 2 1 1 {[2]} 0%Q [2; 4] true 2 None false false
            1%Z (-1)%Z (-1)%Z false false false true.

(** ** The profile of a block

    What a block was built from: the value of [ds] when the constructor
    appended it, and the kinds of its layers in order. *)
Inductive layer_kind : Type :=
  | KConv | KResidual | KAttention | KDownsampling | KUpsampling.

Definition kind_of (l : Layer) : layer_kind :=
  match l with
  | LConv _ => KConv
  | LResBlock b =>
      match ResBlock.h_upd b with
      | ResBlock.RIdentity => KResidual
      | ResBlock.RDown _ => KDownsampling
      | ResBlock.RUp _ => KUpsampling
      end
  | LAttention _ => KAttention
  | LDownsample _ => KDownsampling
  | LUpsample _ => KUpsampling
  end.

Definition stage_profile (blk : TimestepEmbedSequential.t) : nat * list layer_kind :=
  (TimestepEmbedSequential.built_at_ds blk,
   map kind_of (TimestepEmbedSequential.layers blk)).

(** The profile of a residual stage built at factor [ds], with an
    upsampling layer at its end when [up]. *)
Definition residual_profile (cfg : Config.t) (ds : nat) (up : bool)
  : nat * list layer_kind :=
  (ds, KResidual ::
       (if bool_decide (ds ∈ Config.attention_resolutions cfg) then [KAttention] else []) ++
       (if up then [KUpsampling] else [])).

(** The profiles of the blocks the encoder loop appends from factor [ds]
    on, and the factor it ends with. *)
Fixpoint encoder_profile (cfg : Config.t) (levels : list (nat * nat)) (ds : nat)
  : list (nat * list layer_kind) :=
  match levels with
  | [] => []
  | (level, _) :: rest =>
      replicate (Config.num_res_blocks cfg) (residual_profile cfg ds false) ++
      (if negb (level =? length (Config.channel_mult cfg) - 1)
       then (ds, [KDownsampling]) :: encoder_profile cfg rest (ds * 2)
       else encoder_profile cfg rest ds)
  end.

Fixpoint encoder_ds (cfg : Config.t) (levels : list (nat * nat)) (ds : nat) : nat :=
  match levels with
  | [] => ds
  | (level, _) :: rest =>
      encoder_ds cfg rest
        (if negb (level =? length (Config.channel_mult cfg) - 1) then ds * 2 else ds)
  end.

(** The profiles of the blocks the decoder loop appends from factor [ds] on. *)
Fixpoint decoder_profile (cfg : Config.t) (levels : list (nat * nat)) (ds : nat)
  : list (nat * list layer_kind) :=
  match levels with
  | [] => []
  | (level, _) :: rest =>
      replicate (Config.num_res_blocks cfg) (residual_profile cfg ds false) ++
      residual_profile cfg ds (negb (level =? 0)) ::
      decoder_profile cfg rest (if level =? 0 then ds else ds `div` 2)
  end.

(** A configuration with [channel_mult=(1, 2, 4, 8)],
    [attention_resolutions={2, 4}] and two residual blocks per level. *)
Definition four_level_config : Config.t :=
  Config.mk 64 2 32 2 1 2 {[2; 4]} 0%Q [1; 2; 4; 8] true 2 None false false
            1%Z (-1)%Z (-1)%Z false false false true.

(** ** Valid configurations

    What [forward] asks of a configuration, level by level.  At the level
    with multiplier [m], reached at downsample factor [ds]: the multiplier
    is positive, and when the factor is in [attention_resolutions] the
    heads of the encoder's and of the decoder's attention units split the
    [m * model_channels] channels evenly. *)
Fixpoint levels_valid (cfg : Config.t) (ds : nat) (ms : list nat) : Prop :=
  match ms with
  | [] => True
  | m :: rest =>
      0 < m /\
      (ds ∈ Config.attention_resolutions cfg ->
       heads_ok (Config.num_head_channels cfg) (Config.num_heads cfg)
         (m * Config.model_channels cfg) /\
       heads_ok (Config.num_head_channels cfg) (Config.num_heads_upsample cfg)
         (Config.model_channels cfg * m)) /\
      levels_valid cfg (ds * 2) rest
  end.

(** The channel count at the middle block: that of the last level, or that
    of the stem when the levels have no residual blocks. *)
Definition bottleneck_channels (cfg : Config.t) : nat :=
  if Config.num_res_blocks cfg is 0 then Config.model_channels cfg
  else List.last (Config.channel_mult cfg) 1 * Config.model_channels cfg.

(** A configuration [forward] accepts:
    - each pathway's stem reads the image channel and one noise channel;
    - the first multiplier is 1, since both output projections convolve
      [model_channels] channels;
    - the heads split the channels wherever an attention unit sits (the
      middle block always has one);
    - no class conditioning, and the conditioning module is switched on;
    - float32 features ([use_fp16=False]): the constructor leaves every
      parameter in float32, whose layers refuse float16 features;
    - a dropout probability that [nn.Dropout] accepts. *)
Definition valid_config (cfg : Config.t) : Prop :=
  Config.in_channels cfg = 2 /\
  0 < Config.model_channels cfg /\
  head (Config.channel_mult cfg) = Some 1 /\
  levels_valid (effective cfg) 1 (Config.channel_mult cfg) /\
  heads_ok (Config.num_head_channels cfg) (Config.num_heads cfg)
    (bottleneck_channels cfg) /\
  Config.num_classes cfg = None /\
  Config.high_way cfg = true /\
  Config.use_fp16 cfg = false /\
  (0 <= Config.dropout cfg <= 1)%Q.

(** Modelled from the spec: the call contract of the conditioning module
    on the image channel [x_img].  It returns two anchors of the batch size
    and spatial extents of the image, with [2 * c0 + c1 = model_channels]
    channels between them, and the calibration map. *)
Definition mfcm_contract (HRNet_forward : HRNet.t -> Shape -> result (list Shape * Shape))
    (m : HRNet.t) (model_channels n : nat) (sp : list nat) (cal : Shape) : Prop :=
  exists anch c0 c1,
    HRNet_forward m (n :: 1 :: sp) = Ok (anch, cal) /\
    anch !! 0 = Some (n :: c0 :: sp) /\
    anch !! 1 = Some (n :: c1 :: sp) /\
    2 * c0 + c1 = model_channels.

(** * Properties *)

#[local] Arguments Nat.div : simpl never.
#[local] Arguments Nat.modulo : simpl never.
#[local] Arguments Z.div : simpl never.
#[local] Arguments Z.modulo : simpl never.
#[local] Arguments py_or : simpl never.
#[local] Arguments prod_list : simpl never.
#[local] Arguments Nat.mul : simpl never.
#[local] Arguments interpolate_x2 : simpl never.
#[local] Arguments interpolate_inner2 : simpl never.
#[local] Arguments broadcast : simpl never.
#[local] Arguments chunk2_1 : simpl never.
#[local] Arguments cat1 : simpl never.
#[local] Arguments infer_axis : simpl never.
#[local] Arguments head_width : simpl never.
#[local] Arguments Conv.forward : simpl never.
#[local] Arguments Norm.forward : simpl never.
#[local] Arguments Linear.forward : simpl never.
#[local] Arguments AvgPool.forward : simpl never.
#[local] Arguments Upsample.forward : simpl never.
#[local] Arguments Downsample.forward : simpl never.
#[local] Arguments ResBlock._forward : simpl never.
#[local] Arguments AttentionBlock._forward : simpl never.

(** ** Monad steps *)

Lemma result_bind_Ok {A B} (m : result A) (f : A -> result B) b :
  m ≫= f = Ok b -> exists a, m = Ok a /\ f a = Ok b.
Proof. destruct m as [a|e]; simpl; [eauto | discriminate]. Qed.

Lemma Build_bind_Ok {A B} (m : Build A) (f : A -> Build B) s b s' :
  (m ≫= f) s = Ok (b, s') -> exists a s1, m s = Ok (a, s1) /\ f a s1 = Ok (b, s').
Proof.
  unfold mbind, Build_bind. destruct (m s) as [[a s1]|e]; [eauto | discriminate].
Qed.

Lemma Build_ret_Ok {A} (a b : A) s s' :
  (mret a : Build A) s = Ok (b, s') -> b = a /\ s' = s.
Proof. unfold mret, Build_ret. intros [= -> ->]. done. Qed.

Lemma Build_bind_step {A B} (m : Build A) (f : A -> Build B) s a s1 :
  m s = Ok (a, s1) -> (m ≫= f) s = f a s1.
Proof. intros H. unfold mbind, Build_bind. by rewrite H. Qed.

Ltac inv_build H :=
  repeat match type of H with
  | (_ ≫= _) _ = Ok _ =>
      let a := fresh "a" in let s := fresh "s" in
      let H1 := fresh "H" in
      apply Build_bind_Ok in H as (a & s & H1 & H)
  | mret _ _ = Ok _ => apply Build_ret_Ok in H as [? ?]; subst
  end.


(** ** What a successful construction has built *)

Lemma conv_nd_dims {dims cin cout k stride padding s c s'} :
  conv_nd dims cin cout k stride padding s = Ok (c, s') -> 1 <= dims <= 3.
Proof. unfold conv_nd. case_bool_decide; [done | discriminate]. Qed.

Lemma init_inv cfg s net s' :
  EchoDNDUNet.__init__ cfg s = Ok (net, s') ->
  exists l1 l2 stem w s1 enc s2 middle s3 dec s4 og s5 ob,
    let cfg' := effective cfg in
    EchoDNDUNet.time_embed net = (l1, l2) /\
    l1 = Linear.mk (Config.model_channels cfg) (EchoDNDUNet.time_embed_dim cfg) (Drawn s) /\
    l2 = Linear.mk (EchoDNDUNet.time_embed_dim cfg) (EchoDNDUNet.time_embed_dim cfg)
           (Drawn (S s)) /\
    stem = Conv.mk (Config.dims cfg) (Config.in_channels cfg) (Config.model_channels cfg)
             3 (every_axis (Config.dims cfg) 1) 1 w /\
    1 <= Config.dims cfg <= 3 /\
    EchoDNDUNet.encoder_levels cfg' (enumerate (Config.channel_mult cfg))
      (stem_locals cfg stem) s1 = Ok (enc, s2) /\
    EchoDNDUNet.middle_block cfg' (EchoDNDUNet.ch enc) (EchoDNDUNet.ds enc) s2
      = Ok (middle, s3) /\
    EchoDNDUNet.decoder_levels cfg' (reverse (enumerate (Config.channel_mult cfg)))
      (EchoDNDUNet.mkLocals [] (EchoDNDUNet.feature_size enc + EchoDNDUNet.ch enc)
         (EchoDNDUNet.input_block_chans enc) (EchoDNDUNet.ch enc) (EchoDNDUNet.ds enc)) s3
      = Ok (dec, s4) /\
    EchoDNDUNet.out_projection cfg' (EchoDNDUNet.ch dec)
      (Config.out_channels_gaussian cfg) s4 = Ok (og, s5) /\
    EchoDNDUNet.out_projection cfg' (EchoDNDUNet.ch dec)
      (Config.out_channels_bernoulli cfg) s5 = Ok (ob, s') /\
    EchoDNDUNet.input_blocks_gaussian net = EchoDNDUNet.blocks enc /\
    EchoDNDUNet.middle_block_gaussian net = middle /\
    EchoDNDUNet.output_blocks_gaussian net = EchoDNDUNet.blocks dec /\
    EchoDNDUNet.out_gaussian net = og /\
    EchoDNDUNet.input_blocks_bernoulli net = EchoDNDUNet.blocks enc /\
    EchoDNDUNet.middle_block_bernoulli net = middle /\
    EchoDNDUNet.output_blocks_bernoulli net = EchoDNDUNet.blocks dec /\
    EchoDNDUNet.out_bernoulli net = ob /\
    EchoDNDUNet.model_channels net = Config.model_channels cfg /\
    EchoDNDUNet.num_classes net = Config.num_classes cfg /\
    EchoDNDUNet.mfcm net =
      (if Config.high_way cfg
       then Some (HRNet.mk (Z.of_nat (Config.in_channels cfg) - 1) 1 32 4)
       else None).
Proof.
  intros H. unfold EchoDNDUNet.__init__ in H. cbv zeta in H.
  fold (effective cfg) in H.
  apply Build_bind_Ok in H as (l1 & s1 & Hl1 & H).
  apply Build_bind_Ok in H as (l2 & s2 & Hl2 & H).
  apply Build_bind_Ok in H as (le & s3 & Hle & H).
  apply Build_bind_Ok in H as ([[enc middle] dec] & s4 & Hp & H).
  apply Build_bind_Ok in H as (og & s5 & Hog & H).
  apply Build_bind_Ok in H as (ob & s6 & Hob & H).
  apply Build_ret_Ok in H as [-> ->].
  unfold EchoDNDUNet.gaussian_pathway in Hp. cbv zeta in Hp.
  apply Build_bind_Ok in Hp as (stem & t1 & Hstem & Hp).
  apply Build_bind_Ok in Hp as (enc' & t2 & Henc & Hp).
  apply Build_bind_Ok in Hp as (mid' & t3 & Hmid & Hp).
  apply Build_bind_Ok in Hp as (dec' & t4 & Hdec & Hp).
  apply Build_ret_Ok in Hp as [Hp ->]. injection Hp as -> -> ->.
  unfold linear, draw in Hl1, Hl2.
  apply Build_bind_Ok in Hl1 as (w1 & u1 & Hw1 & Hl1).
  apply Build_bind_Ok in Hl2 as (w2 & u2 & Hw2 & Hl2).
  apply Build_ret_Ok in Hl1 as [-> ->]. apply Build_ret_Ok in Hl2 as [-> ->].
  injection Hw1 as <- <-. injection Hw2 as <- <-.
  pose proof (conv_nd_dims Hstem) as Hd.
  unfold conv_nd in Hstem. rewrite bool_decide_true in Hstem by done.
  apply Build_bind_Ok in Hstem as (w & u & Hw & Hstem).
  apply Build_ret_Ok in Hstem as [-> ->].
  exists (Linear.mk (Config.model_channels cfg) (EchoDNDUNet.time_embed_dim cfg) (Drawn s)),
    (Linear.mk (EchoDNDUNet.time_embed_dim cfg) (EchoDNDUNet.time_embed_dim cfg)
       (Drawn (S s))).
  do 12 eexists. cbv zeta.
  repeat match goal with |- _ /\ _ => split end;
    try reflexivity; try eassumption; try (simpl in *; lia).
Qed.

Lemma init_dtype cfg s net s' :
  EchoDNDUNet.__init__ cfg s = Ok (net, s') ->
  EchoDNDUNet.dtype_ net = if Config.use_fp16 cfg then float16 else float32.
Proof.
  intros H. unfold EchoDNDUNet.__init__ in H. cbv zeta in H.
  apply Build_bind_Ok in H as (l1 & s1 & Hl1 & H).
  apply Build_bind_Ok in H as (l2 & s2 & Hl2 & H).
  apply Build_bind_Ok in H as (le & s3 & Hle & H).
  apply Build_bind_Ok in H as ([[enc middle] dec] & s4 & Hp & H).
  apply Build_bind_Ok in H as (og & s5 & Hog & H).
  apply Build_bind_Ok in H as (ob & s6 & Hob & H).
  apply Build_ret_Ok in H as [-> _]. reflexivity.
Qed.

(** ** Construction-time rejection in [AttentionBlock] *)

(** C8.  When a per-head width is configured ([num_head_channels != -1]) and
    it does not divide the channel count, [AttentionBlock.__init__] raises:
    the division by zero when the width is 0, the assertion otherwise. *)
Theorem AttentionBlock_rejects_indivisible
    (channels : nat) (num_heads num_head_channels : Z)
    (use_checkpoint use_new_attention_order : bool) (seed : nat) :
  num_head_channels <> (-1)%Z ->
  ~ (num_head_channels | Z.of_nat channels)%Z ->
  AttentionBlock.__init__ channels num_heads num_head_channels
    use_checkpoint use_new_attention_order seed
  = Raise (if (num_head_channels =? 0)%Z then ZeroDivisionError
           else AssertionError
                  (AttentionBlock.not_divisible_msg channels num_head_channels)).
Proof.
  intros Hne Hnd. unfold AttentionBlock.__init__.
  unfold mbind at 1. unfold Build_bind at 1.
  destruct (Z.eqb_spec num_head_channels (-1)); [done|].
  destruct (Z.eqb_spec num_head_channels 0) as [->|Hz]; [reflexivity|].
  destruct (Z.eqb_spec (Z.of_nat channels `mod` num_head_channels) 0) as [Hm|Hm].
  - exfalso. apply Hnd. by apply Z.mod_divide.
  - reflexivity.
Qed.

Lemma AttentionBlock_rejects_indivisible_witness :
  (4 <> -1)%Z /\ ~ (4 | Z.of_nat 6)%Z /\
  AttentionBlock.__init__ 6 1 4 false false 0
  = Raise (AssertionError "q,k,v channels 6 is not divisible by num_head_channels 4").
Proof.
  assert (H1 : (4 <> -1)%Z) by lia.
  assert (H2 : ~ (4 | Z.of_nat 6)%Z).
  { intros [k Hk]. simpl in Hk. lia. }
  split; [exact H1|]. split; [exact H2|].
  exact (AttentionBlock_rejects_indivisible 6 1 4 false false 0 H1 H2).
Defined.

(** ** Errors of the forward pass *)

Section ForwardErrors.
Variable HRNet_forward : HRNet.t -> Shape -> result (list Shape * Shape).

Lemma forward_trunk_raises_without_mfcm net x timesteps y :
  EchoDNDUNet.mfcm net = None ->
  raises (forward_trunk HRNet_forward net x timesteps y).
Proof.
  intros Hm. unfold forward_trunk, raises, mfcm_forward. rewrite Hm.
  repeat match goal with
  | |- exists e, (?m ≫= _) = Raise e =>
      destruct m; simpl; [|eauto]
  | |- exists e, (if ?c then _ else _) = Raise e => destruct c; [eauto|]
  end.
  eauto.
Qed.

Lemma forward_trunk_class_conditional net x timesteps y :
  EchoDNDUNet.num_classes net <> None ->
  raises (forward_trunk HRNet_forward net x timesteps y).
Proof.
  intros Hc. unfold forward_trunk, raises.
  repeat match goal with
  | |- exists e, (?m ≫= _) = Raise e =>
      destruct m; simpl; [|eauto]
  end.
  rewrite bool_decide_true by done. eauto.
Qed.

Lemma forward_raises_of_trunk net x timesteps y :
  raises (forward_trunk HRNet_forward net x timesteps y) ->
  raises (forward HRNet_forward net x timesteps y).
Proof. intros [e He]. exists e. unfold forward. by rewrite He. Qed.

Lemma time_embed_Ok cfg s net s' m :
  EchoDNDUNet.__init__ cfg s = Ok (net, s') ->
  exists e,
    Linear.forward (fst (EchoDNDUNet.time_embed net))
      [m; EchoDNDUNet.model_channels net] = Ok e /\
    Linear.forward (snd (EchoDNDUNet.time_embed net)) e
    = Ok [m; EchoDNDUNet.time_embed_dim cfg].
Proof.
  intros H. apply init_inv in H
    as (l1 & l2 & stem & w & s1 & enc & s2 & middle & s3 & dec & s4 & og & s5 & ob & H).
  cbv zeta in H. destruct H as (Ht & -> & -> & _ & _ & _ & _ & _ & _ & _ & H).
  destruct H as (_ & _ & _ & _ & _ & _ & _ & _ & Hmc & _).
  rewrite Ht, Hmc. exists [m; EchoDNDUNet.time_embed_dim cfg].
  unfold Linear.forward. simpl.
  rewrite !bool_decide_true by done. done.
Qed.

(** C7.  On an input with three channels, [forward] fails the assertion
    when exactly one of "[y] is given" and "the model was built with
    [num_classes]" holds; when both hold and the timesteps are a 1-D
    batch it raises [NotImplementedError]; in all three cases it raises
    whatever the input. *)
Theorem forward_class_conditioning_errors
    (cfg : Config.t) (s s' : nat) (net : EchoDNDUNet.t)
    (n m : nat) (sp : list nat) (y : option Shape) :
  EchoDNDUNet.__init__ cfg s = Ok (net, s') ->
  (y <> None \/ Config.num_classes cfg <> None) ->
  forward HRNet_forward net (n :: 3 :: sp) [m] y
  = Raise (match y, Config.num_classes cfg with
           | Some _, Some _ =>
               NotImplementedError "Class-conditional model not implemented"
           | _, _ =>
               AssertionError
                 "must specify y if and only if the model is class-conditional"
           end)
  /\ forall x timesteps, raises (forward HRNet_forward net x timesteps y).
Proof.
  intros Hinit Hor.
  pose proof (time_embed_Ok _ _ _ _ m Hinit) as Hte.
  pose proof Hinit as Hinv.
  apply init_inv in Hinv
    as (l1 & l2 & stem & w & s1 & enc & s2 & middle & s3 & dec & s4 & og & s5 & ob & H).
  cbv zeta in H. do 19 destruct H as [_ H]. destruct H as (Hnc & _).
  split.
  - unfold forward, forward_trunk. simpl. rewrite Hnc.
    destruct y as [ys|], (Config.num_classes cfg) as [k|] eqn:Hk;
      try (simpl; reflexivity).
    + change (bool_decide (Some ys <> None)) with true.
      change (bool_decide (Some k <> None)) with true. simpl.
      destruct Hte as (e & Hte1 & Hte2).
      rewrite Hte1. simpl. rewrite Hte2. reflexivity.
    + destruct Hor as [?|?]; done.
  - intros x ts. apply forward_raises_of_trunk.
    destruct (Config.num_classes cfg) as [k|] eqn:Hk.
    + apply forward_trunk_class_conditional. rewrite Hnc. done.
    + destruct y as [ys|]; [|destruct Hor; done].
      unfold forward_trunk, raises. rewrite Hnc.
      rewrite (bool_decide_true (Some ys <> None)) by done.
      rewrite (bool_decide_false (None <> None)) by (intros ?; done).
      repeat match goal with
      | |- exists e, (py_assert (eqb true false) _ ≫= _) = Raise e =>
          simpl; eauto
      | |- exists e, Raise _ = Raise e => eauto
      | |- exists e, (?m ≫= _) = Raise e =>
          destruct m; simpl; [|eauto]
      end.
Qed.
End ForwardErrors.

(** ** Shape rules of the primitives *)

Lemma window_spatial_same k p sp :
  (k = 3 /\ p = 1) \/ (k = 1 /\ p = 0) ->
  Forall (lt 0) sp ->
  window_spatial (fun _ => k) p sp (replicate (length sp) 1) = Ok sp.
Proof.
  intros Hk Hsp. induction Hsp as [|n sp Hn _ IH]; [reflexivity|].
  cbn [window_spatial replicate length]. rewrite IH.
  assert (E : window_out k p n 1 = Ok n).
  { unfold window_out. rewrite Nat.div_1_r.
    destruct (Nat.ltb_spec (n + 2 * p) k); [lia|].
    destruct (Nat.eqb_spec k 0); [lia|]. simpl. f_equal. lia. }
  rewrite E. reflexivity.
Qed.

Lemma Conv_forward_same c n cin sp :
  Conv.in_channels c = cin ->
  (Conv.kernel_size c = 3 /\ Conv.padding c = 1) \/
  (Conv.kernel_size c = 1 /\ Conv.padding c = 0) ->
  Conv.stride c = every_axis (Conv.dims c) 1 ->
  length sp = Conv.dims c -> Forall (lt 0) sp ->
  Conv.forward c (n :: cin :: sp) = Ok (n :: Conv.out_channels c :: sp).
Proof.
  intros <- Hk Hs Hl Hsp. unfold Conv.forward.
  rewrite bool_decide_true by done.
  rewrite Hs. unfold every_axis. rewrite <- Hl.
  rewrite window_spatial_same by done. reflexivity.
Qed.

Lemma broadcast_rev_ones a b :
  Forall2 (fun x y => y = x \/ y = 1) a b -> broadcast_rev a b = Ok a.
Proof.
  induction 1 as [|x y a b Hxy _ IH]; [reflexivity|].
  simpl. rewrite IH. simpl.
  destruct (Nat.eqb_spec x y); [reflexivity|].
  destruct (Nat.eqb_spec x 1); [|].
  - destruct Hxy; subst; done.
  - destruct Hxy as [->| ->]; [done|]. reflexivity.
Qed.

Lemma broadcast_ones a b :
  Forall2 (fun x y => y = x \/ y = 1) a b -> broadcast a b = Ok a.
Proof.
  intros H. unfold broadcast.
  rewrite broadcast_rev_ones by (by apply Forall2_reverse).
  simpl. by rewrite reverse_involutive.
Qed.

Lemma broadcast_same a : broadcast a a = Ok a.
Proof. apply broadcast_ones. apply Forall_Forall2_diag, Forall_forall. auto. Qed.

Lemma broadcast_channel_vector n c sp :
  broadcast (n :: c :: sp) (n :: c :: replicate (length sp) 1) = Ok (n :: c :: sp).
Proof.
  apply broadcast_ones. do 2 (constructor; [auto|]).
  induction sp; simpl; constructor; auto.
Qed.

Lemma Norm_forward_Ok g n c sp :
  Norm.channels g = c -> Norm.forward g (n :: c :: sp) = Ok (n :: c :: sp).
Proof. intros <-. unfold Norm.forward. by rewrite bool_decide_true. Qed.

Lemma Linear_forward_Ok l n i :
  Linear.in_features l = i -> Linear.forward l [n; i] = Ok [n; Linear.out_features l].
Proof. intros <-. unfold Linear.forward. simpl. by rewrite bool_decide_true. Qed.

(** *** Resampling *)

Lemma stride_of_length dims : 1 <= dims <= 3 -> length (Downsample.stride_of dims) = dims.
Proof.
  intros H. unfold Downsample.stride_of, every_axis.
  destruct (Nat.eqb_spec dims 3) as [->|]; simpl; [done|]. by rewrite length_replicate.
Qed.

Lemma halvable_length dims sp : 1 <= dims <= 3 -> halvable dims sp -> length sp = dims.
Proof.
  intros Hd H. apply Forall2_length in H. by rewrite stride_of_length in H.
Qed.

Lemma halvable_positive dims sp : halvable dims sp -> Forall (lt 0) sp.
Proof.
  unfold halvable. generalize (Downsample.stride_of dims).
  induction 1 as [|???? [? _]]; constructor; auto.
Qed.

Lemma stride_of_cases dims : Forall (fun s => s = 1 \/ s = 2) (Downsample.stride_of dims).
Proof.
  unfold Downsample.stride_of, every_axis.
  destruct (negb (dims =? 3)).
  - apply Forall_replicate. auto.
  - repeat first [apply Forall_nil_2 | apply Forall_cons_2; [lia|]].
Qed.

Lemma halve_positive dims sp : halvable dims sp -> Forall (lt 0) (halve dims sp).
Proof.
  unfold halvable, halve. pose proof (stride_of_cases dims) as Hc.
  revert Hc. generalize (Downsample.stride_of dims).
  induction 2 as [|n s sp ss [Hn [q ->]] _ IH]; simpl; [constructor|].
  apply Forall_cons in Hc as [Hs Hc]. constructor; [|auto].
  destruct Hs as [-> | ->].
  - rewrite Nat.div_1_r. lia.
  - rewrite Nat.div_mul by lia. lia.
Qed.

Lemma halve_length dims sp : 1 <= dims <= 3 -> halvable dims sp -> length (halve dims sp) = dims.
Proof.
  intros Hd H. unfold halve. rewrite length_zip_with.
  rewrite stride_of_length by done. rewrite (halvable_length dims sp) by done. lia.
Qed.

Lemma double_halve dims sp : halvable dims sp -> double dims (halve dims sp) = sp.
Proof.
  unfold halvable, halve, double. pose proof (stride_of_cases dims) as Hc.
  revert Hc. generalize (Downsample.stride_of dims).
  induction 2 as [|n s sp ss [Hn [q ->]] _ IH]; simpl; [done|].
  apply Forall_cons in Hc as [Hs Hc]. rewrite IH by done. f_equal.
  destruct Hs as [-> | ->].
  - rewrite Nat.div_1_r. lia.
  - rewrite Nat.div_mul by lia. lia.
Qed.

(** Average pooling and the strided convolution halve the extents. *)
Lemma window_out_pool q s :
  s = 1 \/ s = 2 -> 0 < q * s -> window_out s 0 (q * s) s = Ok ((q * s) `div` s).
Proof.
  intros Hs Hq. unfold window_out.
  assert (E1 : (q * s) `div` s = q) by (apply Nat.div_mul; lia).
  assert (E2 : (q * s + 2 * 0 - s) `div` s = q - 1)
    by (symmetry; apply Nat.div_unique with 0; destruct Hs; subst; lia).
  rewrite E1, E2.
  destruct (Nat.ltb_spec (q * s + 2 * 0) s); [destruct Hs; subst; lia|].
  destruct (Nat.eqb_spec s 0); [lia|]. simpl. f_equal. destruct Hs; subst; lia.
Qed.

Lemma window_out_conv q s :
  s = 1 \/ s = 2 -> 0 < q * s -> window_out 3 1 (q * s) s = Ok ((q * s) `div` s).
Proof.
  intros Hs Hq. unfold window_out.
  assert (E1 : (q * s) `div` s = q) by (apply Nat.div_mul; lia).
  assert (E2 : (q * s + 2 * 1 - 3) `div` s = q - 1).
  { destruct Hs; subst.
    - symmetry. apply Nat.div_unique with 0; lia.
    - symmetry. apply Nat.div_unique with 1; lia. }
  rewrite E1, E2.
  destruct (Nat.ltb_spec (q * s + 2 * 1) 3); [destruct Hs; subst; lia|].
  destruct (Nat.eqb_spec s 0); [lia|]. simpl. f_equal. destruct Hs; subst; lia.
Qed.

Lemma window_spatial_halve (k : nat -> nat) p dims sp :
  (forall q s, s = 1 \/ s = 2 -> 0 < q * s ->
               window_out (k s) p (q * s) s = Ok ((q * s) `div` s)) ->
  halvable dims sp ->
  window_spatial k p sp (Downsample.stride_of dims) = Ok (halve dims sp).
Proof.
  intros Hw. unfold halvable, halve. pose proof (stride_of_cases dims) as Hc.
  revert Hc. generalize (Downsample.stride_of dims).
  induction 2 as [|n s sp ss [Hn [q ->]] _ IH]; [done|].
  apply Forall_cons in Hc as [Hs Hc].
  cbn [window_spatial zip_with]. rewrite Hw by done. rewrite IH by done. reflexivity.
Qed.

Lemma pool_spatial_halve dims sp :
  halvable dims sp ->
  window_spatial (fun s => s) 0 sp (Downsample.stride_of dims) = Ok (halve dims sp).
Proof. apply window_spatial_halve. apply window_out_pool. Qed.

Lemma conv_spatial_halve dims sp :
  halvable dims sp ->
  window_spatial (fun _ => 3) 1 sp (Downsample.stride_of dims) = Ok (halve dims sp).
Proof. apply window_spatial_halve. apply window_out_conv. Qed.

Lemma forallb_positive sp : Forall (lt 0) sp -> forallb (Nat.ltb 0) sp = true.
Proof.
  induction 1 as [|n sp Hn _ IH]; [done|]. simpl. rewrite IH.
  by destruct (Nat.ltb_spec 0 n); [|lia].
Qed.

Lemma interpolate_double dims n c sp :
  1 <= dims <= 3 -> length sp = dims -> 0 < n -> 0 < c -> Forall (lt 0) sp ->
  (if dims =? 3 then interpolate_inner2 (n :: c :: sp) else interpolate_x2 (n :: c :: sp))
  = Ok (n :: c :: double dims sp).
Proof.
  intros Hd Hl Hn Hc Hsp. unfold double, Downsample.stride_of.
  assert (Hall : forallb (Nat.ltb 0) (c :: sp) = true).
  { simpl. rewrite (forallb_positive sp) by done.
    destruct (Nat.ltb_spec 0 c); [|lia]. done. }
  destruct (Nat.eqb_spec dims 3) as [->|Hne]; simpl.
  - destruct sp as [|d [|h [|w [|]]]]; try discriminate.
    unfold interpolate_inner2. simpl in Hall |- *. rewrite Hall. repeat f_equal. lia.
  - unfold interpolate_x2. rewrite bool_decide_true by lia.
    simpl in Hall |- *. rewrite Hall. simpl.
    repeat f_equal. unfold every_axis. rewrite <- Hl. clear.
    induction sp; simpl; [done|]. by rewrite IHsp.
Qed.

(** ** Shapes through a residual block *)

Lemma conv_nd_Ok dims cin cout k stride padding s :
  1 <= dims <= 3 ->
  conv_nd dims cin cout k stride padding s
  = Ok (Conv.mk dims cin cout k stride padding (Drawn s), S s).
Proof. intros H. unfold conv_nd. by rewrite bool_decide_true. Qed.


Lemma append_axes_channel_vector n e c sp :
  ResBlock.append_axes [n; e] (n :: c :: sp) = n :: e :: replicate (length sp) 1.
Proof. unfold ResBlock.append_axes. simpl. by rewrite Nat.sub_0_r. Qed.

Lemma chunk2_1_even n c r :
  0 < c -> chunk2_1 (n :: 2 * c :: r) = Ok (n :: c :: r, n :: c :: r).
Proof.
  intros Hc. unfold chunk2_1.
  destruct (Nat.leb_spec (2 * c) 1); [lia|].
  assert (E : (2 * c + 1) `div` 2 = c)
    by (symmetry; apply Nat.div_unique with 1; lia).
  rewrite E. repeat f_equal. lia.
Qed.

Lemma resample_forward_shape up down dims cin n sp :
  1 <= dims <= 3 -> 0 < n -> 0 < cin ->
  resample_pre up down dims sp ->
  ResBlock.resample_forward (built_resample up down dims cin) (n :: cin :: sp)
  = Ok (n :: cin :: resampled up down dims sp).
Proof.
  intros Hd Hn Hc Hsp. unfold resampled, resample_pre, built_resample in *.
  destruct up; [|destruct down]; simpl in *.
  - destruct Hsp as [Hl Hp]. unfold Upsample.forward. simpl.
    rewrite Nat.eqb_refl. simpl. rewrite interpolate_double by done. reflexivity.
  - unfold Downsample.forward. simpl. rewrite Nat.eqb_refl. simpl.
    unfold AvgPool.forward. simpl.
    rewrite bool_decide_true by (by apply halvable_length).
    rewrite pool_spatial_halve by done. reflexivity.
  - reflexivity.
Qed.

Lemma resampled_ok up down dims sp :
  1 <= dims <= 3 ->
  resample_pre up down dims sp ->
  length (resampled up down dims sp) = dims /\ Forall (lt 0) (resampled up down dims sp).
Proof.
  intros Hd H. unfold resampled, resample_pre in *.
  destruct up; [|destruct down]; simpl in *.
  - destruct H as [Hl Hp]. unfold double. split.
    + rewrite length_zip_with, stride_of_length by done. lia.
    + pose proof (stride_of_cases dims) as Hc. revert Hc.
      generalize (Downsample.stride_of dims). clear Hl.
      induction Hp as [|x sp Hx _ IH]; intros [|s ss] Hc; simpl; try constructor.
      * apply Forall_cons in Hc as [[->| ->] _]; lia.
      * apply Forall_cons in Hc as [_ Hc]. auto.
  - split; [by apply halve_length | by apply halve_positive].
  - done.
Qed.

Ltac build_steps :=
  repeat match goal with
  | H : (_ ≫= _) _ = Ok _ |- _ =>
      let a := fresh "a" in let s := fresh "s" in let H1 := fresh "H" in
      apply Build_bind_Ok in H as (a & s & H1 & H)
  | H : mret _ _ = Ok _ |- _ =>
      first [ apply Build_ret_Ok in H as [-> ->]
            | apply Build_ret_Ok in H as [? ?]; simplify_eq ]
  | H : normalization _ _ = Ok _ |- _ => unfold normalization in H
  | H : linear _ _ _ = Ok _ |- _ => unfold linear, draw in H
  | H : conv_nd _ _ _ _ _ _ _ = Ok _ |- _ => rewrite conv_nd_Ok in H by done
  | H : (fun _ => _) _ = Ok _ |- _ => progress (cbv beta in H)
  | H : Ok _ = Ok _ |- _ => progress simplify_eq
  end.

(** What [ResBlock.__init__] builds. *)
Lemma dropout_module_Ok p s u s' :
  dropout_module p s = Ok (u, s') -> (0 <= p <= 1)%Q /\ s' = s.
Proof.
  unfold dropout_module. destruct (Qle_bool 0 p) eqn:E0; [|discriminate].
  destruct (Qle_bool p 1) eqn:E1; [|discriminate]. simpl.
  intros H. apply Build_ret_Ok in H as [_ <-].
  apply Qle_bool_iff in E0, E1. done.
Qed.

Lemma dropout_module_accepts p s :
  (0 <= p <= 1)%Q -> dropout_module p s = Ok ((), s).
Proof.
  intros [H0 H1]. apply Qle_bool_iff in H0, H1.
  unfold dropout_module. by rewrite H0, H1.
Qed.

Lemma ResBlock_init_inv cin ted dr out_opt uc ssn dims ck up down s rb s' :
  ResBlock.__init__ cin ted dr out_opt uc ssn dims ck up down s = Ok (rb, s') ->
  1 <= dims <= 3 /\
  exists s1 s2,
    let out := py_or out_opt cin in
    rb = ResBlock.mk cin ted dr out uc ck ssn (Norm.mk cin)
           (Conv.mk dims cin out 3 (every_axis dims 1) 1 (Drawn s))
           (up || down) (built_resample up down dims cin) (built_resample up down dims cin)
           (Linear.mk ted (if ssn then 2 * out else out) (Drawn s1))
           (Norm.mk out)
           (Conv.mk dims out out 3 (every_axis dims 1) 1 Zeros)
           (if out =? cin then ResBlock.SkipIdentity
            else ResBlock.SkipConv
                   (Conv.mk dims cin out (if uc then 3 else 1) (every_axis dims 1)
                      (if uc then 1 else 0) (Drawn s2))).
Proof.
  intros H. unfold ResBlock.__init__ in H. cbv zeta in H.
  set (out := py_or out_opt cin) in *.
  apply Build_bind_Ok in H as (n1 & s0 & Hn1 & H).
  apply Build_bind_Ok in H as (c1 & s1 & Hc1 & H).
  pose proof (conv_nd_dims Hc1) as Hd. split; [done|].
  apply Build_bind_Ok in H as ([hu xu] & s2 & Hr & H).
  assert (Er : hu = built_resample up down dims cin /\ xu = hu /\ s2 = s1).
  { clear -Hr Hd. unfold built_resample. destruct up; [|destruct down]; simpl in Hr.
    - unfold Upsample.__init__ in Hr. simpl in Hr.
      unfold mbind, Build_bind, mret, Build_ret in Hr. simplify_eq. done.
    - unfold Downsample.__init__ in Hr. simpl in Hr. rewrite Nat.eqb_refl in Hr.
      unfold avg_pool_nd in Hr. rewrite bool_decide_true in Hr by done.
      unfold build_assert, mbind, Build_bind, mret, Build_ret in Hr. simpl in Hr.
      simplify_eq. done.
    - unfold mret, Build_ret in Hr. simplify_eq. done. }
  destruct Er as (-> & -> & ->). clear Hr.
  apply Build_bind_Ok in H as (l & s3 & Hl & H).
  apply Build_bind_Ok in H as (n2 & s4 & Hn2 & H).
  apply Build_bind_Ok in H as ([] & s4' & Hdrop & H).
  apply dropout_module_Ok in Hdrop as [_ ->].
  apply Build_bind_Ok in H as (c2 & s5 & Hc2 & H).
  apply Build_bind_Ok in H as (sk & s6 & Hsk & H).
  build_steps. eexists.
  destruct (out =? cin) eqn:E.
  - build_steps. exists 0. cbv zeta. fold out. rewrite E. reflexivity.
  - destruct uc; build_steps; eexists; cbv zeta; fold out; rewrite E; reflexivity.
Qed.

Lemma ResBlock_forward_shape cin ted dr out_opt uc ssn dims ck up down s rb s' n sp :
  ResBlock.__init__ cin ted dr out_opt uc ssn dims ck up down s = Ok (rb, s') ->
  0 < n -> 0 < cin -> 0 < py_or out_opt cin ->
  resample_pre up down dims sp ->
  ResBlock._forward rb (n :: cin :: sp) [n; ted]
  = Ok (n :: py_or out_opt cin :: resampled up down dims sp).
Proof.
  intros H Hn Hc Ho Hsp.
  apply ResBlock_init_inv in H as (Hd & s1 & s2 & ->). cbv zeta.
  set (out := py_or out_opt cin) in *.
  pose proof (resample_forward_shape up down dims cin n sp Hd Hn Hc Hsp) as Hrs.
  pose proof (resampled_ok up down dims sp Hd Hsp) as [Hl' Hp'].
  set (sp' := resampled up down dims sp) in *.
  unfold ResBlock._forward. cbn [ResBlock.updown ResBlock.in_norm ResBlock.h_upd
    ResBlock.x_upd ResBlock.in_conv ResBlock.emb_linear ResBlock.use_scale_shift_norm
    ResBlock.out_norm ResBlock.out_conv ResBlock.skip_connection].
  assert (Hconv : Conv.forward (Conv.mk dims cin out 3 (every_axis dims 1) 1 (Drawn s))
                    (n :: cin :: sp') = Ok (n :: out :: sp'))
    by (apply Conv_forward_same; simpl; auto).
  assert (Hskip : ResBlock.skip_forward
            (if out =? cin then ResBlock.SkipIdentity
             else ResBlock.SkipConv
                    (Conv.mk dims cin out (if uc then 3 else 1) (every_axis dims 1)
                       (if uc then 1 else 0) (Drawn s2)))
            (n :: cin :: sp') = Ok (n :: out :: sp')).
  { destruct (Nat.eqb_spec out cin) as [->|Hne]; [reflexivity|].
    simpl. apply Conv_forward_same; simpl; auto. destruct uc; auto. }
  assert (Hout : Conv.forward (Conv.mk dims out out 3 (every_axis dims 1) 1 Zeros)
                   (n :: out :: sp') = Ok (n :: out :: sp'))
    by (apply Conv_forward_same; simpl; auto).
  assert (Hsame : up || down = false -> sp' = sp).
  { subst sp'. unfold resampled. by destruct up, down. }
  rewrite Norm_forward_Ok by done.
  destruct (up || down) eqn:Hud; simpl;
    [rewrite Hrs; simpl | rewrite <- (Hsame eq_refl)];
    rewrite Hconv; simpl;
    rewrite Linear_forward_Ok by done; simpl;
    rewrite append_axes_channel_vector;
    (destruct ssn;
     [ rewrite chunk2_1_even by done; simpl;
       rewrite Norm_forward_Ok by done; simpl;
       repeat (rewrite broadcast_channel_vector; simpl)
     | rewrite broadcast_channel_vector; simpl;
       rewrite Norm_forward_Ok by done; simpl ]);
    rewrite Hout; simpl; rewrite Hskip; simpl; apply broadcast_same.
Qed.

(** ** Shapes through an attention block *)

Lemma prod_list_positive sp : Forall (lt 0) sp -> 0 < prod_list sp.
Proof. unfold prod_list. induction 1; simpl; nia. Qed.

Lemma infer_axis_Ok known q : 0 < known -> infer_axis (known * q) known = Ok q.
Proof.
  intros Hk. unfold infer_axis.
  destruct (Nat.eqb_spec known 0); [lia|]. simpl.
  rewrite Nat.mul_comm, Nat.Div0.mod_mul, Nat.div_mul by lia. reflexivity.
Qed.

(** The number of heads [AttentionBlock.__init__] settles on. *)
Lemma heads_ok_heads nhc heads c :
  heads_ok nhc heads c ->
  let h := if (nhc =? -1)%Z then heads else (Z.of_nat c `div` nhc)%Z in
  exists k, 0 < k /\ (0 < h)%Z /\ c = Z.to_nat h * k.
Proof.
  intros [Hc H]. cbv zeta. destruct (nhc =? -1)%Z.
  - destruct H as [Hh [q Hq]]. exists (Z.to_nat q). split; [nia|]. split; [done|]. nia.
  - destruct H as [Hn [q Hq]]. rewrite Hq, Z.div_mul by lia.
    exists (Z.to_nat nhc). split; [lia|]. split; [nia|]. nia.
Qed.

Lemma head_width_Ok order (h : Z) bs k :
  (0 < h)%Z -> 0 < k ->
  head_width order h bs (Z.to_nat h * k * 3) = Ok (Z.to_nat h, k).
Proof.
  intros Hh Hk. unfold head_width.
  destruct (Z.eqb_spec h 0); [lia|].
  assert (E : Z.of_nat (Z.to_nat h * k * 3) = (Z.of_nat k * (3 * h))%Z) by lia.
  rewrite E, Z.mod_mul, Z.div_mul by lia. simpl.
  destruct (Z.ltb_spec h 0); [lia|].
  destruct (Z.eqb_spec (Z.of_nat k) 0); [lia|].
  rewrite Nat2Z.id. by destruct order.
Qed.

Lemma AttentionBlock_init_Ok c heads nhc ck nw s :
  heads_ok nhc heads c ->
  exists a, AttentionBlock.__init__ c heads nhc ck nw s = Ok (a, S (S s)) /\
    AttentionBlock.channels a = c.
Proof.
  intros [Hc H]. unfold AttentionBlock.__init__.
  assert (E : exists h, (if (nhc =? -1)%Z then mret heads
       else if (nhc =? 0)%Z then fail ZeroDivisionError
       else _ ← build_assert ((Z.of_nat c `mod` nhc) =? 0)%Z
                  (AttentionBlock.not_divisible_msg c nhc);
            mret (Z.of_nat c `div` nhc)%Z) s = Ok (h, s)).
  { destruct (nhc =? -1)%Z; [by eexists|].
    destruct H as [Hn [q Hq]]. destruct (Z.eqb_spec nhc 0); [lia|].
    rewrite Hq, Z.mod_mul by lia. simpl. by eexists. }
  destruct E as [h E]. rewrite Build_bind_step with (1 := E).
  unfold normalization. unfold mbind at 1. unfold Build_bind at 1. simpl.
  rewrite (Build_bind_step _ _ _ _ _ (conv_nd_Ok 1 _ _ _ _ _ s ltac:(lia))).
  rewrite (Build_bind_step _ _ _ _ _ (conv_nd_Ok 1 _ _ _ _ _ (S s) ltac:(lia))).
  eexists. split; reflexivity.
Qed.

Lemma AttentionBlock_forward_shape c heads nhc ck nw s a s' n sp :
  AttentionBlock.__init__ c heads nhc ck nw s = Ok (a, s') ->
  heads_ok nhc heads c -> 0 < n -> Forall (lt 0) sp ->
  AttentionBlock.forward a (n :: c :: sp) = Ok (n :: c :: sp).
Proof.
  intros H Hok Hn Hsp.
  pose proof (heads_ok_heads _ _ _ Hok) as (k & Hk & Hh & Hck). cbv zeta in Hh, Hck.
  pose proof (prod_list_positive sp Hsp) as HT.
  destruct Hok as [Hc Hok].
  unfold AttentionBlock.__init__ in H.
  apply Build_bind_Ok in H as (h & s0 & Hhd & H).
  assert (h = if (nhc =? -1)%Z then heads else (Z.of_nat c `div` nhc)%Z) as ->.
  { clear -Hhd Hok. destruct (nhc =? -1)%Z; [by build_steps|].
    destruct Hok as [Hn [q Hq]]. destruct (Z.eqb_spec nhc 0); [lia|].
    revert Hhd. rewrite Hq, Z.mod_mul by lia. simpl. intros. by build_steps. }
  set (h := if (nhc =? -1)%Z then heads else (Z.of_nat c `div` nhc)%Z) in *.
  apply Build_bind_Ok in H as (nm & s1 & Hnm & H).
  apply Build_bind_Ok in H as (qkv & s2 & Hqkv & H).
  apply Build_bind_Ok in H as (po & s3 & Hpo & H).
  rewrite conv_nd_Ok in Hqkv, Hpo by lia. build_steps.
  unfold AttentionBlock.forward, AttentionBlock._forward.
  cbn [AttentionBlock.norm AttentionBlock.qkv AttentionBlock.attention
       AttentionBlock.proj_out].
  replace (prod_list (n :: c :: sp)) with (n * c * prod_list sp)
    by (unfold prod_list; simpl; lia).
  rewrite infer_axis_Ok by nia. simpl.
  rewrite Norm_forward_Ok by done. simpl.
  rewrite (Conv_forward_same _ n c [prod_list sp]); simpl; auto.
  assert (Hatt : AttentionBlock.attention_forward
            (if nw then AttentionBlock.New (QKVAttention.mk h)
             else AttentionBlock.Legacy (QKVAttentionLegacy.mk h))
            [n; c * 3; prod_list sp] = Ok [n; c; prod_list sp]).
  { destruct nw; simpl;
      unfold QKVAttention.forward, QKVAttentionLegacy.forward; simpl;
      rewrite Hck at 1; rewrite head_width_Ok by done; simpl;
      (replace (prod_list [n * Z.to_nat h; k; prod_list sp])
         with (n * prod_list sp * c) by (unfold prod_list; simpl; nia));
      rewrite infer_axis_Ok by nia; reflexivity. }
  rewrite Hatt. simpl.
  rewrite (Conv_forward_same _ n c [prod_list sp]); simpl; auto.
  rewrite broadcast_same. simpl.
  replace (prod_list [n; c; prod_list sp]) with (n * c * prod_list sp)
    by (unfold prod_list; simpl; lia).
  by rewrite Nat.eqb_refl.
Qed.

(** ** What the constructor's loops append *)

Lemma attention_layers_inv cfg ds ch heads s at_ s' :
  EchoDNDUNet.attention_layers cfg ds ch heads s = Ok (at_, s') ->
  attention_of cfg ds ch heads at_.
Proof.
  unfold EchoDNDUNet.attention_layers, attention_of. intros H.
  case_bool_decide.
  - apply Build_bind_Ok in H as (a & s1 & Ha & H). build_steps. eauto.
  - by build_steps.
Qed.

Lemma pop_snoc {A} (l : list A) x : pop (l ++ [x]) = Ok (x, l).
Proof. unfold pop. rewrite reverse_snoc. by rewrite reverse_involutive. Qed.

Lemma pop_Ok {A} (l : list A) x r : pop l = Ok (x, r) -> l = r ++ [x].
Proof.
  unfold pop. destruct (reverse l) as [|y t] eqn:E; [discriminate|].
  intros [= -> <-]. apply (f_equal reverse) in E.
  rewrite reverse_involutive in E. by rewrite E, reverse_cons.
Qed.

Lemma encoder_res_blocks_spec cfg mult n st s st' s' :
  EchoDNDUNet.encoder_res_blocks cfg mult n st s = Ok (st', s') ->
  exists new,
    EchoDNDUNet.blocks st' = EchoDNDUNet.blocks st ++ new /\
    length new = n /\
    EchoDNDUNet.input_block_chans st'
    = EchoDNDUNet.input_block_chans st ++ replicate n (mult * Config.model_channels cfg) /\
    EchoDNDUNet.ds st' = EchoDNDUNet.ds st /\
    EchoDNDUNet.ch st' = (if n is 0 then EchoDNDUNet.ch st
                          else mult * Config.model_channels cfg) /\
    res_chain cfg (EchoDNDUNet.ch st) (mult * Config.model_channels cfg)
      (EchoDNDUNet.ds st) new.
Proof.
  revert st s. induction n as [|n IH]; intros st s H; simpl in H.
  - build_steps. exists []. rewrite !app_nil_r. done.
  - apply Build_bind_Ok in H as (rb & s1 & Hrb & H).
    apply Build_bind_Ok in H as (at_ & s2 & Hat & H).
    apply IH in H as (new & Hb & Hl & Hc & Hds & Hch & Hchain). simpl in *.
    eexists (_ :: new). rewrite Hb, Hc, Hds, <- !app_assoc. simpl.
    repeat split; try done.
    + by rewrite Hl.
    + rewrite Hch. by destruct n.
    + do 5 eexists. split; [exact Hrb|]. split; [eapply attention_layers_inv, Hat|].
      split; [reflexivity|]. by rewrite app_nil_r.
Qed.

Lemma encoder_downsample_spec cfg st s st' s' :
  EchoDNDUNet.encoder_downsample cfg st s = Ok (st', s') ->
  exists blk,
    EchoDNDUNet.blocks st' = EchoDNDUNet.blocks st ++ [blk] /\
    EchoDNDUNet.input_block_chans st'
    = EchoDNDUNet.input_block_chans st ++ [EchoDNDUNet.ch st] /\
    EchoDNDUNet.ds st' = EchoDNDUNet.ds st * 2 /\
    EchoDNDUNet.ch st' = EchoDNDUNet.ch st /\
    down_stage cfg (EchoDNDUNet.ch st) (EchoDNDUNet.ds st) blk.
Proof.
  unfold EchoDNDUNet.encoder_downsample. intros H.
  apply Build_bind_Ok in H as (l & s1 & Hl & H). build_steps. simpl.
  eexists. repeat split. do 3 eexists. split; [exact Hl | reflexivity].
Qed.

Lemma decoder_res_blocks_spec cfg level mult is_ st s st' s' :
  EchoDNDUNet.decoder_res_blocks cfg level mult is_ st s = Ok (st', s') ->
  exists new popped,
    EchoDNDUNet.blocks st' = EchoDNDUNet.blocks st ++ new /\
    EchoDNDUNet.input_block_chans st
    = EchoDNDUNet.input_block_chans st' ++ reverse popped /\
    length new = length is_ /\ length popped = length is_ /\
    EchoDNDUNet.ch st' = (if is_ is [] then EchoDNDUNet.ch st
                          else Config.model_channels cfg * mult) /\
    EchoDNDUNet.ds st' = decoder_ds cfg level (EchoDNDUNet.ds st) is_ /\
    dec_chain cfg level mult (EchoDNDUNet.ch st) (EchoDNDUNet.ds st) is_ popped new.
Proof.
  revert st s. induction is_ as [|i is_ IH]; intros st s H; simpl in H.
  - build_steps. exists [], []. rewrite !app_nil_r. done.
  - apply Build_bind_Ok in H as ([ich chans] & s1 & Hpop & H).
    unfold EchoDNDUNet.lift in Hpop.
    destruct (pop (EchoDNDUNet.input_block_chans st)) as [[ich' chans']|] eqn:Hp;
      [|discriminate].
    injection Hpop as -> -> ->. apply pop_Ok in Hp.
    apply Build_bind_Ok in H as (rb & s2 & Hrb & H).
    apply Build_bind_Ok in H as (at_ & s3 & Hat & H).
    apply Build_bind_Ok in H as ([upl ds'] & s4 & Hup & H).
    apply IH in H as (new & popped & Hb & Hc & Hl & Hlp & Hch & Hds & Hchain).
    simpl in *.
    assert (Hupl : ds' = (if negb (level =? 0) && (i =? Config.num_res_blocks cfg)
                          then EchoDNDUNet.ds st `div` 2 else EchoDNDUNet.ds st) /\
                   (if negb (level =? 0) && (i =? Config.num_res_blocks cfg)
                    then exists l s3 s4,
                      EchoDNDUNet.up_layer cfg (Config.model_channels cfg * mult)
                        (Config.model_channels cfg * mult) s3 = Ok (l, s4) /\ upl = [l]
                    else upl = [])).
    { destruct (negb (level =? 0) && (i =? Config.num_res_blocks cfg)).
      - apply Build_bind_Ok in Hup as (l & s5 & Hl5 & Hup). build_steps. eauto 10.
      - by build_steps. }
    destruct Hupl as [-> Hupl].
    eexists (_ :: new), (ich :: popped). rewrite Hb, <- !app_assoc. simpl.
    repeat split; try done.
    + rewrite Hp, Hc, reverse_cons, <- app_assoc. done.
    + by rewrite Hl.
    + by rewrite Hlp.
    + rewrite Hch. by destruct is_.
    + do 5 eexists. split; [exact Hrb|]. split; [eapply attention_layers_inv, Hat|].
      split; [exact Hupl | reflexivity].
Qed.

Lemma decoder_ds_no_up cfg level ds is_ :
  Forall (fun i => i <> Config.num_res_blocks cfg) is_ ->
  decoder_ds cfg level ds is_ = ds.
Proof.
  induction 1 as [|i is_ Hi _ IH]; simpl; [done|].
  destruct (Nat.eqb_spec i (Config.num_res_blocks cfg)); [done|].
  by rewrite andb_false_r.
Qed.

Lemma decoder_ds_app cfg level ds is1 is2 :
  decoder_ds cfg level ds (is1 ++ is2)
  = decoder_ds cfg level (decoder_ds cfg level ds is1) is2.
Proof. revert ds. induction is1; simpl; auto. Qed.

Lemma range_snoc n : range (n + 1) = range n ++ [n].
Proof. unfold range. by rewrite seq_app. Qed.

Lemma decoder_ds_range cfg level ds :
  decoder_ds cfg level ds (range (Config.num_res_blocks cfg + 1))
  = if level =? 0 then ds else ds `div` 2.
Proof.
  rewrite range_snoc, decoder_ds_app.
  rewrite (decoder_ds_no_up cfg level ds (range _)).
  2: { unfold range. apply Forall_forall. intros i Hi.
       apply elem_of_seq in Hi. lia. }
  cbn [decoder_ds]. rewrite Nat.eqb_refl, andb_true_r. by destruct (level =? 0).
Qed.

(** ** Layers of a stage *)

Lemma py_or_same c : py_or (Some c) c = c.
Proof. by destruct c. Qed.

Lemma AttentionBlock_init_channels c heads nhc ck nw s a s' :
  AttentionBlock.__init__ c heads nhc ck nw s = Ok (a, s') ->
  AttentionBlock.channels a = c.
Proof.
  unfold AttentionBlock.__init__. intros H.
  apply Build_bind_Ok in H as (h & s0 & _ & H).
  apply Build_bind_Ok in H as (nm & s1 & _ & H).
  apply Build_bind_Ok in H as (qkv & s2 & _ & H).
  apply Build_bind_Ok in H as (po & s3 & _ & H).
  by apply Build_ret_Ok in H as [-> _].
Qed.

(** The facts about one layer that the statements below combine: whether it
    keeps the channel count, and which kind it is. *)
Lemma plain_ResBlock_layer cfg cin cout s rb s' :
  EchoDNDUNet.plain_ResBlock cfg cin (Some cout) false false s = Ok (rb, s') ->
  is_residual_stage (LResBlock rb) = true /\
  is_downsampling (LResBlock rb) = false /\
  is_upsampling (LResBlock rb) = false /\
  is_attention (LResBlock rb) = false /\
  layer_in_channels (LResBlock rb) = cin.
Proof.
  unfold EchoDNDUNet.plain_ResBlock. intros H.
  apply ResBlock_init_inv in H as (_ & s1 & s2 & ->). done.
Qed.

Lemma down_layer_layer cfg c s l s' :
  EchoDNDUNet.down_layer cfg c c s = Ok (l, s') ->
  is_downsampling l = true /\ is_residual_stage l = false /\
  is_upsampling l = false /\ is_attention l = false /\
  layer_in_channels l = c /\ layer_out_channels l = c.
Proof.
  unfold EchoDNDUNet.down_layer, EchoDNDUNet.plain_ResBlock. intros H.
  destruct (Config.resblock_updown cfg).
  - apply Build_bind_Ok in H as (rb & s1 & Hrb & H). apply Build_ret_Ok in H as [-> _].
    apply ResBlock_init_inv in Hrb as (_ & s2 & s3 & ->). simpl.
    by rewrite py_or_same.
  - apply Build_bind_Ok in H as (d & s1 & Hd & H). apply Build_ret_Ok in H as [-> _].
    unfold Downsample.__init__ in Hd. cbv zeta in Hd. rewrite py_or_same in Hd.
    destruct (Config.conv_resample cfg).
    + apply Build_bind_Ok in Hd as (cv & s2 & _ & Hd).
      by apply Build_ret_Ok in Hd as [-> _].
    + apply Build_bind_Ok in Hd as (u & s2 & _ & Hd).
      apply Build_bind_Ok in Hd as (p & s3 & _ & Hd).
      by apply Build_ret_Ok in Hd as [-> _].
Qed.

Lemma up_layer_layer cfg c s l s' :
  EchoDNDUNet.up_layer cfg c c s = Ok (l, s') ->
  is_upsampling l = true /\ is_residual_stage l = false /\
  is_downsampling l = false /\ is_attention l = false /\
  layer_in_channels l = c /\ layer_out_channels l = c.
Proof.
  unfold EchoDNDUNet.up_layer, EchoDNDUNet.plain_ResBlock. intros H.
  destruct (Config.resblock_updown cfg).
  - apply Build_bind_Ok in H as (rb & s1 & Hrb & H). apply Build_ret_Ok in H as [-> _].
    apply ResBlock_init_inv in Hrb as (_ & s2 & s3 & ->). simpl.
    by rewrite py_or_same.
  - apply Build_bind_Ok in H as (u & s1 & Hu & H). apply Build_ret_Ok in H as [-> _].
    unfold Upsample.__init__ in Hu. cbv zeta in Hu. rewrite py_or_same in Hu.
    destruct (Config.conv_resample cfg).
    + apply Build_bind_Ok in Hu as (cv & s2 & _ & Hu).
      by apply Build_ret_Ok in Hu as [-> _].
    + by apply Build_ret_Ok in Hu as [-> _].
Qed.

(** Every layer after the first of a residual stage keeps the channel
    count and is no residual block; the stage has an attention unit exactly
    when its factor is in [attention_resolutions], and an upsampling layer
    exactly when it was asked for. *)
Lemma res_stage_layers cfg cin cout ds heads up blk :
  res_stage cfg cin cout ds heads up blk ->
  TimestepEmbedSequential.built_at_ds blk = ds /\
  exists first rest,
    TimestepEmbedSequential.layers blk = first :: rest /\
    is_residual_stage first = true /\ is_downsampling first = false /\
    is_upsampling first = false /\ is_attention first = false /\
    layer_in_channels first = cin /\
    Forall (fun l => layer_out_channels l = layer_in_channels l /\
                     is_residual_stage l = false /\ is_downsampling l = false) rest /\
    existsb is_attention rest = bool_decide (ds ∈ Config.attention_resolutions cfg) /\
    existsb is_upsampling rest = up.
Proof.
  intros (rb & at_ & upl & s1 & s2 & Hrb & Hat & Hup & ->). split; [done|].
  exists (LResBlock rb), (at_ ++ upl). simpl.
  apply plain_ResBlock_layer in Hrb as (? & ? & ? & ? & ?).
  do 6 (split; [done|]).
  unfold attention_of in Hat.
  assert (Hat' : Forall (fun l => layer_out_channels l = layer_in_channels l /\
                     is_residual_stage l = false /\ is_downsampling l = false) at_ /\
                 existsb is_attention at_
                 = bool_decide (ds ∈ Config.attention_resolutions cfg) /\
                 existsb is_upsampling at_ = false).
  { case_bool_decide.
    - destruct Hat as (a & ? & ? & _ & ->). repeat constructor.
    - subst at_. repeat constructor. }
  assert (Hup' : Forall (fun l => layer_out_channels l = layer_in_channels l /\
                     is_residual_stage l = false /\ is_downsampling l = false) upl /\
                 existsb is_attention upl = false /\
                 existsb is_upsampling upl = up).
  { destruct up.
    - destruct Hup as (l & ? & ? & Hl & ->).
      apply up_layer_layer in Hl as (E1 & E2 & E3 & E4 & E5 & E6).
      split; [constructor; [|constructor]; by rewrite E2, E3, E5, E6|].
      simpl. by rewrite E1, E4.
    - subst upl. repeat constructor. }
  destruct Hat' as (Ha1 & Ha2 & Ha3), Hup' as (Hu1 & Hu2 & Hu3).
  rewrite Forall_app, !existsb_app, Ha2, Ha3, Hu2, Hu3, orb_false_r. done.
Qed.

Lemma down_stage_layers cfg c ds blk :
  down_stage cfg c ds blk ->
  TimestepEmbedSequential.built_at_ds blk = ds /\
  exists l,
    TimestepEmbedSequential.layers blk = [l] /\
    is_downsampling l = true /\ is_residual_stage l = false /\
    is_upsampling l = false /\ is_attention l = false /\
    layer_in_channels l = c /\ layer_out_channels l = c.
Proof.
  intros (l & s1 & s2 & Hl & ->). split; [done|]. exists l. split; [done|].
  by apply down_layer_layer in Hl.
Qed.

(** ** What the level loops append *)

Lemma res_chain_Forall cfg cin cout ds new :
  res_chain cfg cin cout ds new ->
  Forall (fun blk => exists cin', res_stage cfg cin' cout ds (Config.num_heads cfg) false blk)
    new.
Proof.
  revert cin. induction new as [|b new IH]; intros cin H; [constructor|].
  destruct H as [Hb H]. constructor; eauto.
Qed.

Lemma dec_chain_Forall cfg level mult cin ds is_ popped new :
  dec_chain cfg level mult cin ds is_ popped new ->
  Forall (fun blk => exists cin' ds' up,
            res_stage cfg cin' (Config.model_channels cfg * mult) ds'
              (Config.num_heads_upsample cfg) up blk) new.
Proof.
  revert cin ds popped new. induction is_ as [|i is_ IH]; intros cin ds popped new H.
  - destruct popped, new; simpl in H; try contradiction. constructor.
  - destruct popped as [|ich popped], new as [|b new]; simpl in H; try contradiction.
    destruct H as [Hb H]. constructor; eauto.
Qed.

Lemma encoder_levels_spec cfg lv st s st' s' :
  EchoDNDUNet.encoder_levels cfg lv st s = Ok (st', s') ->
  exists new,
    EchoDNDUNet.blocks st' = EchoDNDUNet.blocks st ++ new /\
    length (EchoDNDUNet.input_block_chans st')
    = length (EchoDNDUNet.input_block_chans st) + length new /\
    Forall (fun blk =>
              (exists cin cout ds,
                 res_stage cfg cin cout ds (Config.num_heads cfg) false blk) \/
              (exists c ds, down_stage cfg c ds blk)) new /\
    length new
    = length lv * Config.num_res_blocks cfg +
      length (filter (fun p => p.1 <> length (Config.channel_mult cfg) - 1) lv).
Proof.
  revert st s. induction lv as [|[level mult] lv IH]; intros st s H; simpl in H.
  - build_steps. exists []. rewrite app_nil_r. repeat split; simpl; auto.
  - apply Build_bind_Ok in H as (st1 & s1 & Hres & H).
    apply Build_bind_Ok in H as (st2 & s2 & Hdown & H).
    apply encoder_res_blocks_spec in Hres
      as (new1 & Hb1 & Hl1 & Hc1 & Hds1 & Hch1 & Hchain).
    apply res_chain_Forall in Hchain.
    apply IH in H as (new3 & Hb3 & Hc3 & Hf3 & Hl3).
    rewrite filter_cons. simpl.
    destruct (Nat.eqb_spec level (length (Config.channel_mult cfg) - 1)) as [->|Hne];
      simpl in Hdown.
    + build_steps. exists (new1 ++ new3).
      rewrite Hb3, Hb1, Hc3, Hc1, !length_app, length_replicate, app_assoc.
      rewrite decide_False by (intros ?; done).
      repeat split; try nia.
      apply Forall_app. split; [|done].
      eapply Forall_impl; [exact Hchain|]. intros blk [cin' Hs]. left. eauto.
    + apply encoder_downsample_spec in Hdown as (blk & Hb2 & Hc2 & Hds2 & Hch2 & Hd).
      exists (new1 ++ [blk] ++ new3).
      rewrite Hb3, Hb2, Hb1, Hc3, Hc2, Hc1, !length_app, length_replicate.
      rewrite <- !app_assoc. rewrite decide_True by done. simpl.
      repeat split; try nia.
      apply Forall_app. split.
      * eapply Forall_impl; [exact Hchain|]. intros b [cin' Hs]. left. eauto.
      * constructor; [right; eauto | done].
Qed.

Lemma decoder_levels_spec cfg lv st s st' s' :
  EchoDNDUNet.decoder_levels cfg lv st s = Ok (st', s') ->
  exists new,
    EchoDNDUNet.blocks st' = EchoDNDUNet.blocks st ++ new /\
    length (EchoDNDUNet.input_block_chans st)
    = length (EchoDNDUNet.input_block_chans st') + length new /\
    Forall (fun blk => exists cin cout ds up,
              res_stage cfg cin cout ds (Config.num_heads_upsample cfg) up blk) new /\
    length new = length lv * (Config.num_res_blocks cfg + 1).
Proof.
  revert st s. induction lv as [|[level mult] lv IH]; intros st s H; simpl in H.
  - build_steps. exists []. rewrite app_nil_r. repeat split; simpl; auto.
  - apply Build_bind_Ok in H as (st1 & s1 & Hres & H).
    apply decoder_res_blocks_spec in Hres
      as (new1 & popped & Hb1 & Hc1 & Hl1 & Hlp & Hch1 & Hds1 & Hchain).
    apply dec_chain_Forall in Hchain.
    apply IH in H as (new3 & Hb3 & Hc3 & Hf3 & Hl3).
    exists (new1 ++ new3).
    rewrite Hb3, Hb1, Hc1, !length_app, length_reverse, app_assoc.
    unfold range in *. rewrite length_seq in *. cbn [length].
    repeat split; try nia.
    apply Forall_app. split; [|done].
    eapply Forall_impl; [exact Hchain|]. intros blk (cin' & ds' & up & Hs). eauto.
Qed.




(** ** The two pathways after construction *)

Lemma init_pathway cfg s net s' :
  EchoDNDUNet.__init__ cfg s = Ok (net, s') ->
  exists s1 enc middle dec s2 og s3 ob,
    EchoDNDUNet.gaussian_pathway (effective cfg) s1 = Ok (enc, middle, dec, s2) /\
    EchoDNDUNet.out_projection (effective cfg) (EchoDNDUNet.ch dec)
      (Config.out_channels_gaussian cfg) s2 = Ok (og, s3) /\
    EchoDNDUNet.out_projection (effective cfg) (EchoDNDUNet.ch dec)
      (Config.out_channels_bernoulli cfg) s3 = Ok (ob, s') /\
    EchoDNDUNet.input_blocks_gaussian net = EchoDNDUNet.blocks enc /\
    EchoDNDUNet.middle_block_gaussian net = middle /\
    EchoDNDUNet.output_blocks_gaussian net = EchoDNDUNet.blocks dec /\
    EchoDNDUNet.out_gaussian net = og /\
    EchoDNDUNet.input_blocks_bernoulli net = EchoDNDUNet.blocks enc /\
    EchoDNDUNet.middle_block_bernoulli net = middle /\
    EchoDNDUNet.output_blocks_bernoulli net = EchoDNDUNet.blocks dec /\
    EchoDNDUNet.out_bernoulli net = ob.
Proof.
  intros H. unfold EchoDNDUNet.__init__ in H. cbv zeta in H.
  fold (effective cfg) in H.
  apply Build_bind_Ok in H as (l1 & s1 & Hl1 & H).
  apply Build_bind_Ok in H as (l2 & s2 & Hl2 & H).
  apply Build_bind_Ok in H as (le & s3 & Hle & H).
  apply Build_bind_Ok in H as ([[enc middle] dec] & s4 & Hp & H).
  apply Build_bind_Ok in H as (og & s5 & Hog & H).
  apply Build_bind_Ok in H as (ob & s6 & Hob & H).
  apply Build_ret_Ok in H as [-> ->].
  exists s3, enc, middle, dec, s4, og, s5, ob. simpl. by repeat split.
Qed.

(** ** Skip stacks of a forward pass *)

Section SkipStacks.
Variable HRNet_forward : HRNet.t -> Shape -> result (list Shape * Shape).




End SkipStacks.



Lemma forward_class_conditioning_errors_witness :
  exists net s',
    EchoDNDUNet.__init__ class_conditional_config 0 = Ok (net, s') /\
    (Some [2] <> None \/ Config.num_classes class_conditional_config <> None) /\
    forward example_mfcm net [2; 3; 64; 64] [2] (Some [2])
    = Raise (NotImplementedError "Class-conditional model not implemented").
Proof.
  destruct (EchoDNDUNet.__init__ class_conditional_config 0) as [[net s']|e] eqn:H;
    [|vm_compute in H; discriminate].
  exists net, s'. split; [reflexivity|].
  assert (Hor : Some [2] <> None \/ Config.num_classes class_conditional_config <> None)
    by (left; discriminate).
  split; [exact Hor|].
  exact (proj1 (forward_class_conditioning_errors example_mfcm
                  class_conditional_config 0 s' net 2 2 [64; 64] (Some [2]) H Hor)).
Defined.

(** ** The conditioning module switched off *)

(** C2.  A network built with [high_way=False] has no attribute [mfcm],
    and [forward] looks it up unconditionally: on the example input the call
    raises [AttributeError], and it raises on every input. *)
Theorem forward_without_highway_raises :
  match build (EchoDNDUNet.__init__ no_highway_config) with
  | Ok net =>
      EchoDNDUNet.mfcm net = None /\
      forward example_mfcm net [2; 3; 64; 64] [2] None
      = Raise (AttributeError "'EchoDNDUNet' object has no attribute 'mfcm'") /\
      forall x timesteps y, raises (forward example_mfcm net x timesteps y)
  | Raise _ => False
  end.
Proof.
  destruct (build (EchoDNDUNet.__init__ no_highway_config)) as [net|e] eqn:H;
    [|vm_compute in H; discriminate].
  assert (Hm : EchoDNDUNet.mfcm net = None).
  { unfold build in H.
    destruct (EchoDNDUNet.__init__ no_highway_config 0) as [[net' s']|] eqn:Hi;
      [|discriminate].
    injection H as ->. apply init_inv in Hi.
    destruct Hi as (l1 & l2 & stem & w & s1 & enc & s2 & middle & s3 & dec & s4 & og
                    & s5 & ob & Hi).
    cbv zeta in Hi. do 20 destruct Hi as [_ Hi]. exact Hi. }
  split; [exact Hm|]. split.
  - revert H. vm_compute. intros [= <-]. reflexivity.
  - intros x ts y. apply forward_raises_of_trunk.
    by apply forward_trunk_raises_without_mfcm.
Qed.

(** [forward] raises for every network built with [high_way=False]. *)
Lemma no_highway_forward_raises HRNet_forward cfg s net s' x timesteps y :
  EchoDNDUNet.__init__ cfg s = Ok (net, s') ->
  Config.high_way cfg = false ->
  raises (forward HRNet_forward net x timesteps y).
Proof.
  intros Hi Hh. apply forward_raises_of_trunk, forward_trunk_raises_without_mfcm.
  apply init_inv in Hi.
  destruct Hi as (l1 & l2 & stem & w & s1 & enc & s2 & middle & s3 & dec & s4 & og
                  & s5 & ob & Hi).
  cbv zeta in Hi. do 20 destruct Hi as [_ Hi]. by rewrite Hi, Hh.
Qed.

(** ** Deep copies *)

Lemma out_projection_inv cfg ch out s o s' :
  EchoDNDUNet.out_projection cfg ch out s = Ok (o, s') ->
  o = OutProjection.mk (Norm.mk ch)
        (Conv.mk (Config.dims cfg) (Config.model_channels cfg) out 3
           (every_axis (Config.dims cfg) 1) 1 Zeros) /\
  1 <= Config.dims cfg <= 3.
Proof.
  unfold EchoDNDUNet.out_projection. intros H.
  apply Build_bind_Ok in H as (n & s1 & Hn & H).
  apply Build_bind_Ok in H as (c & s2 & Hc & H).
  pose proof (conv_nd_dims Hc) as Hd.
  rewrite conv_nd_Ok in Hc by done. build_steps. done.
Qed.




(** ** Channel counts across the layers of the two ladders *)

Lemma middle_block_inv cfg ch ds s blk s' :
  EchoDNDUNet.middle_block cfg ch ds s = Ok (blk, s') ->
  exists r1 a r2 s1 s2 s3 s4 s5 s6,
    EchoDNDUNet.plain_ResBlock cfg ch None false false s1 = Ok (r1, s2) /\
    AttentionBlock.__init__ ch (Config.num_heads cfg) (Config.num_head_channels cfg)
      (Config.use_checkpoint cfg) (Config.use_new_attention_order cfg) s3 = Ok (a, s4) /\
    EchoDNDUNet.plain_ResBlock cfg ch None false false s5 = Ok (r2, s6) /\
    blk = TimestepEmbedSequential.mk [LResBlock r1; LAttention a; LResBlock r2] ds.
Proof.
  unfold EchoDNDUNet.middle_block. intros H.
  apply Build_bind_Ok in H as (r1 & s1 & H1 & H).
  apply Build_bind_Ok in H as (a & s2 & H2 & H).
  apply Build_bind_Ok in H as (r2 & s3 & H3 & H).
  apply Build_ret_Ok in H as [-> _]. eauto 15.
Qed.

Lemma gaussian_pathway_stages cfg s enc middle dec s' :
  EchoDNDUNet.gaussian_pathway cfg s = Ok (enc, middle, dec, s') ->
  (exists stem rest,
     EchoDNDUNet.blocks enc = TimestepEmbedSequential.mk [LConv stem] 1 :: rest /\
     Forall (fun blk =>
               (exists cin cout ds,
                  res_stage cfg cin cout ds (Config.num_heads cfg) false blk) \/
               (exists c ds, down_stage cfg c ds blk)) rest) /\
  (exists s1 s2, EchoDNDUNet.middle_block cfg (EchoDNDUNet.ch enc) (EchoDNDUNet.ds enc) s1
                 = Ok (middle, s2)) /\
  Forall (fun blk => exists cin cout ds up,
            res_stage cfg cin cout ds (Config.num_heads_upsample cfg) up blk)
    (EchoDNDUNet.blocks dec).
Proof.
  intros H. unfold EchoDNDUNet.gaussian_pathway in H. cbv zeta in H.
  apply Build_bind_Ok in H as (stem & s1 & Hstem & H).
  apply Build_bind_Ok in H as (enc' & s2 & Henc & H).
  apply Build_bind_Ok in H as (mid' & s3 & Hmid & H).
  apply Build_bind_Ok in H as (dec' & s4 & Hdec & H).
  apply Build_ret_Ok in H as [H ->]. injection H as -> -> ->.
  apply encoder_levels_spec in Henc as (newe & Hbe & _ & Hfe & _).
  apply decoder_levels_spec in Hdec as (newd & Hbd & _ & Hfd & _).
  simpl in *. split; [eauto|]. split; [eauto|]. by rewrite Hbd.
Qed.

Lemma res_stage_layer_cases cfg cin cout ds heads up blk l :
  res_stage cfg cin cout ds heads up blk ->
  l ∈ TimestepEmbedSequential.layers blk ->
  (is_residual_stage l = true /\ is_downsampling l = false /\ is_upsampling l = false) \/
  (is_residual_stage l = false /\ is_downsampling l = false /\
   layer_out_channels l = layer_in_channels l).
Proof.
  intros Hs Hl.
  apply res_stage_layers in Hs
    as (_ & first & rest & E & Hr & Hd & Hu & _ & _ & Hrest & _).
  rewrite E in Hl. apply elem_of_cons in Hl as [->|Hl]; [by left|].
  rewrite Forall_forall in Hrest. apply Hrest in Hl as (? & ? & ?). by right.
Qed.

Lemma down_stage_layer_cases cfg c ds blk l :
  down_stage cfg c ds blk ->
  l ∈ TimestepEmbedSequential.layers blk ->
  is_residual_stage l = false /\ is_upsampling l = false /\
  layer_out_channels l = layer_in_channels l.
Proof.
  intros Hs Hl.
  apply down_stage_layers in Hs as (_ & l' & E & _ & Hr & Hu & _ & Hi & Ho).
  rewrite E in Hl. apply list_elem_of_singleton in Hl as ->.
  by rewrite Hi, Ho.
Qed.

Lemma middle_block_layer_cases cfg ch ds s blk s' l :
  EchoDNDUNet.middle_block cfg ch ds s = Ok (blk, s') ->
  l ∈ TimestepEmbedSequential.layers blk ->
  is_residual_stage l = true \/ layer_out_channels l = layer_in_channels l.
Proof.
  intros H Hl.
  apply middle_block_inv in H
    as (r1 & a & r2 & s1 & s2 & s3 & s4 & s5 & s6 & H1 & _ & H2 & ->).
  unfold EchoDNDUNet.plain_ResBlock in H1, H2.
  apply ResBlock_init_inv in H1 as (_ & ? & ? & ->).
  apply ResBlock_init_inv in H2 as (_ & ? & ? & ->).
  simpl in Hl. rewrite !elem_of_cons in Hl.
  destruct Hl as [->|[->|[->|Hl]]]; [by left | by right | by left |].
  by apply elem_of_nil in Hl.
Qed.

(** C10. In a constructed network, for either pathway: every downsampling
    transition layer of the encoder ladder and every upsampling transition
    layer of the decoder ladder has as many output channels as input
    channels, whether [resblock_updown] made it a residual block or a plain
    resampling unit; and in every block after the first input block (the
    stem convolution), a layer whose output channel count differs from its
    input channel count is a residual stage. *)
Theorem transitions_preserve_channels cfg s net s' :
  EchoDNDUNet.__init__ cfg s = Ok (net, s') ->
  (forall blk l,
     blk ∈ EchoDNDUNet.input_blocks_gaussian net ++ EchoDNDUNet.input_blocks_bernoulli net ->
     l ∈ TimestepEmbedSequential.layers blk ->
     is_downsampling l = true ->
     layer_out_channels l = layer_in_channels l) /\
  (forall blk l,
     blk ∈ EchoDNDUNet.output_blocks_gaussian net ++ EchoDNDUNet.output_blocks_bernoulli net ->
     l ∈ TimestepEmbedSequential.layers blk ->
     is_upsampling l = true ->
     layer_out_channels l = layer_in_channels l) /\
  (forall blk l,
     blk ∈ drop 1 (EchoDNDUNet.input_blocks_gaussian net) ++
           EchoDNDUNet.middle_block_gaussian net ::
           EchoDNDUNet.output_blocks_gaussian net ++
           drop 1 (EchoDNDUNet.input_blocks_bernoulli net) ++
           EchoDNDUNet.middle_block_bernoulli net ::
           EchoDNDUNet.output_blocks_bernoulli net ->
     l ∈ TimestepEmbedSequential.layers blk ->
     layer_out_channels l <> layer_in_channels l ->
     is_residual_stage l = true).
Proof.
  intros H.
  apply init_pathway in H
    as (s1 & enc & middle & dec & s2 & og & s3 & ob & Hp & _ & _ &
        -> & -> & -> & _ & -> & -> & -> & _).
  apply gaussian_pathway_stages in Hp
    as ((stem & rest & Hstem & Henc) & (s4 & s5 & Hmid) & Hdec).
  rewrite Hstem. cbn [drop]. rewrite Forall_forall in Henc, Hdec.
  assert (Hrest : forall blk l, blk ∈ rest -> l ∈ TimestepEmbedSequential.layers blk ->
            (is_downsampling l = true -> layer_out_channels l = layer_in_channels l) /\
            (layer_out_channels l <> layer_in_channels l -> is_residual_stage l = true)).
  { intros blk l Hb Hl. destruct (Henc blk Hb) as [(cin & cout & ds & Hs)|(c & ds & Hs)].
    - destruct (res_stage_layer_cases _ _ _ _ _ _ _ _ Hs Hl)
        as [(? & ? & ?)|(? & ? & ?)]; split; congruence.
    - destruct (down_stage_layer_cases _ _ _ _ _ Hs Hl) as (? & ? & ?).
      split; congruence. }
  assert (Hout : forall blk l, blk ∈ EchoDNDUNet.blocks dec ->
            l ∈ TimestepEmbedSequential.layers blk ->
            (is_upsampling l = true -> layer_out_channels l = layer_in_channels l) /\
            (layer_out_channels l <> layer_in_channels l -> is_residual_stage l = true)).
  { intros blk l Hb Hl. destruct (Hdec blk Hb) as (cin & cout & ds & up & Hs).
    destruct (res_stage_layer_cases _ _ _ _ _ _ _ _ Hs Hl)
      as [(? & ? & ?)|(? & ? & ?)]; split; congruence. }
  assert (Hm : forall l, l ∈ TimestepEmbedSequential.layers middle ->
            layer_out_channels l <> layer_in_channels l -> is_residual_stage l = true).
  { intros l Hl Hne.
    destruct (middle_block_layer_cases _ _ _ _ _ _ _ Hmid Hl); [done|contradiction]. }
  split; [|split].
  - intros blk l Hb Hl Hd.
    assert (Hb' : blk ∈ TimestepEmbedSequential.mk [LConv stem] 1 :: rest)
      by (apply elem_of_app in Hb; tauto).
    apply elem_of_cons in Hb' as [->|Hb'].
    + simpl in Hl. apply list_elem_of_singleton in Hl as ->. discriminate.
    + by apply (Hrest blk l).
  - intros blk l Hb Hl Hu.
    assert (Hb' : blk ∈ EchoDNDUNet.blocks dec) by (apply elem_of_app in Hb; tauto).
    by apply (Hout blk l).
  - intros blk l Hb Hl Hne.
    rewrite !elem_of_app, !elem_of_cons, !elem_of_app, !elem_of_cons in Hb.
    destruct Hb as [Hb|[->|[Hb|[Hb|[->|Hb]]]]];
      first [ by apply (Hrest blk l) | by apply (Hout blk l) | by apply Hm ].
Qed.

Lemma transitions_preserve_channels_witness :
  exists net s',
    EchoDNDUNet.__init__ example_config 0 = Ok (net, s') /\
    forall blk l,
      blk ∈ EchoDNDUNet.input_blocks_gaussian net ++ EchoDNDUNet.input_blocks_bernoulli net ->
      l ∈ TimestepEmbedSequential.layers blk ->
      is_downsampling l = true ->
      layer_out_channels l = layer_in_channels l.
Proof.
  destruct (EchoDNDUNet.__init__ example_config 0) as [[net s']|e] eqn:H;
    [|vm_compute in H; discriminate].
  exists net, s'. split; [reflexivity|].
  exact (proj1 (transitions_preserve_channels _ _ _ _ H)).
Defined.

(** The example network with either kind of transition has two
    downsampling layers in its encoder ladder and two upsampling layers in
    its decoder ladder, each on as many output as input channels. *)
Lemma example_transitions :
  forall updown : bool,
  match build (EchoDNDUNet.__init__
                 (Config.mk 64 2 32 2 1 1 {[2]} 0%Q [1; 2; 4] true 2 None false false
                    1%Z (-1)%Z (-1)%Z false updown false true)) with
  | Ok net =>
      map (fun l => (layer_in_channels l, layer_out_channels l))
        (filter (fun l => is_downsampling l = true)
           (concat (map TimestepEmbedSequential.layers
                      (EchoDNDUNet.input_blocks_gaussian net))))
      = [(32, 32); (64, 64)] /\
      map (fun l => (layer_in_channels l, layer_out_channels l))
        (filter (fun l => is_upsampling l = true)
           (concat (map TimestepEmbedSequential.layers
                      (EchoDNDUNet.output_blocks_gaussian net))))
      = [(128, 128); (64, 64)]
  | Raise _ => False
  end.
Proof. intros []; vm_compute; split; reflexivity. Qed.

(** ** Where the attention units are *)

Lemma res_stage_profile cfg cin cout ds heads up blk :
  res_stage cfg cin cout ds heads up blk ->
  stage_profile blk = residual_profile cfg ds up.
Proof.
  intros (rb & at_ & upl & s1 & s2 & Hrb & Hat & Hup & ->).
  unfold stage_profile, residual_profile. simpl. f_equal.
  unfold EchoDNDUNet.plain_ResBlock in Hrb.
  apply ResBlock_init_inv in Hrb as (_ & ? & ? & ->). simpl. f_equal.
  rewrite map_app. f_equal.
  - unfold attention_of in Hat. case_bool_decide.
    + by destruct Hat as (a & ? & ? & _ & ->).
    + by subst at_.
  - destruct up.
    + destruct Hup as (l & ? & ? & Hl & ->).
      apply up_layer_layer in Hl as (Hu & _).
      simpl. f_equal. destruct l as [| b | | |]; try done.
      unfold kind_of. simpl in Hu. by destruct (ResBlock.h_upd b).
    + by subst upl.
Qed.

Lemma down_stage_profile cfg c ds blk :
  down_stage cfg c ds blk -> stage_profile blk = (ds, [KDownsampling]).
Proof.
  intros (l & s1 & s2 & Hl & ->). unfold stage_profile. simpl. do 2 f_equal.
  apply down_layer_layer in Hl as (Hd & _).
  destruct l as [| b | | |]; try done.
  unfold kind_of. simpl in Hd. by destruct (ResBlock.h_upd b).
Qed.

Lemma res_chain_profile cfg cin cout ds new :
  res_chain cfg cin cout ds new ->
  map stage_profile new = replicate (length new) (residual_profile cfg ds false).
Proof.
  revert cin. induction new as [|b new IH]; intros cin H; [done|].
  destruct H as [Hb H]. simpl. f_equal; [by eapply res_stage_profile | by eapply IH].
Qed.

Lemma dec_chain_profile cfg level mult cin ds is_ popped new :
  Forall (fun i => i <> Config.num_res_blocks cfg) is_ ->
  dec_chain cfg level mult cin ds (is_ ++ [Config.num_res_blocks cfg]) popped new ->
  map stage_profile new
  = replicate (length is_) (residual_profile cfg ds false) ++
    [residual_profile cfg ds (negb (level =? 0))].
Proof.
  intros Hf. revert cin popped new.
  induction Hf as [|i is_ Hi _ IH]; intros cin popped new H.
  - destruct popped as [|ich [|? ?]], new as [|b [|? ?]]; simpl in H; try tauto.
    destruct H as [Hb _]. rewrite Nat.eqb_refl, andb_true_r in Hb.
    simpl. f_equal. by eapply res_stage_profile.
  - destruct popped as [|ich popped], new as [|b new]; simpl in H; try tauto.
    destruct H as [Hb H]. apply Nat.eqb_neq in Hi. rewrite Hi, andb_false_r in Hb, H.
    simpl. f_equal; [by eapply res_stage_profile | by eapply IH].
Qed.

(** The blocks the encoder loop appends, and the factor it ends with. *)
Lemma encoder_levels_profile cfg lv st s st' s' :
  EchoDNDUNet.encoder_levels cfg lv st s = Ok (st', s') ->
  exists new,
    EchoDNDUNet.blocks st' = EchoDNDUNet.blocks st ++ new /\
    map stage_profile new = encoder_profile cfg lv (EchoDNDUNet.ds st) /\
    EchoDNDUNet.ds st' = encoder_ds cfg lv (EchoDNDUNet.ds st).
Proof.
  revert st s. induction lv as [|[level mult] lv IH]; intros st s H; simpl in H.
  - build_steps. exists []. by rewrite app_nil_r.
  - apply Build_bind_Ok in H as (st1 & s1 & Hres & H).
    apply Build_bind_Ok in H as (st2 & s2 & Hdown & H).
    apply encoder_res_blocks_spec in Hres
      as (new1 & Hb1 & Hl1 & _ & Hds1 & _ & Hchain).
    apply res_chain_profile in Hchain. rewrite Hl1 in Hchain.
    apply IH in H as (new3 & Hb3 & Hp3 & Hds3).
    cbn [encoder_profile encoder_ds].
    destruct (negb (level =? length (Config.channel_mult cfg) - 1)).
    + apply encoder_downsample_spec in Hdown as (blk & Hb2 & _ & Hds2 & _ & Hd).
      apply down_stage_profile in Hd.
      exists (new1 ++ blk :: new3).
      rewrite Hb3, Hb2, Hb1, <- !app_assoc, map_app. simpl.
      rewrite Hchain, Hd, Hp3, Hds3, Hds2, Hds1. done.
    + build_steps. exists (new1 ++ new3).
      rewrite Hb3, Hb1, <- !app_assoc, map_app, Hchain, Hp3, Hds3, Hds1. done.
Qed.

(** The blocks the decoder loop appends. *)
Lemma decoder_levels_profile cfg lv st s st' s' :
  EchoDNDUNet.decoder_levels cfg lv st s = Ok (st', s') ->
  exists new,
    EchoDNDUNet.blocks st' = EchoDNDUNet.blocks st ++ new /\
    map stage_profile new = decoder_profile cfg lv (EchoDNDUNet.ds st).
Proof.
  revert st s. induction lv as [|[level mult] lv IH]; intros st s H; simpl in H.
  - build_steps. exists []. by rewrite app_nil_r.
  - apply Build_bind_Ok in H as (st1 & s1 & Hres & H).
    apply decoder_res_blocks_spec in Hres
      as (new1 & popped & Hb1 & _ & _ & _ & _ & Hds1 & Hchain).
    rewrite decoder_ds_range in Hds1.
    rewrite range_snoc in Hchain. apply dec_chain_profile in Hchain.
    2: { unfold range. apply Forall_forall. intros i Hi. apply elem_of_seq in Hi. lia. }
    unfold range in Hchain. rewrite length_seq in Hchain.
    apply IH in H as (new3 & Hb3 & Hp3).
    exists (new1 ++ new3).
    rewrite Hb3, Hb1, <- !app_assoc, map_app, Hchain, Hp3, Hds1, <- app_assoc. done.
Qed.

(** The profiles of the two ladders of a constructed network. *)
Lemma init_profile cfg s net s' :
  EchoDNDUNet.__init__ cfg s = Ok (net, s') ->
  let levels := enumerate (Config.channel_mult cfg) in
  map stage_profile (EchoDNDUNet.input_blocks_gaussian net)
  = (1, [KConv]) :: encoder_profile (effective cfg) levels 1 /\
  map stage_profile (EchoDNDUNet.output_blocks_gaussian net)
  = decoder_profile (effective cfg) (reverse levels) (encoder_ds (effective cfg) levels 1) /\
  EchoDNDUNet.input_blocks_bernoulli net = EchoDNDUNet.input_blocks_gaussian net /\
  EchoDNDUNet.output_blocks_bernoulli net = EchoDNDUNet.output_blocks_gaussian net.
Proof.
  intros H. cbv zeta.
  apply init_pathway in H
    as (s1 & enc & middle & dec & s2 & og & s3 & ob & Hp & _ & _ &
        -> & _ & -> & _ & -> & _ & -> & _).
  unfold EchoDNDUNet.gaussian_pathway in Hp. cbv zeta in Hp.
  apply Build_bind_Ok in Hp as (stem & t1 & Hstem & H).
  apply Build_bind_Ok in H as (enc' & t2 & Henc & H).
  apply Build_bind_Ok in H as (mid' & t3 & Hmid & H).
  apply Build_bind_Ok in H as (dec' & t4 & Hdec & H).
  apply Build_ret_Ok in H as [H ->]. injection H as -> -> ->.
  apply encoder_levels_profile in Henc as (newe & Hbe & Hpe & Hdse).
  apply decoder_levels_profile in Hdec as (newd & Hbd & Hpd).
  simpl in *. rewrite Hbe, Hbd, Hpd, Hdse. simpl. rewrite Hpe. done.
Qed.

(** C5.  With [channel_mult=(1,2,4,8)] and [attention_resolutions={2,4}],
    whatever [num_res_blocks] is: the blocks of the encoder ladder are, in
    order, the stem and the residual stages of level 0 at factor 1 (no
    attention), a downsampling stage, the residual stages of level 1 at
    factor 2 (each followed by an attention unit), a downsampling stage, the
    residual stages of level 2 at factor 4 (each followed by an attention
    unit), a downsampling stage, and the residual stages of level 3 at
    factor 8 (no attention); the decoder ladder mirrors it from factor 8 down
    to factor 1, the last block of each level but level 0 ending in the
    upsampling layer after which the factor is halved.  Both pathways have
    these blocks. *)
Theorem attention_at_factors_2_and_4 cfg s net s' :
  Config.channel_mult cfg = [1; 2; 4; 8] ->
  Config.attention_resolutions cfg = {[2; 4]} ->
  EchoDNDUNet.__init__ cfg s = Ok (net, s') ->
  let n := Config.num_res_blocks cfg in
  map stage_profile (EchoDNDUNet.input_blocks_gaussian net)
  = (1, [KConv]) ::
    replicate n (1, [KResidual]) ++ (1, [KDownsampling]) ::
    replicate n (2, [KResidual; KAttention]) ++ (2, [KDownsampling]) ::
    replicate n (4, [KResidual; KAttention]) ++ (4, [KDownsampling]) ::
    replicate n (8, [KResidual]) /\
  map stage_profile (EchoDNDUNet.output_blocks_gaussian net)
  = replicate n (8, [KResidual]) ++ (8, [KResidual; KUpsampling]) ::
    replicate n (4, [KResidual; KAttention]) ++
      (4, [KResidual; KAttention; KUpsampling]) ::
    replicate n (2, [KResidual; KAttention]) ++
      (2, [KResidual; KAttention; KUpsampling]) ::
    replicate n (1, [KResidual]) ++ [(1, [KResidual])] /\
  EchoDNDUNet.input_blocks_bernoulli net = EchoDNDUNet.input_blocks_gaussian net /\
  EchoDNDUNet.output_blocks_bernoulli net = EchoDNDUNet.output_blocks_gaussian net.
Proof.
  intros Hcm Har H. cbv zeta.
  apply init_profile in H as (Hi & Ho & Hbi & Hbo). cbv zeta in Hi, Ho.
  rewrite Hi, Ho, Hcm.
  assert (Hr : forall ds up, residual_profile (effective cfg) ds up
                 = (ds, KResidual :: (if bool_decide (ds ∈ ({[2; 4]} : gset nat))
                                      then [KAttention] else []) ++
                        (if up then [KUpsampling] else []))).
  { intros. unfold residual_profile. simpl. by rewrite Har. }
  assert (Hn : Config.num_res_blocks (effective cfg) = Config.num_res_blocks cfg) by done.
  assert (Hl : length (Config.channel_mult (effective cfg)) = 4)
    by (simpl; by rewrite Hcm).
  unfold enumerate. cbn [enumerate_from reverse rev_append].
  unfold reverse. cbn [rev_append enumerate_from].
  cbn [encoder_profile encoder_ds decoder_profile].
  rewrite Hl, Hn, !Hr. cbn [Nat.eqb Nat.sub negb].
  change (1 * 2) with 2. change (2 * 2) with 4. change (4 * 2) with 8.
  change (8 `div` 2) with 4. change (4 `div` 2) with 2. change (2 `div` 2) with 1.
  rewrite (bool_decide_false (1 ∈ _)) by (rewrite elem_of_union, !elem_of_singleton; lia).
  rewrite (bool_decide_false (8 ∈ _)) by (rewrite elem_of_union, !elem_of_singleton; lia).
  rewrite (bool_decide_true (2 ∈ _)) by (rewrite elem_of_union, !elem_of_singleton; lia).
  rewrite (bool_decide_true (4 ∈ _)) by (rewrite elem_of_union, !elem_of_singleton; lia).
  simpl. rewrite app_nil_r. repeat split; try done.
Qed.

Lemma attention_at_factors_2_and_4_witness :
  exists net s',
    Config.channel_mult four_level_config = [1; 2; 4; 8] /\
    Config.attention_resolutions four_level_config = {[2; 4]} /\
    EchoDNDUNet.__init__ four_level_config 0 = Ok (net, s') /\
    map stage_profile (EchoDNDUNet.output_blocks_gaussian net)
    = [(8, [KResidual]); (8, [KResidual]); (8, [KResidual; KUpsampling]);
       (4, [KResidual; KAttention]); (4, [KResidual; KAttention]);
       (4, [KResidual; KAttention; KUpsampling]);
       (2, [KResidual; KAttention]); (2, [KResidual; KAttention]);
       (2, [KResidual; KAttention; KUpsampling]);
       (1, [KResidual]); (1, [KResidual]); (1, [KResidual])].
Proof.
  destruct (EchoDNDUNet.__init__ four_level_config 0) as [[net s']|e] eqn:H;
    [|vm_compute in H; discriminate].
  exists net, s'. split; [reflexivity|]. split; [reflexivity|]. split; [reflexivity|].
  exact (proj1 (proj2 (attention_at_factors_2_and_4 four_level_config _ _ _
                         eq_refl eq_refl H))).
Defined.

(** ** The two attention kernels *)

(** One batch entry, two heads of one channel each, one position: the six
    rows hold 1, ..., 6.  In the legacy layout the value rows are rows 2 and
    5, in the new layout rows 4 and 5, and with a single position the
    attention weights are 1: the two kernels return 3, 6 and 5, 6. *)
Lemma head_splitting_conventions_differ :
  let qkv : Batch := [[[1%R]; [2%R]; [3%R]; [4%R]; [5%R]; [6%R]]] in
  has_shape 1 6 1 qkv /\
  exists a b,
    QKVAttentionLegacy_forward_v (QKVAttentionLegacy.mk 2) 1 6 1 qkv = Ok a /\
    QKVAttention_forward_v (QKVAttention.mk 2) 1 6 1 qkv = Ok b /\
    a <> b.
Proof.
  cbv zeta. split.
  { split; [done|]. repeat constructor. }
  do 2 eexists. split; [|split].
  - cbv -[Rplus Rmult Rdiv Rinv exp sqrt INR IZR Ropp Rminus]. reflexivity.
  - cbv -[Rplus Rmult Rdiv Rinv exp sqrt INR IZR Ropp Rminus]. reflexivity.
  - intros [= E _].
    assert (Hw : forall x, (exp x / (exp x + 0))%R = 1%R).
    { intros x. pose proof (exp_pos x). field. lra. }
    rewrite !Hw in E. lra.
Qed.

(** *** Regrouping rows *)

Lemma reshape_app {A} (szs1 szs2 : list nat) (l1 l2 : list A) :
  length l1 = sum_list szs1 ->
  reshape (szs1 ++ szs2) (l1 ++ l2) = reshape szs1 l1 ++ reshape szs2 l2.
Proof.
  revert l1. induction szs1 as [|m szs1 IH]; intros l1 Hl; simpl in *.
  - by destruct l1.
  - rewrite take_app_le, drop_app_le by lia.
    rewrite IH; [done | rewrite length_drop; lia].
Qed.

Lemma replicate_add_mul {A} (n m : nat) (x : A) :
  replicate (S n * m) x = replicate m x ++ replicate (n * m) x.
Proof. by rewrite <- replicate_add. Qed.

Lemma sum_list_replicate_const n m : sum_list (replicate n m) = n * m.
Proof. induction n; simpl; lia. Qed.

(** Regrouping the concatenation of groups of [m] rows gives the groups back. *)
Lemma reshape_concat {A} (m : nat) (xs : list (list A)) :
  Forall (fun x => length x = m) xs ->
  reshape (replicate (length xs) m) (concat xs) = xs.
Proof.
  induction 1 as [|x xs Hx _ IH]; [done|]. simpl.
  by rewrite take_app_length', drop_app_length', IH.
Qed.

Lemma concat_reshape {A} (n m : nat) (l : list A) :
  length l = n * m -> concat (reshape (replicate n m) l) = l.
Proof.
  revert l. induction n as [|n IH]; intros l Hl; simpl in *.
  - by destruct l.
  - rewrite IH; [apply take_drop | rewrite length_drop; lia].
Qed.

Lemma reshape_lengths {A} (n m : nat) (l : list A) :
  length l = n * m -> Forall (fun g => length g = m) (reshape (replicate n m) l).
Proof.
  revert l. induction n as [|n IH]; intros l Hl; simpl in *; constructor.
  - rewrite length_take. lia.
  - apply IH. rewrite length_drop. lia.
Qed.

Lemma length_concat_groups {A} (m : nat) (gs : list (list A)) :
  Forall (fun g => length g = m) gs -> length (concat gs) = length gs * m.
Proof. induction 1 as [|g gs Hg _ IH]; simpl; [done|]. rewrite length_app. lia. Qed.

(** [x.reshape(bs * h, m, T)] of a batch whose entries have [h * m] rows
    splits every entry into its [h] groups of [m] rows. *)
Lemma regroup_groups (h m : nat) (x : Batch) :
  Forall (fun rows => length rows = h * m) x ->
  regroup (length x * h) m x = concat (reshape (replicate h m) <$> x).
Proof.
  unfold regroup. induction 1 as [|rows x Hr _ IH]; [done|].
  cbn [length concat fmap list_fmap]. rewrite replicate_add_mul.
  rewrite reshape_app by (by rewrite sum_list_replicate_const).
  by rewrite IH.
Qed.

(** Taking the same part [p] of every group commutes with the regrouping:
    the new layout stores, per batch entry, the parts of all heads one after
    another. *)
Lemma regroup_parts (p : list (list R) -> list (list R)) (h ch : nat) (x : Batch) :
  (forall g, length g = ch * 3 -> length (p g) = ch) ->
  Forall (fun rows => length rows = h * (ch * 3)) x ->
  regroup (length x * h) ch
    ((fun rows => concat (p <$> reshape (replicate h (ch * 3)) rows)) <$> x)
  = p <$> regroup (length x * h) (ch * 3) x.
Proof.
  intros Hp Hx. rewrite (regroup_groups h (ch * 3)) by done.
  unfold regroup. induction Hx as [|rows x Hr _ IH]; [done|].
  cbn [length concat fmap list_fmap]. rewrite replicate_add_mul.
  pose proof (reshape_lengths h (ch * 3) rows Hr) as Hg.
  assert (Hpg : Forall (fun g => length g = ch)
                  (p <$> reshape (replicate h (ch * 3)) rows)).
  { apply Forall_fmap. eapply Forall_impl; [exact Hg|]. intros g. apply Hp. }
  assert (Hlen : length (p <$> reshape (replicate h (ch * 3)) rows) = h)
    by (by rewrite length_fmap, length_reshape, length_replicate).
  rewrite reshape_app.
  2: { by rewrite sum_list_replicate_const, (length_concat_groups ch), Hlen. }
  rewrite fmap_app. f_equal; [|exact IH].
  rewrite <- Hlen at 1. by apply reshape_concat.
Qed.

(** *** Scaling commutes with the regrouping and with taking rows *)

Lemma reshape_fmap {A B} (f : A -> B) szs (l : list A) :
  reshape szs (f <$> l) = (fun g : list A => f <$> g) <$> reshape szs l.
Proof.
  revert l. induction szs as [|m szs IH]; intros l; simpl; [done|].
  by rewrite <- fmap_take, <- fmap_drop, IH.
Qed.

Lemma concat_fmap {A B} (f : A -> B) (x : list (list A)) :
  concat ((fun g : list A => f <$> g) <$> x) = f <$> concat x.
Proof.
  induction x as [|a x IH]; [done|].
  rewrite fmap_cons. cbn [concat]. by rewrite fmap_app, IH.
Qed.

Lemma regroup_scale_by scale n m x :
  regroup n m (scale_by scale x) = scale_by scale (regroup n m x).
Proof. unfold regroup, scale_by. by rewrite concat_fmap, reshape_fmap. Qed.

Lemma scale_by_rows scale (p : list (list R) -> list (list R)) (x : Batch) :
  (forall (f : list R -> list R) g, p (f <$> g) = f <$> p g) ->
  scale_by scale (p <$> x) = p <$> scale_by scale x.
Proof.
  intros Hp. unfold scale_by. rewrite <- !list_fmap_compose.
  apply list_fmap_ext. intros _ rows _. simpl. by rewrite Hp.
Qed.

(** *** The two layouts *)

Lemma chunk3_layout (h ch : nat) (x : Batch) :
  Forall (fun rows => length rows = h * (ch * 3)) x ->
  chunk3 (h * ch * 3) (legacy_to_new_layout h ch x)
  = ((fun rows => concat (take ch <$> reshape (replicate h (ch * 3)) rows)) <$> x,
     (fun rows => concat ((fun g => take ch (drop ch g)) <$>
                            reshape (replicate h (ch * 3)) rows)) <$> x,
     (fun rows => concat ((fun g => take ch (drop (2 * ch) g)) <$>
                            reshape (replicate h (ch * 3)) rows)) <$> x).
Proof.
  intros Hx. unfold chunk3, legacy_to_new_layout. cbv zeta.
  rewrite Nat.div_add_l, (Nat.div_small 2 3), Nat.add_0_r by lia.
  rewrite <- !list_fmap_compose.
  assert (Hparts : Forall (fun rows : list (list R) =>
            let heads := reshape (replicate h (ch * 3)) rows in
            length (concat (take ch <$> heads)) = h * ch /\
            length (concat ((fun g => take ch (drop ch g)) <$> heads)) = h * ch) x).
  { eapply Forall_impl; [exact Hx|]. intros rows Hr. cbv zeta. cbv beta in Hr.
    pose proof (reshape_lengths h (ch * 3) rows Hr) as Hg.
    split; rewrite (length_concat_groups ch);
      try (by rewrite length_fmap, length_reshape, length_replicate);
      apply Forall_fmap; (eapply Forall_impl; [exact Hg|]); intros g Hgl; simpl in *;
      rewrite length_take, ?length_drop; lia. }
  f_equal; [f_equal|]; apply Forall_fmap_ext_1;
    (eapply Forall_impl; [exact Hparts|]); intros rows [HQ HK]; simpl.
  - by rewrite take_app_length'.
  - by rewrite drop_app_length', take_app_length'.
  - rewrite app_assoc, drop_app_length'; [done|]. rewrite length_app. lia.
Qed.

(** With one head the two layouts coincide. *)
Lemma legacy_to_new_layout_one_head (ch : nat) (x : Batch) :
  Forall (fun rows => length rows = 1 * (ch * 3)) x ->
  legacy_to_new_layout 1 ch x = x.
Proof.
  intros Hx. unfold legacy_to_new_layout. rewrite <- (list_fmap_id x) at 2.
  apply Forall_fmap_ext_1. eapply Forall_impl; [exact Hx|]. intros rows Hr. simpl in *.
  rewrite !app_nil_r, (take_ge rows (ch * 3)) by lia.
  etrans; [|exact (take_drop ch rows)]. f_equal.
  etrans; [|exact (take_drop ch (drop ch rows))]. f_equal.
  rewrite drop_drop. replace (ch + ch) with (2 * ch) by lia.
  apply take_ge. rewrite length_drop. lia.
Qed.

Lemma infer_axis_heads bs h ch T :
  0 < bs -> 0 < T ->
  infer_axis (prod_list [bs * h; ch; T]) (bs * T) = Ok (h * ch).
Proof.
  intros Hb HT.
  replace (prod_list [bs * h; ch; T]) with (bs * T * (h * ch))
    by (unfold prod_list; simpl; lia).
  apply infer_axis_Ok. nia.
Qed.

Lemma has_shape_rows bs h ch T (x : Batch) :
  has_shape bs (h * ch * 3) T x ->
  length x = bs /\ Forall (fun rows => length rows = h * (ch * 3)) x.
Proof.
  intros [Hl Hf]. split; [done|].
  eapply Forall_impl; [exact Hf|]. intros rows [Hr _]. simpl in *. lia.
Qed.

(** C6 (amended).  For every number of heads and every [qkv] tensor of
    matching shape, [QKVAttentionLegacy] on [qkv] and [QKVAttention] on the
    same channels laid out in its own order return the same tensor, without
    raising; on the same tensor the two agree when there is one head. *)
Theorem attention_orders_agree_up_to_layout
    (n_heads : Z) (bs ch T : nat) (qkv : Batch) :
  (0 < n_heads)%Z -> 0 < ch -> 0 < bs -> 0 < T ->
  let h := Z.to_nat n_heads in
  has_shape bs (h * ch * 3) T qkv ->
  (exists out,
     QKVAttentionLegacy_forward_v (QKVAttentionLegacy.mk n_heads) bs (h * ch * 3) T qkv
     = Ok out /\
     QKVAttention_forward_v (QKVAttention.mk n_heads) bs (h * ch * 3) T
       (legacy_to_new_layout h ch qkv) = Ok out) /\
  (n_heads = 1%Z ->
   QKVAttention_forward_v (QKVAttention.mk n_heads) bs (h * ch * 3) T qkv
   = QKVAttentionLegacy_forward_v (QKVAttentionLegacy.mk n_heads) bs (h * ch * 3) T qkv).
Proof.
  intros Hh Hc Hb HT h Hs.
  apply has_shape_rows in Hs as [Hl Hx].
  assert (Heq : QKVAttention_forward_v (QKVAttention.mk n_heads) bs (h * ch * 3) T
                  (legacy_to_new_layout h ch qkv)
                = QKVAttentionLegacy_forward_v (QKVAttentionLegacy.mk n_heads) bs
                    (h * ch * 3) T qkv).
  { unfold QKVAttention_forward_v, QKVAttentionLegacy_forward_v.
    cbn [QKVAttention.n_heads QKVAttentionLegacy.n_heads].
    subst h. rewrite !head_width_Ok by done. cbn [mbind result_bind].
    rewrite chunk3_layout by done. unfold split3.
    rewrite !regroup_scale_by. rewrite <- Hl.
    rewrite (regroup_parts (take ch)), (regroup_parts (fun g => take ch (drop ch g))),
      (regroup_parts (fun g => take ch (drop (2 * ch) g))); try done;
      intros g Hg; rewrite length_take, ?length_drop; lia. }
  split.
  - rewrite Heq. unfold QKVAttentionLegacy_forward_v.
    cbn [QKVAttentionLegacy.n_heads].
    subst h. rewrite head_width_Ok by done. cbn [mbind result_bind].
    destruct (split3 _ _) as [[q k] v].
    rewrite infer_axis_heads by done. cbn [mbind result_bind]. eauto.
  - intros ->. rewrite <- Heq. subst h. simpl.
    rewrite legacy_to_new_layout_one_head; [done|].
    eapply Forall_impl; [exact Hx|]. intros rows Hr. simpl in *. lia.
Qed.

Lemma attention_orders_agree_up_to_layout_witness :
  let qkv : Batch := [[[1%R]; [2%R]; [3%R]; [4%R]; [5%R]; [6%R]]] in
  has_shape 1 6 1 qkv /\
  exists out,
    QKVAttentionLegacy_forward_v (QKVAttentionLegacy.mk 2) 1 6 1 qkv = Ok out /\
    QKVAttention_forward_v (QKVAttention.mk 2) 1 6 1
      [[[1%R]; [4%R]; [2%R]; [5%R]; [3%R]; [6%R]]] = Ok out.
Proof.
  cbv zeta.
  assert (Hs : has_shape 1 6 1 [[[1%R]; [2%R]; [3%R]; [4%R]; [5%R]; [6%R]]])
    by (split; [done | repeat constructor]).
  split; [exact Hs|].
  exact (proj1 (attention_orders_agree_up_to_layout 2 1 1 1
                  [[[1%R]; [2%R]; [3%R]; [4%R]; [5%R]; [6%R]]]
                  ltac:(lia) ltac:(lia) ltac:(lia) ltac:(lia) Hs)).
Defined.

(** ** Shapes through the layers of a stage *)

Lemma py_or_Some_pos c d : 0 < c -> py_or (Some c) d = c.
Proof. by destruct c; [lia|]. Qed.

Lemma run_app ls1 ls2 x emb :
  TimestepEmbedSequential.run (ls1 ++ ls2) x emb
  = TimestepEmbedSequential.run ls1 x emb ≫= fun y => TimestepEmbedSequential.run ls2 y emb.
Proof.
  revert x. induction ls1 as [|l ls1 IH]; intros x; [done|]. cbn [app TimestepEmbedSequential.run].
  destruct (TimestepEmbedSequential.layer_forward l x emb) as [y|e]; [|done].
  cbn [mbind result_bind]. apply IH.
Qed.

Lemma double_ok dims sp :
  1 <= dims <= 3 -> length sp = dims -> Forall (lt 0) sp ->
  length (double dims sp) = dims /\ Forall (lt 0) (double dims sp).
Proof. intros Hd Hl Hp. by apply (resampled_ok true false dims sp). Qed.

Lemma halve_ok dims sp :
  1 <= dims <= 3 -> halvable dims sp ->
  length (halve dims sp) = dims /\ Forall (lt 0) (halve dims sp).
Proof. intros Hd H. by apply (resampled_ok false true dims sp). Qed.

(** The layer of an upsampling transition doubles the spatial extents. *)
Lemma up_layer_forward cfg c s l s' n sp :
  EchoDNDUNet.up_layer cfg c c s = Ok (l, s') ->
  1 <= Config.dims cfg <= 3 -> 0 < n -> 0 < c ->
  length sp = Config.dims cfg -> Forall (lt 0) sp ->
  TimestepEmbedSequential.layer_forward l (n :: c :: sp)
    [n; EchoDNDUNet.time_embed_dim cfg]
  = Ok (n :: c :: double (Config.dims cfg) sp).
Proof.
  intros H Hd Hn Hc Hl Hp. unfold EchoDNDUNet.up_layer in H.
  destruct (Config.resblock_updown cfg).
  - apply Build_bind_Ok in H as (rb & s1 & Hrb & H). apply Build_ret_Ok in H as [-> _].
    cbn [TimestepEmbedSequential.layer_forward]. unfold ResBlock.forward.
    unfold EchoDNDUNet.plain_ResBlock in Hrb.
    rewrite (ResBlock_forward_shape _ _ _ _ _ _ _ _ _ _ _ _ _ n sp Hrb); try done.
    + by rewrite py_or_same.
    + by rewrite py_or_same.
  - apply Build_bind_Ok in H as (u & s1 & Hu & H). apply Build_ret_Ok in H as [-> _].
    cbn [TimestepEmbedSequential.layer_forward].
    unfold Upsample.__init__ in Hu. cbv zeta in Hu. rewrite py_or_same in Hu.
    destruct (double_ok _ sp Hd Hl Hp) as [Hl2 Hp2].
    unfold Upsample.forward.
    destruct (Config.conv_resample cfg).
    + apply Build_bind_Ok in Hu as (cv & s2 & Hcv & Hu).
      apply Build_ret_Ok in Hu as [-> _]. rewrite conv_nd_Ok in Hcv by done.
      injection Hcv as <- _.
      cbn [Upsample.channels Upsample.dims Upsample.use_conv Upsample.conv].
      simpl. rewrite Nat.eqb_refl. simpl.
      rewrite interpolate_double by done. simpl.
      apply Conv_forward_same; simpl; auto.
    + apply Build_ret_Ok in Hu as [-> _].
      cbn [Upsample.channels Upsample.dims Upsample.use_conv Upsample.conv].
      simpl. rewrite Nat.eqb_refl. simpl.
      by rewrite interpolate_double by done.
Qed.

(** The layer of a downsampling transition halves them. *)
Lemma down_layer_forward cfg c s l s' n sp :
  EchoDNDUNet.down_layer cfg c c s = Ok (l, s') ->
  1 <= Config.dims cfg <= 3 -> 0 < n -> 0 < c ->
  halvable (Config.dims cfg) sp ->
  TimestepEmbedSequential.layer_forward l (n :: c :: sp)
    [n; EchoDNDUNet.time_embed_dim cfg]
  = Ok (n :: c :: halve (Config.dims cfg) sp).
Proof.
  intros H Hd Hn Hc Hh. unfold EchoDNDUNet.down_layer in H.
  destruct (Config.resblock_updown cfg).
  - apply Build_bind_Ok in H as (rb & s1 & Hrb & H). apply Build_ret_Ok in H as [-> _].
    cbn [TimestepEmbedSequential.layer_forward]. unfold ResBlock.forward.
    unfold EchoDNDUNet.plain_ResBlock in Hrb.
    rewrite (ResBlock_forward_shape _ _ _ _ _ _ _ _ _ _ _ _ _ n sp Hrb); try done.
    + by rewrite py_or_same.
    + by rewrite py_or_same.
  - apply Build_bind_Ok in H as (d & s1 & Hdn & H). apply Build_ret_Ok in H as [-> _].
    cbn [TimestepEmbedSequential.layer_forward].
    unfold Downsample.__init__ in Hdn. cbv zeta in Hdn. rewrite py_or_same in Hdn.
    unfold Downsample.forward.
    destruct (Config.conv_resample cfg).
    + apply Build_bind_Ok in Hdn as (cv & s2 & Hcv & Hdn).
      apply Build_ret_Ok in Hdn as [-> _]. rewrite conv_nd_Ok in Hcv by done.
      injection Hcv as <- _.
      cbn [Downsample.channels Downsample.op].
      simpl. rewrite Nat.eqb_refl. simpl.
      unfold Conv.forward. simpl.
      rewrite bool_decide_true by (split; [done | by apply halvable_length]).
      by rewrite conv_spatial_halve by done.
    + apply Build_bind_Ok in Hdn as (u & s2 & _ & Hdn).
      apply Build_bind_Ok in Hdn as (p & s3 & Hp & Hdn).
      apply Build_ret_Ok in Hdn as [-> _].
      unfold avg_pool_nd in Hp. rewrite bool_decide_true in Hp by done.
      apply Build_ret_Ok in Hp as [Hp _]; subst p.
      cbn [Downsample.channels Downsample.op].
      simpl. rewrite Nat.eqb_refl. simpl.
      unfold AvgPool.forward. simpl.
      rewrite bool_decide_true by (by apply halvable_length).
      by rewrite pool_spatial_halve by done.
Qed.

(** A residual stage takes [cin] channels to [cout] channels, and doubles
    the spatial extents when it ends in an upsampling layer. *)
Lemma res_stage_forward cfg cin cout ds heads up blk n sp :
  res_stage cfg cin cout ds heads up blk ->
  1 <= Config.dims cfg <= 3 -> 0 < n -> 0 < cin -> 0 < cout ->
  (ds ∈ Config.attention_resolutions cfg ->
   heads_ok (Config.num_head_channels cfg) heads cout) ->
  length sp = Config.dims cfg -> Forall (lt 0) sp ->
  TimestepEmbedSequential.forward blk (n :: cin :: sp)
    [n; EchoDNDUNet.time_embed_dim cfg]
  = Ok (n :: cout :: (if up then double (Config.dims cfg) sp else sp)).
Proof.
  intros (rb & at_ & upl & s1 & s2 & Hrb & Hat & Hup & ->) Hd Hn Hci Hco Hheads Hl Hp.
  unfold TimestepEmbedSequential.forward. cbn [TimestepEmbedSequential.layers].
  cbn [TimestepEmbedSequential.run TimestepEmbedSequential.layer_forward].
  unfold ResBlock.forward. unfold EchoDNDUNet.plain_ResBlock in Hrb.
  rewrite (ResBlock_forward_shape _ _ _ _ _ _ _ _ _ _ _ _ _ n sp Hrb);
    try done; try (by rewrite py_or_Some_pos).
  rewrite py_or_Some_pos by done. cbn [mbind result_bind resampled].
  rewrite run_app.
  assert (Hatt : TimestepEmbedSequential.run at_ (n :: cout :: sp)
                   [n; EchoDNDUNet.time_embed_dim cfg] = Ok (n :: cout :: sp)).
  { unfold attention_of in Hat. case_bool_decide as Hin.
    - destruct Hat as (a & s3 & s4 & Ha & ->).
      cbn [TimestepEmbedSequential.run TimestepEmbedSequential.layer_forward].
      rewrite (AttentionBlock_forward_shape _ _ _ _ _ _ _ _ n sp Ha); auto.
    - by subst at_. }
  rewrite Hatt. cbn [mbind result_bind].
  destruct up.
  - destruct Hup as (l & s3 & s4 & Hl3 & ->).
    cbn [TimestepEmbedSequential.run].
    rewrite (up_layer_forward _ _ _ _ _ n sp Hl3) by done. done.
  - by subst upl.
Qed.

Lemma down_stage_forward cfg c ds blk n sp :
  down_stage cfg c ds blk ->
  1 <= Config.dims cfg <= 3 -> 0 < n -> 0 < c ->
  halvable (Config.dims cfg) sp ->
  TimestepEmbedSequential.forward blk (n :: c :: sp)
    [n; EchoDNDUNet.time_embed_dim cfg]
  = Ok (n :: c :: halve (Config.dims cfg) sp).
Proof.
  intros (l & s1 & s2 & Hl & ->) Hd Hn Hc Hh.
  unfold TimestepEmbedSequential.forward. cbn [TimestepEmbedSequential.layers].
  cbn [TimestepEmbedSequential.run].
  by rewrite (down_layer_forward _ _ _ _ _ n sp Hl) by done.
Qed.

(** The middle block keeps the shape. *)
Lemma middle_block_forward cfg ch ds s blk s' n sp :
  EchoDNDUNet.middle_block cfg ch ds s = Ok (blk, s') ->
  0 < n -> 0 < ch ->
  heads_ok (Config.num_head_channels cfg) (Config.num_heads cfg) ch ->
  length sp = Config.dims cfg -> Forall (lt 0) sp ->
  TimestepEmbedSequential.forward blk (n :: ch :: sp)
    [n; EchoDNDUNet.time_embed_dim cfg]
  = Ok (n :: ch :: sp).
Proof.
  intros H Hn Hc Hheads Hl Hp.
  apply middle_block_inv in H
    as (r1 & a & r2 & s1 & s2 & s3 & s4 & s5 & s6 & H1 & Ha & H2 & ->).
  unfold TimestepEmbedSequential.forward. cbn [TimestepEmbedSequential.layers].
  cbn [TimestepEmbedSequential.run TimestepEmbedSequential.layer_forward].
  unfold ResBlock.forward. unfold EchoDNDUNet.plain_ResBlock in H1, H2.
  rewrite (ResBlock_forward_shape _ _ _ _ _ _ _ _ _ _ _ _ _ n sp H1); try done.
  cbn [mbind result_bind resampled]. change (py_or None ch) with ch.
  rewrite (AttentionBlock_forward_shape _ _ _ _ _ _ _ _ n sp Ha) by done.
  cbn [mbind result_bind].
  rewrite (ResBlock_forward_shape _ _ _ _ _ _ _ _ _ _ _ _ _ n sp H2); try done.
Qed.

(** ** Shapes through the blocks of one level *)

Lemma run_encoder_app b1 b2 h hs emb :
  run_encoder (b1 ++ b2) h hs emb
  = run_encoder b1 h hs emb ≫= fun r => run_encoder b2 r.1 r.2 emb.
Proof.
  revert h hs. induction b1 as [|b b1 IH]; intros h hs; [done|].
  cbn [app run_encoder].
  destruct (TimestepEmbedSequential.forward b h emb) as [y|e]; [|done].
  cbn [mbind result_bind]. apply IH.
Qed.

Lemma run_decoder_app b1 b2 h hs emb :
  run_decoder (b1 ++ b2) h hs emb
  = run_decoder b1 h hs emb ≫= fun r => run_decoder b2 r.1 r.2 emb.
Proof.
  revert h hs. induction b1 as [|b b1 IH]; intros h hs; [done|].
  cbn [app run_decoder].
  destruct (pop hs) as [[skip hs']|e]; [|done]. cbn [mbind result_bind].
  destruct (cat1 h skip) as [y|e]; [|done]. cbn [mbind result_bind].
  destruct (TimestepEmbedSequential.forward b y emb) as [z|e]; [|done].
  cbn [mbind result_bind]. apply IH.
Qed.

(** The residual stages of an encoder level: every block returns
    [cout] channels at the same extents and pushes its result. *)
Lemma res_chain_run cfg cin cout ds new n sp hs :
  res_chain cfg cin cout ds new ->
  1 <= Config.dims cfg <= 3 -> 0 < n -> 0 < cin -> 0 < cout ->
  (ds ∈ Config.attention_resolutions cfg ->
   heads_ok (Config.num_head_channels cfg) (Config.num_heads cfg) cout) ->
  length sp = Config.dims cfg -> Forall (lt 0) sp ->
  run_encoder new (n :: cin :: sp) hs [n; EchoDNDUNet.time_embed_dim cfg]
  = Ok (n :: (if new is [] then cin else cout) :: sp,
        hs ++ replicate (length new) (n :: cout :: sp)).
Proof.
  intros H Hd Hn Hci Hco Hheads Hl Hp. revert cin hs H Hci.
  induction new as [|b new IH]; intros cin hs H Hci.
  - simpl. by rewrite app_nil_r.
  - destruct H as [Hb H]. cbn [run_encoder].
    rewrite (res_stage_forward _ _ _ _ _ _ _ n sp Hb) by done.
    cbn [mbind result_bind]. rewrite (IH cout _ H Hco).
    cbn [length replicate]. rewrite <- app_assoc. simpl. by destruct new.
Qed.

Lemma cat1_same n c w sp : cat1 (n :: c :: sp) (n :: w :: sp) = Ok (n :: (c + w) :: sp).
Proof. unfold cat1. by rewrite bool_decide_true. Qed.

(** The stages of a decoder level: every block pops one skip tensor of
    the extents at hand, and the last block of a level other than level 0
    doubles the extents. *)
Lemma dec_chain_run cfg level mult cin ds is_ ws new n sp hs0 :
  Forall (fun i => i <> Config.num_res_blocks cfg) is_ ->
  dec_chain cfg level mult cin ds (is_ ++ [Config.num_res_blocks cfg]) ws new ->
  1 <= Config.dims cfg <= 3 -> 0 < n -> 0 < cin -> Forall (lt 0) ws ->
  0 < Config.model_channels cfg * mult ->
  (ds ∈ Config.attention_resolutions cfg ->
   heads_ok (Config.num_head_channels cfg) (Config.num_heads_upsample cfg)
     (Config.model_channels cfg * mult)) ->
  length sp = Config.dims cfg -> Forall (lt 0) sp ->
  run_decoder new (n :: cin :: sp)
    (hs0 ++ reverse ((fun w => n :: w :: sp) <$> ws))
    [n; EchoDNDUNet.time_embed_dim cfg]
  = Ok (n :: Config.model_channels cfg * mult ::
          (if level =? 0 then sp else double (Config.dims cfg) sp), hs0).
Proof.
  intros Hf H Hd Hn Hci Hws Hco Hheads Hl Hp. revert cin ws new H Hci Hws.
  induction Hf as [|i is_ Hi _ IH]; intros cin ws new H Hci Hws.
  - destruct ws as [|w [|? ?]], new as [|b [|? ?]]; simpl in H; try tauto.
    destruct H as [Hb _]. rewrite Nat.eqb_refl, andb_true_r in Hb.
    apply Forall_cons in Hws as [Hw _].
    cbn [fmap list_fmap reverse rev_append run_decoder].
    rewrite pop_snoc. cbn [mbind result_bind]. rewrite cat1_same.
    cbn [mbind result_bind].
    rewrite (res_stage_forward _ _ _ _ _ _ _ n sp Hb) by (done || lia).
    cbn [mbind result_bind run_decoder]. by destruct (level =? 0).
  - destruct ws as [|w ws], new as [|b new]; simpl in H; try tauto.
    destruct H as [Hb H]. apply Nat.eqb_neq in Hi. rewrite Hi, andb_false_r in Hb, H.
    apply Forall_cons in Hws as [Hw Hws].
    rewrite fmap_cons, reverse_cons, app_assoc. cbn [run_decoder].
    rewrite pop_snoc. cbn [mbind result_bind]. rewrite cat1_same.
    cbn [mbind result_bind].
    rewrite (res_stage_forward _ _ _ _ _ _ _ n sp Hb) by (done || lia).
    cbn [mbind result_bind]. by apply IH.
Qed.

(** ** One level of the encoder and of the decoder *)

Lemma decoder_levels_app cfg l1 l2 st s (r : EchoDNDUNet.locals * nat) :
  EchoDNDUNet.decoder_levels cfg (l1 ++ l2) st s = Ok r ->
  exists st1 s1,
    EchoDNDUNet.decoder_levels cfg l1 st s = Ok (st1, s1) /\
    EchoDNDUNet.decoder_levels cfg l2 st1 s1 = Ok r.
Proof.
  destruct r as [st' s']. revert st s.
  induction l1 as [|[level mult] l1 IH]; intros st s H.
  - simpl in *. eauto.
  - cbn [app EchoDNDUNet.decoder_levels] in H.
    apply Build_bind_Ok in H as (st0 & s0 & H0 & H).
    apply IH in H as (st1 & s1 & H1 & H2). exists st1, s1. split; [|done].
    cbn [EchoDNDUNet.decoder_levels]. by rewrite (Build_bind_step _ _ _ _ _ H0).
Qed.

Lemma encoder_level_run cfg m st s st1 s1 n sp :
  EchoDNDUNet.encoder_res_blocks cfg m (Config.num_res_blocks cfg) st s = Ok (st1, s1) ->
  1 <= Config.dims cfg <= 3 -> 0 < n -> 0 < EchoDNDUNet.ch st ->
  0 < m * Config.model_channels cfg ->
  (EchoDNDUNet.ds st ∈ Config.attention_resolutions cfg ->
   heads_ok (Config.num_head_channels cfg) (Config.num_heads cfg)
     (m * Config.model_channels cfg)) ->
  length sp = Config.dims cfg -> Forall (lt 0) sp ->
  exists new1,
    EchoDNDUNet.blocks st1 = EchoDNDUNet.blocks st ++ new1 /\
    (forall hs,
       run_encoder new1 (n :: EchoDNDUNet.ch st :: sp) hs
         [n; EchoDNDUNet.time_embed_dim cfg]
       = Ok (n :: EchoDNDUNet.ch st1 :: sp,
             hs ++ replicate (Config.num_res_blocks cfg)
                     (n :: m * Config.model_channels cfg :: sp))) /\
    EchoDNDUNet.input_block_chans st1
    = EchoDNDUNet.input_block_chans st ++
      replicate (Config.num_res_blocks cfg) (m * Config.model_channels cfg) /\
    EchoDNDUNet.ds st1 = EchoDNDUNet.ds st /\
    EchoDNDUNet.ch st1 = (if Config.num_res_blocks cfg is 0 then EchoDNDUNet.ch st
                          else m * Config.model_channels cfg) /\
    0 < EchoDNDUNet.ch st1.
Proof.
  intros H Hd Hn Hc Hco Hheads Hl Hp.
  apply encoder_res_blocks_spec in H as (new1 & Hb & Hlen & Hled & Hds & Hch & Hchain).
  exists new1. split; [done|]. split; [|split; [done|split; [done|split; [done|]]]].
  - intros hs.
    rewrite (res_chain_run _ _ _ _ _ n sp hs Hchain) by done.
    rewrite Hlen, Hch. do 3 f_equal.
    destruct new1, (Config.num_res_blocks cfg); simpl in *; done.
  - rewrite Hch. by destruct (Config.num_res_blocks cfg).
Qed.

Lemma decoder_level_run cfg k m st_d s_d st_d' s_d' n sp hs0 chans0 c_top :
  EchoDNDUNet.decoder_res_blocks cfg k m (range (Config.num_res_blocks cfg + 1)) st_d s_d
  = Ok (st_d', s_d') ->
  EchoDNDUNet.input_block_chans st_d
  = chans0 ++ c_top :: replicate (Config.num_res_blocks cfg) (m * Config.model_channels cfg) ->
  1 <= Config.dims cfg <= 3 -> 0 < n -> 0 < EchoDNDUNet.ch st_d -> 0 < c_top ->
  0 < m * Config.model_channels cfg ->
  (EchoDNDUNet.ds st_d ∈ Config.attention_resolutions cfg ->
   heads_ok (Config.num_head_channels cfg) (Config.num_heads_upsample cfg)
     (Config.model_channels cfg * m)) ->
  length sp = Config.dims cfg -> Forall (lt 0) sp ->
  exists newD,
    EchoDNDUNet.blocks st_d' = EchoDNDUNet.blocks st_d ++ newD /\
    run_decoder newD (n :: EchoDNDUNet.ch st_d :: sp)
      (hs0 ++ (n :: c_top :: sp) ::
         replicate (Config.num_res_blocks cfg) (n :: m * Config.model_channels cfg :: sp))
      [n; EchoDNDUNet.time_embed_dim cfg]
    = Ok (n :: Config.model_channels cfg * m ::
            (if k =? 0 then sp else double (Config.dims cfg) sp), hs0) /\
    EchoDNDUNet.input_block_chans st_d' = chans0 /\
    EchoDNDUNet.ch st_d' = Config.model_channels cfg * m /\
    EchoDNDUNet.ds st_d' = (if k =? 0 then EchoDNDUNet.ds st_d
                            else EchoDNDUNet.ds st_d `div` 2).
Proof.
  intros H Hled Hd Hn Hc Htop Hco Hheads Hl Hp.
  apply decoder_res_blocks_spec in H
    as (newD & popped & Hb & Hled' & _ & Hlp & Hch & Hds & Hchain).
  rewrite decoder_ds_range in Hds.
  unfold range in Hlp. rewrite length_seq in Hlp.
  rewrite Hled in Hled'.
  assert (Hsplit : chans0 = EchoDNDUNet.input_block_chans st_d' /\
                   c_top :: replicate (Config.num_res_blocks cfg)
                              (m * Config.model_channels cfg) = reverse popped).
  { apply app_inj_2; [|done].
    rewrite length_reverse, Hlp. cbn [length]. rewrite length_replicate. lia. }
  destruct Hsplit as [Hc0 Hrev].
  assert (Hpop : popped = replicate (Config.num_res_blocks cfg)
                            (m * Config.model_channels cfg) ++ [c_top]).
  { rewrite <- (reverse_involutive popped), <- Hrev, reverse_cons.
    by rewrite reverse_replicate. }
  exists newD. split; [done|]. split; [|split; [done|split; [|done]]].
  - rewrite range_snoc in Hchain.
    assert (Hstack : (n :: c_top :: sp) ::
              replicate (Config.num_res_blocks cfg) (n :: m * Config.model_channels cfg :: sp)
              = reverse ((fun w => n :: w :: sp) <$> popped)).
    { rewrite <- fmap_reverse, <- Hrev, fmap_cons, fmap_replicate. done. }
    rewrite Hstack.
    apply (dec_chain_run cfg k m _ _ _ _ _ n sp hs0) with (2 := Hchain); try done.
    + unfold range. apply Forall_forall. intros i Hi. apply elem_of_seq in Hi. lia.
    + rewrite Hpop. apply Forall_app. split; [|by repeat constructor].
      apply Forall_replicate. done.
    + lia.
  - rewrite Hch, range_snoc. by destruct (range (Config.num_res_blocks cfg)).
Qed.

(** ** The two ladders, level by level

    The encoder levels from level [k] on and the decoder levels that mirror
    them: the encoder pushes one skip tensor per block, the decoder pops
    them all together with the tensor that was on top of the stack, undoes
    the halvings, and leaves the stack and the ledger as they were below
    that entry. *)
Lemma ladder_run cfg n :
  1 <= Config.dims cfg <= 3 -> 0 < n -> 0 < Config.model_channels cfg ->
  forall ms m k st s st_e s_e sp chans0,
    k + S (length ms) = length (Config.channel_mult cfg) ->
    EchoDNDUNet.encoder_levels cfg (enumerate_from k (m :: ms)) st s = Ok (st_e, s_e) ->
    levels_valid cfg (EchoDNDUNet.ds st) (m :: ms) ->
    0 < EchoDNDUNet.ch st ->
    EchoDNDUNet.input_block_chans st = chans0 ++ [EchoDNDUNet.ch st] ->
    halvable_n (Config.dims cfg) (length ms) sp ->
    exists newE pushed sp_e,
      EchoDNDUNet.blocks st_e = EchoDNDUNet.blocks st ++ newE /\
      (forall hs,
         run_encoder newE (n :: EchoDNDUNet.ch st :: sp) hs
           [n; EchoDNDUNet.time_embed_dim cfg]
         = Ok (n :: EchoDNDUNet.ch st_e :: sp_e, hs ++ pushed)) /\
      length sp_e = Config.dims cfg /\ Forall (lt 0) sp_e /\
      EchoDNDUNet.ch st_e
      = (if Config.num_res_blocks cfg is 0 then EchoDNDUNet.ch st
         else List.last (m :: ms) 1 * Config.model_channels cfg) /\
      0 < EchoDNDUNet.ch st_e /\
      forall st_d s_d st_d' s_d' hs0,
        EchoDNDUNet.input_block_chans st_d = EchoDNDUNet.input_block_chans st_e ->
        EchoDNDUNet.ch st_d = EchoDNDUNet.ch st_e ->
        EchoDNDUNet.ds st_d = EchoDNDUNet.ds st_e ->
        EchoDNDUNet.decoder_levels cfg (reverse (enumerate_from k (m :: ms))) st_d s_d
        = Ok (st_d', s_d') ->
        exists newD,
          EchoDNDUNet.blocks st_d' = EchoDNDUNet.blocks st_d ++ newD /\
          run_decoder newD (n :: EchoDNDUNet.ch st_e :: sp_e)
            (hs0 ++ (n :: EchoDNDUNet.ch st :: sp) :: pushed)
            [n; EchoDNDUNet.time_embed_dim cfg]
          = Ok (n :: Config.model_channels cfg * m ::
                  (if k =? 0 then sp else double (Config.dims cfg) sp), hs0) /\
          EchoDNDUNet.input_block_chans st_d' = chans0 /\
          EchoDNDUNet.ch st_d' = Config.model_channels cfg * m /\
          EchoDNDUNet.ds st_d' = (if k =? 0 then EchoDNDUNet.ds st
                                  else EchoDNDUNet.ds st `div` 2).
Proof.
  intros Hd Hn Hmc ms.
  induction ms as [|m2 ms IH]; intros m k st s st_e s_e sp chans0 HL H Hv Hch Hled Hsp.
  - (* the last level: no downsampling *)
    cbn [enumerate_from EchoDNDUNet.encoder_levels] in H.
    apply Build_bind_Ok in H as (st1 & s1 & Hres & H).
    assert (Hk : (k =? length (Config.channel_mult cfg) - 1) = true)
      by (apply Nat.eqb_eq; simpl in HL; lia).
    rewrite Hk in H. cbn [negb] in H.
    apply Build_bind_Ok in H as (st2 & s2 & Hret & H).
    apply Build_ret_Ok in Hret as [E1 E2]. subst st2 s2.
    apply Build_ret_Ok in H as [E1 E2]. subst st_e s_e.
    destruct Hv as (Hm & Hheads & _). destruct Hsp as [Hl Hp].
    assert (Hco : 0 < m * Config.model_channels cfg) by nia.
    destruct (encoder_level_run cfg m st s st1 s1 n sp Hres)
      as (new1 & Hb & Hrun & Hled1 & Hds1 & Hch1 & Hpos1); try done.
    { intros Hin. by apply Hheads. }
    exists new1, (replicate (Config.num_res_blocks cfg)
                    (n :: m * Config.model_channels cfg :: sp)), sp.
    do 6 (split; [done|]).
    intros st_d s_d st_d' s_d' hs0 Hld Hcd Hdd Hdec.
    unfold reverse in Hdec. cbn [rev_append EchoDNDUNet.decoder_levels] in Hdec.
    apply Build_bind_Ok in Hdec as (st3 & s3 & Hdres & Hdec).
    apply Build_ret_Ok in Hdec as [E1 E2]. subst st_d' s_d'.
    rewrite <- Hcd.
    destruct (decoder_level_run cfg k m st_d s_d st3 s3 n sp hs0 chans0
                (EchoDNDUNet.ch st) Hdres)
      as (newD & HbD & HrunD & HledD & HchD & HdsD); try done.
    + by rewrite Hld, Hled1, Hled, <- app_assoc.
    + by rewrite Hcd.
    + rewrite Hdd, Hds1. intros Hin. by apply Hheads.
    + exists newD. rewrite HdsD, Hdd, Hds1. done.
  - (* a level followed by a downsampling transition and further levels *)
    cbn [enumerate_from EchoDNDUNet.encoder_levels] in H.
    apply Build_bind_Ok in H as (st1 & s1 & Hres & H).
    assert (Hk : (k =? length (Config.channel_mult cfg) - 1) = false)
      by (apply Nat.eqb_neq; simpl in HL; lia).
    rewrite Hk in H. cbn [negb] in H.
    apply Build_bind_Ok in H as (st2 & s2 & Hdown & H).
    destruct Hv as (Hm & Hheads & Hv2). destruct Hsp as [Hh Hsp2].
    pose proof (halvable_length _ _ Hd Hh) as Hl.
    pose proof (halvable_positive _ _ Hh) as Hp.
    assert (Hco : 0 < m * Config.model_channels cfg) by nia.
    destruct (encoder_level_run cfg m st s st1 s1 n sp Hres)
      as (new1 & Hb1 & Hrun1 & Hled1 & Hds1 & Hch1 & Hpos1); try done.
    { intros Hin. by apply Hheads. }
    apply encoder_downsample_spec in Hdown as (blk & Hb2 & Hled2 & Hds2 & Hch2 & Hdst).
    pose proof (down_stage_forward _ _ _ _ n sp Hdst Hd Hn Hpos1 Hh) as Hfd.
    destruct (IH m2 (S k) st2 s2 st_e s_e (halve (Config.dims cfg) sp)
                (EchoDNDUNet.input_block_chans st1))
      as (newE & pushed & sp_e & HbE & HrunE & Hle & Hpe & Hche & Hpose & HdecE).
    { simpl in *. lia. }
    { exact H. }
    { by rewrite Hds2, Hds1. }
    { by rewrite Hch2. }
    { by rewrite Hled2, Hch2. }
    { exact Hsp2. }
    exists (new1 ++ blk :: newE),
      (replicate (Config.num_res_blocks cfg) (n :: m * Config.model_channels cfg :: sp) ++
       (n :: EchoDNDUNet.ch st1 :: halve (Config.dims cfg) sp) :: pushed), sp_e.
    split; [by rewrite HbE, Hb2, Hb1, <- !app_assoc|].
    split.
    { intros hs. rewrite run_encoder_app, Hrun1. cbn [mbind result_bind fst snd run_encoder].
      rewrite Hfd. cbn [mbind result_bind]. rewrite <- Hch2, HrunE.
      by rewrite <- !app_assoc. }
    do 2 (split; [done|]).
    split.
    { rewrite Hche, Hch2, Hch1. by destruct (Config.num_res_blocks cfg). }
    split; [done|].
    intros st_d s_d st_d' s_d' hs0 Hld Hcd Hdd Hdec.
    cbn [enumerate_from] in Hdec. rewrite reverse_cons in Hdec.
    apply decoder_levels_app in Hdec as (st_d1 & s_d1 & Hdec1 & Hdec2).
    destruct (HdecE st_d s_d st_d1 s_d1
                (hs0 ++ (n :: EchoDNDUNet.ch st :: sp) ::
                   replicate (Config.num_res_blocks cfg)
                     (n :: m * Config.model_channels cfg :: sp)) Hld Hcd Hdd Hdec1)
      as (newD1 & HbD1 & HrunD1 & HledD1 & HchD1 & HdsD1).
    cbn [Nat.eqb] in HrunD1, HdsD1.
    rewrite double_halve in HrunD1 by done.
    rewrite Hds2, Hds1, Nat.div_mul in HdsD1 by done.
    cbn [EchoDNDUNet.decoder_levels] in Hdec2.
    apply Build_bind_Ok in Hdec2 as (st3 & s3 & Hdres & Hdec2).
    apply Build_ret_Ok in Hdec2 as [E1 E2]. subst st_d' s_d'.
    assert (Hcm2 : 0 < Config.model_channels cfg * m2)
      by (destruct Hv2 as (? & _); nia).
    destruct (decoder_level_run cfg k m st_d1 s_d1 st3 s3 n sp hs0 chans0
                (EchoDNDUNet.ch st) Hdres)
      as (newD & HbD & HrunD & HledD & HchD & HdsD); try done.
    + by rewrite HledD1, Hled1, Hled, <- app_assoc.
    + by rewrite HchD1.
    + rewrite HdsD1. intros Hin. by apply Hheads.
    + exists (newD1 ++ newD).
      split; [by rewrite HbD, HbD1, <- app_assoc|].
      split; [|by rewrite HdsD, HdsD1].
      rewrite run_decoder_app.
      rewrite Hch2 in HrunD1.
      replace (hs0 ++ (n :: EchoDNDUNet.ch st :: sp) ::
                 replicate (Config.num_res_blocks cfg)
                   (n :: m * Config.model_channels cfg :: sp) ++
                 (n :: EchoDNDUNet.ch st1 :: halve (Config.dims cfg) sp) :: pushed)
        with ((hs0 ++ (n :: EchoDNDUNet.ch st :: sp) ::
                 replicate (Config.num_res_blocks cfg)
                   (n :: m * Config.model_channels cfg :: sp)) ++
              (n :: EchoDNDUNet.ch st1 :: halve (Config.dims cfg) sp) :: pushed)
        by (by rewrite <- app_assoc).
      rewrite HrunD1. cbn [mbind result_bind fst snd].
      rewrite <- HchD1. exact HrunD.
Qed.

(** ** The loops of [forward] on two pathways with the same blocks *)

Section ForwardShapes.
Variable HRNet_forward : HRNet.t -> Shape -> result (list Shape * Shape).

Lemma getitem_middle {A} (pre : list A) b rest :
  getitem (pre ++ b :: rest) (length pre) = Ok b.
Proof. unfold getitem. by rewrite list_lookup_middle. Qed.

Lemma encoder_loop_run net anch n ted pre rest h hs h' hs' :
  EchoDNDUNet.input_blocks_gaussian net = pre ++ rest ->
  EchoDNDUNet.input_blocks_bernoulli net = pre ++ rest ->
  pre <> [] ->
  run_encoder rest h hs [n; ted] = Ok (h', hs') ->
  encoder_loop net anch (seq (length pre) (length rest)) (mkVars h h hs hs [n; ted])
  = Ok (mkVars h' h' hs' hs' [n; ted]).
Proof.
  revert pre h hs. induction rest as [|b rest IH]; intros pre h hs Hg Hb Hpre H.
  - simpl in *. by injection H as -> ->.
  - cbn [run_encoder] in H. apply result_bind_Ok in H as (h1 & Hf & H).
    cbn [length seq encoder_loop emb h_gaussian h_bernoulli hs_gaussian hs_bernoulli].
    change (2 <? 2) with false. cbv beta iota zeta.
    rewrite Hg, Hb, getitem_middle. cbn [mbind result_bind].
    rewrite Hf. cbn [mbind result_bind].
    assert (Hz : (length pre =? 0) = false) by (apply Nat.eqb_neq; by destruct pre).
    rewrite Hz. cbn [mbind result_bind].
    replace (S (length pre)) with (length (pre ++ [b])) by (rewrite length_app; simpl; lia).
    apply IH; try (by rewrite <- app_assoc); [|done].
    by destruct pre.
Qed.

Lemma decoder_loop_run net e pre rest h hs h' hs' :
  EchoDNDUNet.output_blocks_gaussian net = pre ++ rest ->
  EchoDNDUNet.output_blocks_bernoulli net = pre ++ rest ->
  run_decoder rest h hs e = Ok (h', hs') ->
  decoder_loop net (seq (length pre) (length rest)) (mkVars h h hs hs e)
  = Ok (mkVars h' h' hs' hs' e).
Proof.
  revert pre h hs. induction rest as [|b rest IH]; intros pre h hs Hg Hb H.
  - simpl in *. by injection H as -> ->.
  - cbn [run_decoder] in H.
    apply result_bind_Ok in H as ([skip hs1] & Hpop & H).
    apply result_bind_Ok in H as (h1 & Hcat & H).
    apply result_bind_Ok in H as (h2 & Hf & H).
    cbn [length seq decoder_loop emb h_gaussian h_bernoulli hs_gaussian hs_bernoulli].
    rewrite Hpop. cbn [mbind result_bind]. rewrite Hcat. cbn [mbind result_bind].
    rewrite Hg, Hb, getitem_middle. cbn [mbind result_bind].
    rewrite Hf. cbn [mbind result_bind].
    replace (S (length pre)) with (length (pre ++ [b])) by (rewrite length_app; simpl; lia).
    apply IH; try (by rewrite <- app_assoc). done.
Qed.

Lemma add_anchor_Ok n mc sp anch c0 c1 :
  anch !! 0 = Some (n :: c0 :: sp) -> anch !! 1 = Some (n :: c1 :: sp) ->
  2 * c0 + c1 = mc ->
  add_anchor (n :: mc :: sp) anch = Ok (n :: mc :: sp).
Proof.
  intros H0 H1 Hc. unfold add_anchor, getitem. unfold Shape in *. rewrite H0, H1.
  cbn [mbind result_bind cat1_list]. rewrite cat1_same. cbn [mbind result_bind].
  rewrite cat1_same. cbn [mbind result_bind].
  replace (c0 + (c0 + c1)) with mc by lia. apply broadcast_same.
Qed.

(** C1.  For every valid configuration (which runs the network in
    float32: [use_fp16=False]), every network built from it,
    every batch size [n >= 1] and all spatial extents that can be halved
    once per downsampling transition: when the conditioning module meets
    its call contract, [forward] on an input of 3 channels and a batch of
    [n] timesteps returns, without raising, a Gaussian output of
    [out_channels_gaussian] channels and a Bernoulli output of
    [out_channels_bernoulli] channels, both at the spatial extents of the
    input, and the calibration map. *)
Theorem forward_output_shapes cfg s net s' n sp cal :
  valid_config cfg ->
  EchoDNDUNet.__init__ cfg s = Ok (net, s') ->
  0 < n ->
  halvable_n (Config.dims cfg) (length (Config.channel_mult cfg) - 1) sp ->
  (forall m, EchoDNDUNet.mfcm net = Some m ->
             mfcm_contract HRNet_forward m (Config.model_channels cfg) n sp cal) ->
  forward HRNet_forward net (n :: 3 :: sp) [n] None
  = Ok (n :: Config.out_channels_gaussian cfg :: sp,
        n :: Config.out_channels_bernoulli cfg :: sp,
        cal).
Proof.
  intros (Hin & Hmc & Hhead & Hlv & Hmid & Hnc & Hhw & Hfp & _) Hinit Hn Hsp Hcontract.
  pose proof (time_embed_Ok cfg s net s' n Hinit) as (e & Hte1 & Hte2).
  pose proof (init_dtype cfg s net s' Hinit) as Hdt. rewrite Hfp in Hdt.
  apply init_inv in Hinit
    as (l1 & l2 & stem & w & s1 & enc & s2 & middle & s3 & dec & s4 & og & s5 & ob & Hinv).
  cbv zeta in Hinv.
  destruct Hinv as (_ & _ & _ & Hstem & Hd & Henc & Hmiddle & Hdec & Hog & Hob &
                    Hibg & Hmbg & Hobg & Houtg & Hibb & Hmbb & Hobb & Houtb &
                    Hnmc & Hnnc & Hmfcm).
  destruct (Config.channel_mult cfg) as [|m0 ms] eqn:Hcm; [discriminate|].
  injection Hhead as ->.
  replace (length (1 :: ms) - 1) with (length ms) in Hsp by (simpl; lia).
  assert (Hlen : length sp = Config.dims cfg /\ Forall (lt 0) sp).
  { destruct ms; [exact Hsp|]. destruct Hsp as [Hh _].
    split; [by apply halvable_length | by apply (halvable_positive _ _ Hh)]. }
  destruct Hlen as [Hl Hp].
  (* the two ladders *)
  assert (HL : 0 + S (length ms) = length (Config.channel_mult (effective cfg)))
    by (simpl; by rewrite Hcm).
  destruct (ladder_run (effective cfg) n Hd Hn Hmc ms 1 0 (stem_locals cfg stem) s1 enc s2
              sp [] HL Henc Hlv Hmc eq_refl Hsp)
    as (newE & pushed & sp_e & HbE & HrunE & Hle & Hpe & Hche & Hpose & HdecE).
  destruct (HdecE (EchoDNDUNet.mkLocals [] (EchoDNDUNet.feature_size enc + EchoDNDUNet.ch enc)
                     (EchoDNDUNet.input_block_chans enc) (EchoDNDUNet.ch enc)
                     (EchoDNDUNet.ds enc)) s3 dec s4 [] eq_refl eq_refl eq_refl Hdec)
    as (newD & HbD & HrunD & HledD & HchD & HdsD).
  cbn [stem_locals EchoDNDUNet.blocks EchoDNDUNet.ch Nat.eqb app] in HbE, HrunE, HrunD, HbD, Hche.
  (* the body of [forward] *)
  destruct (Hcontract _ ltac:(rewrite Hmfcm, Hhw; reflexivity))
    as (anch & c0 & c1 & Hhr & Ha0 & Ha1 & Hc01).
  cbn [stem_locals EchoDNDUNet.blocks EchoDNDUNet.ch EchoDNDUNet.ds Nat.eqb app]
    in HbE, HrunE, HrunD, HbD, Hche, HchD.
  change (EchoDNDUNet.time_embed_dim (effective cfg))
    with (EchoDNDUNet.time_embed_dim cfg) in *.
  change (Config.model_channels (effective cfg)) with (Config.model_channels cfg) in *.
  change (Config.dims (effective cfg)) with (Config.dims cfg) in *.
  change (Config.num_res_blocks (effective cfg)) with (Config.num_res_blocks cfg) in *.
  rewrite Nat.mul_1_r in HrunD, HchD.
  set (ted := EchoDNDUNet.time_embed_dim cfg) in *.
  set (mc := Config.model_channels cfg) in *.
  rewrite HbE in Hibg, Hibb. rewrite HbD in Hobg, Hobb.
  assert (Hstemf : Conv.forward stem (n :: 2 :: sp) = Ok (n :: mc :: sp)).
  { subst stem. apply Conv_forward_same; simpl; auto. }
  assert (Hencl : encoder_loop net anch
                    (range (length (EchoDNDUNet.input_blocks_gaussian net)))
                    (mkVars (n :: 2 :: sp) (n :: 2 :: sp) [] [] [n; ted])
                  = Ok (mkVars (n :: EchoDNDUNet.ch enc :: sp_e)
                          (n :: EchoDNDUNet.ch enc :: sp_e)
                          ((n :: mc :: sp) :: pushed) ((n :: mc :: sp) :: pushed)
                          [n; ted])).
  { rewrite Hibg. unfold range. cbn [length seq encoder_loop].
    cbn [emb h_gaussian h_bernoulli hs_gaussian hs_bernoulli].
    change (2 <? 2) with false. cbv beta iota zeta.
    rewrite Hibg, Hibb. cbn [getitem lookup list_lookup mbind result_bind].
    unfold TimestepEmbedSequential.forward at 1 2.
    cbn [TimestepEmbedSequential.layers TimestepEmbedSequential.run
         TimestepEmbedSequential.layer_forward].
    rewrite Hstemf. cbn [mbind result_bind Nat.eqb].
    rewrite (add_anchor_Ok n mc sp anch c0 c1) by done. cbn [mbind result_bind app].
    apply (encoder_loop_run net anch n ted [TimestepEmbedSequential.mk [LConv stem] 1] newE);
      [done|done|done|].
    apply (HrunE [n :: mc :: sp]). }
  assert (Hmf : TimestepEmbedSequential.forward middle (n :: EchoDNDUNet.ch enc :: sp_e)
                  [n; ted] = Ok (n :: EchoDNDUNet.ch enc :: sp_e)).
  { apply (middle_block_forward (effective cfg) _ _ _ _ _ n sp_e Hmiddle); try done.
    rewrite Hche. unfold bottleneck_channels in Hmid. by rewrite Hcm in Hmid. }
  assert (Hdecl : decoder_loop net
                    (range (length (EchoDNDUNet.output_blocks_gaussian net)))
                    (mkVars (n :: EchoDNDUNet.ch enc :: sp_e)
                       (n :: EchoDNDUNet.ch enc :: sp_e)
                       ((n :: mc :: sp) :: pushed) ((n :: mc :: sp) :: pushed) [n; ted])
                  = Ok (mkVars (n :: mc :: sp) (n :: mc :: sp) [] [] [n; ted])).
  { rewrite Hobg. unfold range.
    apply (decoder_loop_run net [n; ted] [] newD); [done|done|].
    exact HrunD. }
  apply out_projection_inv in Hog as [Eog _]. apply out_projection_inv in Hob as [Eob _].
  rewrite HchD in Eog, Eob.
  assert (Houtf : forall o out,
            o = OutProjection.mk (Norm.mk mc)
                  (Conv.mk (Config.dims cfg) mc out 3 (every_axis (Config.dims cfg) 1) 1 Zeros) ->
            OutProjection.forward o (n :: mc :: sp) = Ok (n :: out :: sp)).
  { intros o out ->. unfold OutProjection.forward.
    cbn [OutProjection.norm OutProjection.conv].
    rewrite Norm_forward_Ok by done. cbn [mbind result_bind].
    apply Conv_forward_same; simpl; auto. }
  assert (Htrunk : forward_trunk HRNet_forward net (n :: 3 :: sp) [n] None
                   = Ok (mkVars (n :: mc :: sp) (n :: mc :: sp) [] [] [n; ted], cal)).
  { unfold forward_trunk.
    cbn [getitem lookup list_lookup mbind result_bind py_assert Nat.eqb slice1].
    change (Nat.min 1 3 - Nat.min 0 3) with 1.
    change (Nat.min 2 3 - Nat.min 1 3) with 1.
    change (Nat.min 3 3 - Nat.min 2 3) with 1.
    rewrite Hnnc, Hnc.
    rewrite (bool_decide_false (@None Shape <> None)) by (intros ?; done).
    rewrite (bool_decide_false (@None nat <> None)) by (intros ?; done).
    cbn [eqb py_assert mbind result_bind timestep_embedding].
    rewrite Hte1. cbn [mbind result_bind]. rewrite Hte2. cbn [mbind result_bind].
    unfold mfcm_forward. rewrite Hmfcm, Hhw, Hhr. cbn [mbind result_bind cat1_list].
    rewrite cat1_same, Hdt. cbn [as_dtype mbind result_bind Nat.add].
    rewrite Hencl. cbn [mbind result_bind emb h_gaussian h_bernoulli hs_gaussian hs_bernoulli].
    rewrite Hmbg, Hmbb, Hmf. cbn [mbind result_bind].
    rewrite Hdecl. reflexivity. }
  unfold forward. rewrite Htrunk. cbn [mbind result_bind h_gaussian h_bernoulli].
  rewrite Houtg, Houtb.
  rewrite (Houtf og _ Eog), (Houtf ob _ Eob). reflexivity.
Qed.
End ForwardShapes.

Lemma heads_ok_one_head c : 0 < c -> heads_ok (-1) 1 c.
Proof.
  intros Hc. split; [done|]. simpl. split; [lia|]. exists (Z.of_nat c). lia.
Qed.

(** The example configuration is valid, and its 64 x 64 inputs can be
    halved twice. *)
Lemma example_config_valid : valid_config example_config.
Proof.
  repeat split; try done; try (cbn; lia);
    try (intros _; split; apply heads_ok_one_head; cbn; lia);
    try (apply heads_ok_one_head; cbn; lia).
Qed.

Lemma example_extents_halvable : halvable_n 2 2 [64; 64].
Proof.
  assert (H64 : halvable 2 [64; 64]).
  { repeat constructor; by exists 32. }
  assert (H32 : halvable 2 [32; 32]).
  { repeat constructor; by exists 16. }
  split; [exact H64|]. change (halve 2 [64; 64]) with [32; 32].
  split; [exact H32|]. change (halve 2 [32; 32]) with [16; 16].
  split; [done|]. repeat constructor.
Qed.

Lemma forward_output_shapes_witness :
  exists net s',
    valid_config example_config /\
    EchoDNDUNet.__init__ example_config 0 = Ok (net, s') /\
    halvable_n (Config.dims example_config)
      (length (Config.channel_mult example_config) - 1) [64; 64] /\
    forward example_mfcm net [2; 3; 64; 64] [2] None
    = Ok ([2; 2; 64; 64], [2; 1; 64; 64], [2; 1; 64; 64]).
Proof.
  destruct (EchoDNDUNet.__init__ example_config 0) as [[net s']|e] eqn:H;
    [|vm_compute in H; discriminate].
  exists net, s'.
  split; [exact example_config_valid|]. split; [reflexivity|].
  split; [exact example_extents_halvable|].
  apply (forward_output_shapes example_mfcm example_config 0 net s' 2 [64; 64]
           [2; 1; 64; 64] example_config_valid H ltac:(lia) example_extents_halvable).
  intros m _. exists [[2; 8; 64; 64]; [2; 16; 64; 64]], 8, 16.
  repeat split; reflexivity.
Defined.

(** With [channel_mult=(2, 4)] the constructor succeeds, but both output
    projections convolve [model_channels] channels while the decoder ends
    on [model_channels * channel_mult[0]] channels: [forward] raises. *)
Lemma wide_first_level_forward_raises :
  match build (EchoDNDUNet.__init__ wide_first_level_config) with
  | Ok net =>
      forward example_mfcm net [2; 3; 64; 64] [2] None
      = Raise (RuntimeError "conv: input does not match the layer")
  | Raise _ => False
  end.
Proof. vm_compute. reflexivity. Qed.

(** ** Construction succeeds on valid configurations *)

Lemma ResBlock_init_Ok cin ted dr out_opt uc ssn dims ck up down s :
  1 <= dims <= 3 -> (0 <= dr <= 1)%Q ->
  exists rb s', ResBlock.__init__ cin ted dr out_opt uc ssn dims ck up down s = Ok (rb, s').
Proof.
  intros Hd [Hdr0 Hdr1]. apply Qle_bool_iff in Hdr0, Hdr1.
  unfold ResBlock.__init__, normalization, linear, draw, conv_nd,
    Upsample.__init__, Downsample.__init__, avg_pool_nd, build_assert, dropout_module.
  rewrite Hdr0, Hdr1.
  rewrite !bool_decide_true by done. cbv zeta.
  change (py_or None cin) with cin. rewrite Nat.eqb_refl.
  destruct up, down, (py_or out_opt cin =? cin), uc;
    unfold mbind, Build_bind, mret, Build_ret; simpl; eauto.
Qed.

Lemma attention_layers_Ok cfg ds ch heads s :
  (ds ∈ Config.attention_resolutions cfg ->
   heads_ok (Config.num_head_channels cfg) heads ch) ->
  exists at_ s', EchoDNDUNet.attention_layers cfg ds ch heads s = Ok (at_, s').
Proof.
  intros H. unfold EchoDNDUNet.attention_layers. case_bool_decide as Hin.
  - destruct (AttentionBlock_init_Ok ch heads (Config.num_head_channels cfg)
                (Config.use_checkpoint cfg) (Config.use_new_attention_order cfg) s (H Hin))
      as (a & Ha & _).
    rewrite (Build_bind_step _ _ _ _ _ Ha). eauto.
  - eauto.
Qed.

Lemma down_layer_Ok cfg c s :
  1 <= Config.dims cfg <= 3 ->
  (0 <= Config.dropout cfg <= 1)%Q ->
  exists l s', EchoDNDUNet.down_layer cfg c c s = Ok (l, s').
Proof.
  intros Hd Hdr. unfold EchoDNDUNet.down_layer, EchoDNDUNet.plain_ResBlock.
  destruct (Config.resblock_updown cfg).
  - destruct (ResBlock_init_Ok c (EchoDNDUNet.time_embed_dim cfg) (Config.dropout cfg)
                (Some c) false (Config.use_scale_shift_norm cfg) (Config.dims cfg)
                (Config.use_checkpoint cfg) false true s Hd Hdr) as (rb & s' & Hrb).
    rewrite (Build_bind_step _ _ _ _ _ Hrb). eauto.
  - unfold Downsample.__init__, conv_nd, avg_pool_nd, build_assert, draw. cbv zeta.
    rewrite py_or_same, Nat.eqb_refl, !bool_decide_true by done.
    destruct (Config.conv_resample cfg);
      unfold mbind, Build_bind, mret, Build_ret; simpl; eauto.
Qed.

Lemma up_layer_Ok cfg c s :
  1 <= Config.dims cfg <= 3 ->
  (0 <= Config.dropout cfg <= 1)%Q ->
  exists l s', EchoDNDUNet.up_layer cfg c c s = Ok (l, s').
Proof.
  intros Hd Hdr. unfold EchoDNDUNet.up_layer, EchoDNDUNet.plain_ResBlock.
  destruct (Config.resblock_updown cfg).
  - destruct (ResBlock_init_Ok c (EchoDNDUNet.time_embed_dim cfg) (Config.dropout cfg)
                (Some c) false (Config.use_scale_shift_norm cfg) (Config.dims cfg)
                (Config.use_checkpoint cfg) true false s Hd Hdr) as (rb & s' & Hrb).
    rewrite (Build_bind_step _ _ _ _ _ Hrb). eauto.
  - unfold Upsample.__init__, conv_nd, draw. cbv zeta.
    rewrite !bool_decide_true by done.
    destruct (Config.conv_resample cfg);
      unfold mbind, Build_bind, mret, Build_ret; simpl; eauto.
Qed.

Lemma encoder_res_blocks_Ok cfg mult n st s :
  1 <= Config.dims cfg <= 3 ->
  (0 <= Config.dropout cfg <= 1)%Q ->
  (EchoDNDUNet.ds st ∈ Config.attention_resolutions cfg ->
   heads_ok (Config.num_head_channels cfg) (Config.num_heads cfg)
     (mult * Config.model_channels cfg)) ->
  exists st' s', EchoDNDUNet.encoder_res_blocks cfg mult n st s = Ok (st', s').
Proof.
  intros Hd Hdr. revert st s. induction n as [|n IH]; intros st s Hh; [simpl; eauto|].
  cbn [EchoDNDUNet.encoder_res_blocks]. unfold EchoDNDUNet.plain_ResBlock.
  destruct (ResBlock_init_Ok (EchoDNDUNet.ch st) (EchoDNDUNet.time_embed_dim cfg)
              (Config.dropout cfg) (Some (mult * Config.model_channels cfg)) false
              (Config.use_scale_shift_norm cfg) (Config.dims cfg)
              (Config.use_checkpoint cfg) false false s Hd Hdr) as (rb & s1 & Hrb).
  rewrite (Build_bind_step _ _ _ _ _ Hrb).
  destruct (attention_layers_Ok cfg (EchoDNDUNet.ds st) (mult * Config.model_channels cfg)
              (Config.num_heads cfg) s1 Hh) as (at_ & s2 & Hat).
  rewrite (Build_bind_step _ _ _ _ _ Hat).
  apply IH. exact Hh.
Qed.

Lemma encoder_downsample_Ok cfg st s :
  1 <= Config.dims cfg <= 3 ->
  (0 <= Config.dropout cfg <= 1)%Q ->
  exists st' s', EchoDNDUNet.encoder_downsample cfg st s = Ok (st', s').
Proof.
  intros Hd Hdr. unfold EchoDNDUNet.encoder_downsample.
  destruct (down_layer_Ok cfg (EchoDNDUNet.ch st) s Hd Hdr) as (l & s1 & Hl).
  rewrite (Build_bind_step _ _ _ _ _ Hl). eauto.
Qed.

Lemma pop_nonempty {A} (l : list A) :
  l <> [] -> exists x r, pop l = Ok (x, r) /\ length l = S (length r).
Proof.
  intros Hne. destruct (exists_last Hne) as (r & x & ->).
  exists x, r. split; [apply pop_snoc|]. rewrite length_app. simpl. lia.
Qed.

Lemma decoder_res_blocks_Ok cfg level mult is_ st s :
  1 <= Config.dims cfg <= 3 ->
  (0 <= Config.dropout cfg <= 1)%Q ->
  Forall (fun i => i <> Config.num_res_blocks cfg) is_ ->
  length is_ < length (EchoDNDUNet.input_block_chans st) ->
  (EchoDNDUNet.ds st ∈ Config.attention_resolutions cfg ->
   heads_ok (Config.num_head_channels cfg) (Config.num_heads_upsample cfg)
     (Config.model_channels cfg * mult)) ->
  exists st' s',
    EchoDNDUNet.decoder_res_blocks cfg level mult (is_ ++ [Config.num_res_blocks cfg]) st s
    = Ok (st', s').
Proof.
  intros Hd Hdr Hf. revert st s.
  induction Hf as [|i is_ Hi _ IH]; intros st s Hlen Hh;
    cbn [app EchoDNDUNet.decoder_res_blocks];
    (destruct (pop_nonempty (EchoDNDUNet.input_block_chans st)) as (ich & chans & Hpop & Hl);
     [by destruct (EchoDNDUNet.input_block_chans st); simpl in *; [lia|]|]);
    unfold EchoDNDUNet.lift at 1; rewrite Hpop;
    unfold mbind at 1; unfold Build_bind at 1; cbv beta iota;
    unfold EchoDNDUNet.plain_ResBlock;
    (destruct (ResBlock_init_Ok (EchoDNDUNet.ch st + ich) (EchoDNDUNet.time_embed_dim cfg)
                (Config.dropout cfg) (Some (Config.model_channels cfg * mult)) false
                (Config.use_scale_shift_norm cfg) (Config.dims cfg)
                (Config.use_checkpoint cfg) false false s Hd Hdr) as (rb & s1 & Hrb));
    rewrite (Build_bind_step _ _ _ _ _ Hrb);
    (destruct (attention_layers_Ok cfg (EchoDNDUNet.ds st) (Config.model_channels cfg * mult)
                (Config.num_heads_upsample cfg) s1 Hh) as (at_ & s2 & Hat));
    rewrite (Build_bind_step _ _ _ _ _ Hat).
  - rewrite Nat.eqb_refl, andb_true_r.
    destruct (negb (level =? 0)).
    + destruct (up_layer_Ok cfg (Config.model_channels cfg * mult) s2 Hd Hdr)
        as (l & s3 & Hup).
      unfold mbind at 1. unfold Build_bind at 1.
      unfold mbind at 1. unfold Build_bind at 1. rewrite Hup.
      unfold mret at 1. unfold Build_ret at 1. cbv beta iota. eauto.
    + unfold mbind at 1. unfold Build_bind at 1.
      unfold mret at 1. unfold Build_ret at 1. cbv beta iota. eauto.
  - apply Nat.eqb_neq in Hi. rewrite Hi, andb_false_r.
    unfold mbind at 1. unfold Build_bind at 1.
    unfold mret at 1. unfold Build_ret at 1. cbv beta iota.
    apply IH; cbn [EchoDNDUNet.input_block_chans EchoDNDUNet.ds]; [|done].
    simpl in Hlen. lia.
Qed.

Lemma middle_block_Ok cfg ch ds s :
  1 <= Config.dims cfg <= 3 ->
  (0 <= Config.dropout cfg <= 1)%Q ->
  heads_ok (Config.num_head_channels cfg) (Config.num_heads cfg) ch ->
  exists blk s', EchoDNDUNet.middle_block cfg ch ds s = Ok (blk, s').
Proof.
  intros Hd Hdr Hh. unfold EchoDNDUNet.middle_block, EchoDNDUNet.plain_ResBlock.
  destruct (ResBlock_init_Ok ch (EchoDNDUNet.time_embed_dim cfg) (Config.dropout cfg)
              None false (Config.use_scale_shift_norm cfg) (Config.dims cfg)
              (Config.use_checkpoint cfg) false false s Hd Hdr) as (r1 & s1 & H1).
  rewrite (Build_bind_step _ _ _ _ _ H1).
  destruct (AttentionBlock_init_Ok ch (Config.num_heads cfg) (Config.num_head_channels cfg)
              (Config.use_checkpoint cfg) (Config.use_new_attention_order cfg) s1 Hh)
    as (a & Ha & _).
  rewrite (Build_bind_step _ _ _ _ _ Ha).
  destruct (ResBlock_init_Ok ch (EchoDNDUNet.time_embed_dim cfg) (Config.dropout cfg)
              None false (Config.use_scale_shift_norm cfg) (Config.dims cfg)
              (Config.use_checkpoint cfg) false false (S (S s1)) Hd Hdr) as (r2 & s2 & H2).
  rewrite (Build_bind_step _ _ _ _ _ H2). eauto.
Qed.

Lemma decoder_level_Ok cfg k m st_d s_d chans0 tail :
  1 <= Config.dims cfg <= 3 ->
  (0 <= Config.dropout cfg <= 1)%Q ->
  EchoDNDUNet.input_block_chans st_d = chans0 ++ tail ->
  length tail = Config.num_res_blocks cfg + 1 ->
  (EchoDNDUNet.ds st_d ∈ Config.attention_resolutions cfg ->
   heads_ok (Config.num_head_channels cfg) (Config.num_heads_upsample cfg)
     (Config.model_channels cfg * m)) ->
  exists st' s',
    EchoDNDUNet.decoder_res_blocks cfg k m (range (Config.num_res_blocks cfg + 1)) st_d s_d
    = Ok (st', s') /\
    EchoDNDUNet.input_block_chans st' = chans0 /\
    EchoDNDUNet.ds st' = (if k =? 0 then EchoDNDUNet.ds st_d
                          else EchoDNDUNet.ds st_d `div` 2).
Proof.
  intros Hd Hdr Hled Htail Hh.
  destruct (decoder_res_blocks_Ok cfg k m (range (Config.num_res_blocks cfg)) st_d s_d Hd Hdr)
    as (st' & s' & H); [| |done|].
  { unfold range. apply Forall_forall. intros i Hi. apply elem_of_seq in Hi. lia. }
  { unfold range. rewrite length_seq, Hled, length_app. lia. }
  rewrite <- range_snoc in H. exists st', s'. split; [exact H|].
  apply decoder_res_blocks_spec in H
    as (newD & popped & _ & Hled' & _ & Hlp & _ & Hds & _).
  rewrite decoder_ds_range in Hds. split; [|done].
  unfold range in Hlp. rewrite length_seq in Hlp. rewrite Hled in Hled'.
  apply app_inj_2 in Hled' as [-> _]; [done|].
  by rewrite length_reverse, Hlp.
Qed.

Lemma decoder_levels_app_Ok cfg l1 l2 st s st1 s1 (r : EchoDNDUNet.locals * nat) :
  EchoDNDUNet.decoder_levels cfg l1 st s = Ok (st1, s1) ->
  EchoDNDUNet.decoder_levels cfg l2 st1 s1 = Ok r ->
  EchoDNDUNet.decoder_levels cfg (l1 ++ l2) st s = Ok r.
Proof.
  revert st s. induction l1 as [|[level mult] l1 IH]; intros st s H1 H2.
  - simpl in H1. apply Build_ret_Ok in H1 as [E1 E2]. by subst.
  - cbn [app EchoDNDUNet.decoder_levels] in *.
    apply Build_bind_Ok in H1 as (st0 & s0 & H0 & H1).
    rewrite (Build_bind_step _ _ _ _ _ H0). by apply IH.
Qed.

(** The constructor's two loops over the levels succeed from level [k]
    on, and the decoder leaves the ledger as it was below its last entry. *)
Lemma ladder_constructs cfg :
  1 <= Config.dims cfg <= 3 ->
  (0 <= Config.dropout cfg <= 1)%Q ->
  forall ms m k st s chans0 c,
    k + S (length ms) = length (Config.channel_mult cfg) ->
    levels_valid cfg (EchoDNDUNet.ds st) (m :: ms) ->
    EchoDNDUNet.input_block_chans st = chans0 ++ [c] ->
    exists st_e s_e,
      EchoDNDUNet.encoder_levels cfg (enumerate_from k (m :: ms)) st s = Ok (st_e, s_e) /\
      EchoDNDUNet.ch st_e
      = (if Config.num_res_blocks cfg is 0 then EchoDNDUNet.ch st
         else List.last (m :: ms) 1 * Config.model_channels cfg) /\
      forall st_d s_d,
        EchoDNDUNet.input_block_chans st_d = EchoDNDUNet.input_block_chans st_e ->
        EchoDNDUNet.ds st_d = EchoDNDUNet.ds st_e ->
        exists st_d' s_d',
          EchoDNDUNet.decoder_levels cfg (reverse (enumerate_from k (m :: ms))) st_d s_d
          = Ok (st_d', s_d') /\
          EchoDNDUNet.input_block_chans st_d' = chans0 /\
          EchoDNDUNet.ds st_d' = (if k =? 0 then EchoDNDUNet.ds st
                                  else EchoDNDUNet.ds st `div` 2).
Proof.
  intros Hd Hdr ms.
  induction ms as [|m2 ms IH]; intros m k st s chans0 c HL Hv Hled;
    destruct Hv as (Hm & Hheads & Hv2);
    (destruct (encoder_res_blocks_Ok cfg m (Config.num_res_blocks cfg) st s Hd Hdr)
       as (st1 & s1 & Hres); [intros Hin; by apply Hheads|]);
    pose proof (encoder_res_blocks_spec _ _ _ _ _ _ _ Hres)
      as (new1 & _ & _ & Hled1 & Hds1 & Hch1 & _);
    cbn [enumerate_from EchoDNDUNet.encoder_levels];
    rewrite (Build_bind_step _ _ _ _ _ Hres).
  - assert (Hk : (k =? length (Config.channel_mult cfg) - 1) = true)
      by (apply Nat.eqb_eq; simpl in HL; lia).
    rewrite Hk. cbn [negb].
    exists st1, s1. split; [reflexivity|]. split; [exact Hch1|].
    intros st_d s_d Hld Hdd.
    destruct (decoder_level_Ok cfg k m st_d s_d chans0
                (c :: replicate (Config.num_res_blocks cfg) (m * Config.model_channels cfg)) Hd Hdr)
      as (st' & s' & H & Hl' & Hds').
    { by rewrite Hld, Hled1, Hled, <- app_assoc. }
    { cbn [length]. rewrite length_replicate. lia. }
    { rewrite Hdd, Hds1. intros Hin. by apply Hheads. }
    exists st', s'. unfold reverse. cbn [rev_append EchoDNDUNet.decoder_levels].
    unfold mbind at 1. unfold Build_bind at 1. rewrite H.
    rewrite Hds', Hdd, Hds1. done.
  - assert (Hk : (k =? length (Config.channel_mult cfg) - 1) = false)
      by (apply Nat.eqb_neq; simpl in HL; lia).
    rewrite Hk. cbn [negb].
    destruct (encoder_downsample_Ok cfg st1 s1 Hd Hdr) as (st2 & s2 & Hdown).
    rewrite (Build_bind_step _ _ _ _ _ Hdown).
    pose proof (encoder_downsample_spec _ _ _ _ _ Hdown)
      as (blk & _ & Hled2 & Hds2 & Hch2 & _).
    destruct (IH m2 (S k) st2 s2 (EchoDNDUNet.input_block_chans st1)
                (EchoDNDUNet.ch st1))
      as (st_e & s_e & Henc & Hche & HdecE).
    { simpl in *. lia. }
    { by rewrite Hds2, Hds1. }
    { exact Hled2. }
    exists st_e, s_e. split; [exact Henc|].
    split.
    { rewrite Hche, Hch2, Hch1. by destruct (Config.num_res_blocks cfg). }
    intros st_d s_d Hld Hdd.
    destruct (HdecE st_d s_d Hld Hdd) as (st_d1 & s_d1 & Hdec1 & HledD1 & HdsD1).
    cbn [Nat.eqb] in HdsD1. rewrite Hds2, Hds1, Nat.div_mul in HdsD1 by done.
    destruct (decoder_level_Ok cfg k m st_d1 s_d1 chans0
                (c :: replicate (Config.num_res_blocks cfg) (m * Config.model_channels cfg)) Hd Hdr)
      as (st' & s' & H & Hl' & Hds').
    { by rewrite HledD1, Hled1, Hled, <- app_assoc. }
    { cbn [length]. rewrite length_replicate. lia. }
    { rewrite HdsD1. intros Hin. by apply Hheads. }
    exists st', s'. split; [|by rewrite Hds', HdsD1].
    rewrite reverse_cons.
    apply (decoder_levels_app_Ok cfg _ _ _ _ _ _ _ Hdec1).
    cbn [EchoDNDUNet.decoder_levels]. unfold mbind at 1. unfold Build_bind at 1.
    by rewrite H.
Qed.


Lemma out_projection_Ok cfg ch out s :
  1 <= Config.dims cfg <= 3 ->
  exists o, EchoDNDUNet.out_projection cfg ch out s = Ok (o, S s).
Proof.
  intros Hd. unfold EchoDNDUNet.out_projection, normalization.
  unfold mbind at 1. unfold Build_bind at 1. unfold mret at 1. unfold Build_ret at 1.
  cbv beta iota.
  rewrite (Build_bind_step _ _ _ _ _ (conv_nd_Ok _ _ _ _ _ _ s Hd)). eauto.
Qed.

Lemma gaussian_pathway_Ok cfg s :
  1 <= Config.dims cfg <= 3 ->
  (0 <= Config.dropout cfg <= 1)%Q ->
  head (Config.channel_mult cfg) <> None ->
  levels_valid cfg 1 (Config.channel_mult cfg) ->
  heads_ok (Config.num_head_channels cfg) (Config.num_heads cfg) (bottleneck_channels cfg) ->
  exists enc middle dec s',
    EchoDNDUNet.gaussian_pathway cfg s = Ok (enc, middle, dec, s').
Proof.
  intros Hd Hdr Hhead Hlv Hmid.
  destruct (Config.channel_mult cfg) as [|m0 ms] eqn:Hcm; [done|].
  unfold EchoDNDUNet.gaussian_pathway. cbv zeta.
  rewrite (Build_bind_step _ _ _ _ _ (conv_nd_Ok _ _ _ _ _ _ s Hd)).
  rewrite Hcm. unfold enumerate.
  destruct (ladder_constructs cfg Hd Hdr ms m0 0
              (EchoDNDUNet.mkLocals
                 [TimestepEmbedSequential.mk
                    [LConv (Conv.mk (Config.dims cfg) (Config.in_channels cfg)
                              (Config.model_channels cfg) 3
                              (every_axis (Config.dims cfg) 1) 1 (Drawn s))] 1]
                 (Config.model_channels cfg) [Config.model_channels cfg]
                 (Config.model_channels cfg) 1)
              (S s) [] (Config.model_channels cfg))
    as (enc & s2 & Henc & Hche & HdecE); [simpl; by rewrite Hcm|exact Hlv|done|].
  rewrite (Build_bind_step _ _ _ _ _ Henc).
  cbn [EchoDNDUNet.ch] in Hche.
  destruct (middle_block_Ok cfg (EchoDNDUNet.ch enc) (EchoDNDUNet.ds enc) s2 Hd Hdr)
    as (middle & s3 & Hm).
  { rewrite Hche. unfold bottleneck_channels in Hmid. by rewrite Hcm in Hmid. }
  rewrite (Build_bind_step _ _ _ _ _ Hm).
  destruct (HdecE (EchoDNDUNet.mkLocals [] (EchoDNDUNet.feature_size enc + EchoDNDUNet.ch enc)
                     (EchoDNDUNet.input_block_chans enc) (EchoDNDUNet.ch enc)
                     (EchoDNDUNet.ds enc)) s3 eq_refl eq_refl)
    as (dec & s4 & Hdec & _).
  rewrite (Build_bind_step _ _ _ _ _ Hdec). eauto 10.
Qed.

(** A valid configuration for 1, 2 or 3 spatial dimensions constructs. *)
Lemma valid_config_constructs cfg s :
  valid_config cfg -> 1 <= Config.dims cfg <= 3 ->
  exists net s', EchoDNDUNet.__init__ cfg s = Ok (net, s').
Proof.
  intros (Hin & Hmc & Hhead & Hlv & Hmid & Hnc & Hhw & Hfp & Hdr) Hd.
  unfold EchoDNDUNet.__init__. cbv zeta. fold (effective cfg).
  unfold linear, draw.
  do 2 (unfold mbind at 1; unfold Build_bind at 1; cbv beta iota;
        unfold mbind at 1; unfold Build_bind at 1; cbv beta iota;
        unfold mret at 1; unfold Build_ret at 1; cbv beta iota).
  change (Config.num_classes (effective cfg)) with (Config.num_classes cfg).
  rewrite Hnc.
  unfold mbind at 1. unfold Build_bind at 1. cbv beta iota.
  unfold mret at 1. unfold Build_ret at 1. cbv beta iota.
  destruct (gaussian_pathway_Ok (effective cfg) (S (S s)) Hd Hdr)
    as (enc & middle & dec & s4 & Hp); try done.
  { change (Config.channel_mult (effective cfg)) with (Config.channel_mult cfg).
    by rewrite Hhead. }
  rewrite (Build_bind_step _ _ _ _ _ Hp).
  destruct (out_projection_Ok (effective cfg) (EchoDNDUNet.ch dec)
              (Config.out_channels_gaussian cfg) s4 Hd) as (og & Hog).
  change (Config.out_channels_gaussian (effective cfg))
    with (Config.out_channels_gaussian cfg).
  rewrite (Build_bind_step _ _ _ _ _ Hog).
  destruct (out_projection_Ok (effective cfg) (EchoDNDUNet.ch dec)
              (Config.out_channels_bernoulli cfg) (S s4) Hd) as (ob & Hob).
  change (Config.out_channels_bernoulli (effective cfg))
    with (Config.out_channels_bernoulli cfg).
  rewrite (Build_bind_step _ _ _ _ _ Hob). eauto.
Qed.

(** * Further properties of the code *)

(** ** What [forward] checks before it computes *)

Section ForwardChecks.
Variable HRNet_forward : HRNet.t -> Shape -> result (list Shape * Shape).

(** X1.  The first statement of [forward] is the assertion on
    [x.shape[1]]: on an input whose second axis is not 3 the call raises
    that [AssertionError], whatever the network, the timesteps and [y] are;
    on an input without a second axis, reading [x.shape[1]] raises
    [IndexError]. *)
Theorem forward_asserts_three_channels net (x timesteps : Shape) (y : option Shape) :
  x !! 1 <> Some 3 ->
  forward HRNet_forward net x timesteps y
  = Raise (if x !! 1 is Some _ then AssertionError "Input must have 3 channels"
           else IndexError).
Proof.
  intros Hx. unfold forward, forward_trunk, getitem. unfold Shape in *.
  destruct (x !! 1) as [c|]; [|reflexivity].
  cbn [mbind result_bind].
  destruct (Nat.eqb_spec c 3) as [->|Hne]; [done|]. reflexivity.
Qed.


Lemma encoder_no_levels_channels cfg st s enc s' :
  Config.channel_mult cfg = [] ->
  EchoDNDUNet.encoder_levels cfg (enumerate (Config.channel_mult cfg)) st s = Ok (enc, s') ->
  enc = st.
Proof. intros -> H. simpl in H. by apply Build_ret_Ok in H as [-> _]. Qed.

End ForwardChecks.

Lemma forward_asserts_three_channels_witness :
  exists net s',
    EchoDNDUNet.__init__ example_config 0 = Ok (net, s') /\
    forward example_mfcm net [2; 2; 64; 64] [2] None
    = Raise (AssertionError "Input must have 3 channels").
Proof.
  destruct (EchoDNDUNet.__init__ example_config 0) as [[net s']|e] eqn:H;
    [|vm_compute in H; discriminate].
  exists net, s'. split; [reflexivity|].
  exact (forward_asserts_three_channels example_mfcm net [2; 2; 64; 64] [2] None
           ltac:(by intros [=])).
Defined.


(** ** What the constructor builds *)

(** X3.  The constructor raises nothing on a valid configuration for 1, 2
    or 3 spatial dimensions: every pop of the channel ledger finds an entry,
    every [AttentionBlock] finds its heads dividing its channels, and every
    [nn.Dropout] is given a probability between 0 and 1. *)
Theorem constructor_accepts_valid_config cfg s :
  valid_config cfg -> 1 <= Config.dims cfg <= 3 ->
  exists net s', EchoDNDUNet.__init__ cfg s = Ok (net, s').
Proof. apply valid_config_constructs. Qed.

Lemma constructor_accepts_valid_config_witness :
  exists net s', EchoDNDUNet.__init__ example_config 5 = Ok (net, s').
Proof.
  exact (constructor_accepts_valid_config example_config 5 example_config_valid
           ltac:(cbn; lia)).
Defined.



(** ** The resampling layers *)

Lemma window_out_conv_any e s :
  s = 1 \/ s = 2 -> 0 < e -> window_out 3 1 e s = Ok ((e + s - 1) `div` s).
Proof.
  intros Hs He. unfold window_out.
  destruct (Nat.ltb_spec (e + 2 * 1) 3); [lia|].
  destruct (Nat.eqb_spec s 0); [lia|]. simpl. f_equal.
  destruct Hs; subst s.
  - rewrite !Nat.div_1_r. lia.
  - replace (e + 2 - 1) with ((e + 2 * 1 - 3) + 1 * 2) by lia.
    rewrite Nat.div_add by lia. lia.
Qed.

Lemma window_out_pool_any e s :
  s = 1 \/ s = 2 ->
  window_out s 0 e s
  = if s <=? e then Ok (e `div` s) else Raise (RuntimeError "window does not fit the input").
Proof.
  intros Hs. unfold window_out.
  destruct (Nat.leb_spec s e) as [Hle|Hlt].
  - destruct (Nat.ltb_spec (e + 2 * 0) s); [lia|].
    destruct (Nat.eqb_spec s 0); [lia|]. simpl. f_equal.
    replace e with ((e + 2 * 0 - s) + 1 * s) at 2 by lia.
    rewrite Nat.div_add by lia. lia.
  - destruct (Nat.ltb_spec (e + 2 * 0) s); [done|lia].
Qed.

Lemma conv_spatial_any dims sp :
  length sp = length (Downsample.stride_of dims) -> Forall (lt 0) sp ->
  window_spatial (fun _ => 3) 1 sp (Downsample.stride_of dims)
  = Ok (zip_with (fun e s => (e + s - 1) `div` s) sp (Downsample.stride_of dims)).
Proof.
  pose proof (stride_of_cases dims) as Hc. revert Hc.
  generalize (Downsample.stride_of dims). intros ss Hc. revert sp.
  induction Hc as [|s ss Hs _ IH]; intros [|e sp] Hl Hp; try discriminate; [done|].
  apply Forall_cons in Hp as [He Hp]. cbn [window_spatial zip_with].
  rewrite window_out_conv_any by done. cbn [mbind result_bind].
  rewrite IH by (simpl in Hl; done || lia). reflexivity.
Qed.

Lemma pool_spatial_any dims sp :
  length sp = length (Downsample.stride_of dims) ->
  window_spatial (fun s => s) 0 sp (Downsample.stride_of dims)
  = if bool_decide (Forall2 le (Downsample.stride_of dims) sp)
    then Ok (zip_with Nat.div sp (Downsample.stride_of dims))
    else Raise (RuntimeError "window does not fit the input").
Proof.
  pose proof (stride_of_cases dims) as Hc. revert Hc.
  generalize (Downsample.stride_of dims). intros ss Hc. revert sp.
  induction Hc as [|s ss Hs _ IH]; intros [|e sp] Hl; try discriminate.
  - rewrite bool_decide_true by constructor. done.
  - cbn [window_spatial zip_with]. rewrite window_out_pool_any by done.
    destruct (Nat.leb_spec s e) as [Hle|Hlt]; cbn [mbind result_bind].
    + rewrite IH by (simpl in Hl; lia).
      case_bool_decide as H1.
      * rewrite bool_decide_true by (by constructor). done.
      * rewrite bool_decide_false; [done|]. intros H2. apply H1.
        by apply Forall2_cons in H2 as [_ H2].
    + rewrite bool_decide_false; [done|]. intros H2.
      apply Forall2_cons in H2 as [H2 _]. lia.
Qed.

(** X5.  [Upsample]: on an input of [channels] channels, the layer built
    by the constructor doubles the spatial extents (the two inner ones for
    3-D signals).  With a convolution the result has [out_channels or
    channels] channels; without one it keeps the [channels] channels of the
    input, whatever [out_channels] was given. *)
Theorem Upsample_forward_doubles channels use_conv dims out_channels s u s' n sp :
  Upsample.__init__ channels use_conv dims out_channels s = Ok (u, s') ->
  1 <= dims <= 3 -> length sp = dims ->
  0 < n -> 0 < channels -> Forall (lt 0) sp ->
  Upsample.forward u (n :: channels :: sp)
  = Ok (n :: (if use_conv then py_or out_channels channels else channels)
          :: double dims sp).
Proof.
  intros H Hd Hl Hn Hc Hp.
  unfold Upsample.__init__ in H. cbv zeta in H.
  destruct (double_ok _ sp Hd Hl Hp) as [Hl2 Hp2].
  unfold Upsample.forward. destruct use_conv.
  - apply Build_bind_Ok in H as (cv & s2 & Hcv & H).
    apply Build_ret_Ok in H as [E _]; subst. rewrite conv_nd_Ok in Hcv by done.
    injection Hcv as <- _.
    cbn [Upsample.channels Upsample.dims Upsample.use_conv Upsample.conv].
    simpl. rewrite Nat.eqb_refl. simpl. rewrite interpolate_double by done. simpl.
    apply Conv_forward_same; simpl; auto.
  - apply Build_ret_Ok in H as [E _]; subst.
    cbn [Upsample.channels Upsample.dims Upsample.use_conv Upsample.conv].
    simpl. rewrite Nat.eqb_refl. simpl. by rewrite interpolate_double by done.
Qed.

Lemma Upsample_forward_doubles_witness :
  exists u s',
    Upsample.__init__ 8 false 3 (Some 16) 0 = Ok (u, s') /\
    Upsample.forward u [2; 8; 5; 6; 7] = Ok [2; 8; 5; 12; 14].
Proof.
  destruct (Upsample.__init__ 8 false 3 (Some 16) 0) as [[u s']|e] eqn:H;
    [|vm_compute in H; discriminate].
  exists u, s'. split; [reflexivity|].
  exact (Upsample_forward_doubles 8 false 3 (Some 16) 0 u s' 2 [5; 6; 7] H
           ltac:(lia) eq_refl ltac:(lia) ltac:(lia)
           ltac:(repeat constructor; lia)).
Defined.

(** X6.  [Downsample] with its strided convolution (kernel 3, padding 1)
    never rejects positive spatial extents and rounds their halves up:
    an axis of stride 2 goes from [e] to [(e + 1) // 2]. *)
Theorem Downsample_conv_rounds_up channels dims out_channels s d s' n sp :
  Downsample.__init__ channels true dims out_channels s = Ok (d, s') ->
  length sp = dims -> Forall (lt 0) sp ->
  Downsample.forward d (n :: channels :: sp)
  = Ok (n :: py_or out_channels channels
          :: zip_with (fun e st => (e + st - 1) `div` st) sp (Downsample.stride_of dims)).
Proof.
  intros H Hl Hp. unfold Downsample.__init__ in H. cbv zeta in H.
  apply Build_bind_Ok in H as (cv & s2 & Hcv & H).
  apply Build_ret_Ok in H as [E _]; subst.
  pose proof (conv_nd_dims Hcv) as Hd. rewrite conv_nd_Ok in Hcv by done.
  injection Hcv as <- _.
  unfold Downsample.forward. cbn [Downsample.channels Downsample.op].
  simpl. rewrite Nat.eqb_refl. simpl.
  unfold Conv.forward. simpl. rewrite bool_decide_true by done.
  rewrite conv_spatial_any; [done| |done].
  by rewrite stride_of_length.
Qed.

Lemma Downsample_conv_rounds_up_witness :
  exists d s',
    Downsample.__init__ 8 true 2 None 0 = Ok (d, s') /\
    Downsample.forward d [2; 8; 5; 1] = Ok [2; 8; 3; 1].
Proof.
  destruct (Downsample.__init__ 8 true 2 None 0) as [[d s']|e] eqn:H;
    [|vm_compute in H; discriminate].
  exists d, s'. split; [reflexivity|].
  exact (Downsample_conv_rounds_up 8 2 None 0 d s' 2 [5; 1] H eq_refl
           ltac:(repeat constructor; lia)).
Defined.

(** X7.  [Downsample] with average pooling rounds the halves down, and
    raises when a pooled axis is shorter than its window: an axis of
    stride 2 needs an extent of 2 at least. *)
Theorem Downsample_pool_rounds_down channels dims out_channels s d s' n sp :
  Downsample.__init__ channels false dims out_channels s = Ok (d, s') ->
  length sp = dims ->
  Downsample.forward d (n :: channels :: sp)
  = if bool_decide (Forall2 le (Downsample.stride_of dims) sp)
    then Ok (n :: channels :: zip_with Nat.div sp (Downsample.stride_of dims))
    else Raise (RuntimeError "window does not fit the input").
Proof.
  intros H Hl. unfold Downsample.__init__ in H. cbv zeta in H.
  apply Build_bind_Ok in H as (u & s2 & _ & H).
  apply Build_bind_Ok in H as (p & s3 & Hp & H).
  apply Build_ret_Ok in H as [E _]; subst.
  unfold avg_pool_nd in Hp. case_bool_decide as Hd; [|discriminate].
  apply Build_ret_Ok in Hp as [Hp _]. subst p.
  unfold Downsample.forward. cbn [Downsample.channels Downsample.op].
  simpl. rewrite Nat.eqb_refl. simpl.
  unfold AvgPool.forward. simpl. rewrite bool_decide_true by done.
  rewrite pool_spatial_any by (by rewrite stride_of_length).
  by case_bool_decide.
Qed.

Lemma Downsample_pool_rounds_down_witness :
  exists d s',
    Downsample.__init__ 8 false 2 None 0 = Ok (d, s') /\
    Downsample.forward d [2; 8; 5; 2] = Ok [2; 8; 2; 1] /\
    Downsample.forward d [2; 8; 5; 1] = Raise (RuntimeError "window does not fit the input").
Proof.
  destruct (Downsample.__init__ 8 false 2 None 0) as [[d s']|e] eqn:H;
    [|vm_compute in H; discriminate].
  exists d, s'. split; [reflexivity|]. split.
  - exact (Downsample_pool_rounds_down 8 2 None 0 d s' 2 [5; 2] H eq_refl).
  - exact (Downsample_pool_rounds_down 8 2 None 0 d s' 2 [5; 1] H eq_refl).
Defined.

(** X8.  Without a convolution [Downsample] cannot change the channel
    count: its constructor fails the assertion
    [self.channels == self.out_channels] when another (non-zero) count is
    asked for. *)
Theorem Downsample_pool_keeps_channels channels dims out_channels s :
  py_or out_channels channels <> channels ->
  Downsample.__init__ channels false dims out_channels s = Raise (AssertionError "").
Proof.
  intros H. unfold Downsample.__init__. cbv zeta.
  destruct (Nat.eqb_spec channels (py_or out_channels channels)) as [E|_]; [by rewrite <- E in H|].
  reflexivity.
Qed.

Lemma Downsample_pool_keeps_channels_witness :
  Downsample.__init__ 8 false 2 (Some 16) 0 = Raise (AssertionError "").
Proof.
  exact (Downsample_pool_keeps_channels 8 2 (Some 16) 0 ltac:(vm_compute; lia)).
Defined.

(** X9.  Both resampling layers assert [x.shape[1] == self.channels]
    before anything else: an input with another channel count raises
    [AssertionError]. *)
Theorem resampling_asserts_channels (u : Upsample.t) (d : Downsample.t) n c sp :
  c <> Upsample.channels u -> c <> Downsample.channels d ->
  Upsample.forward u (n :: c :: sp) = Raise (AssertionError "") /\
  Downsample.forward d (n :: c :: sp) = Raise (AssertionError "").
Proof.
  intros Hu Hd. unfold Upsample.forward, Downsample.forward. simpl.
  destruct (Nat.eqb_spec c (Upsample.channels u)); [done|].
  destruct (Nat.eqb_spec c (Downsample.channels d)); [done|]. done.
Qed.

Lemma resampling_asserts_channels_witness :
  Upsample.forward (Upsample.mk 8 8 false 2 None) [2; 4; 6; 6] = Raise (AssertionError "") /\
  Downsample.forward
    (Downsample.mk 8 8 false 2 (Downsample.OpAvgPool (AvgPool.mk 2 [2; 2] [2; 2])))
    [2; 4; 6; 6] = Raise (AssertionError "").
Proof.
  exact (resampling_asserts_channels (Upsample.mk 8 8 false 2 None)
           (Downsample.mk 8 8 false 2 (Downsample.OpAvgPool (AvgPool.mk 2 [2; 2] [2; 2])))
           2 4 [6; 6] ltac:(cbn; lia) ltac:(cbn; lia)).
Defined.

(** ** The residual block and the attention block on shapes *)

(** X10.  [ResBlock.forward] maps an [N x C x ...] input and an
    [N x emb_channels] embedding to [N x out_channels x ...]: the spatial
    extents are doubled by a block built with [up], halved by one built with
    [down] (and not [up]), and kept otherwise, with or without
    [use_scale_shift_norm] and whatever the skip connection is. *)
Theorem ResBlock_forward_output_shape
    cin ted dr out_opt uc ssn dims ck up down s rb s' n sp :
  ResBlock.__init__ cin ted dr out_opt uc ssn dims ck up down s = Ok (rb, s') ->
  0 < n -> 0 < cin -> 0 < py_or out_opt cin ->
  resample_pre up down dims sp ->
  ResBlock.forward rb (n :: cin :: sp) [n; ted]
  = Ok (n :: py_or out_opt cin :: resampled up down dims sp).
Proof.
  intros H Hn Hc Ho Hpre. unfold ResBlock.forward.
  exact (ResBlock_forward_shape _ _ _ _ _ _ _ _ _ _ _ _ _ n sp H Hn Hc Ho Hpre).
Qed.

Lemma ResBlock_forward_output_shape_witness :
  exists rb s',
    ResBlock.__init__ 4 16 0%Q (Some 8) false true 2 false false true 0 = Ok (rb, s') /\
    ResBlock.forward rb [2; 4; 6; 10] [2; 16] = Ok [2; 8; 3; 5].
Proof.
  destruct (ResBlock.__init__ 4 16 0%Q (Some 8) false true 2 false false true 0)
    as [[rb s']|e] eqn:H; [|vm_compute in H; discriminate].
  exists rb, s'. split; [reflexivity|].
  refine (ResBlock_forward_output_shape 4 16 0%Q (Some 8) false true 2 false false true
            0 rb s' 2 [6; 10] H ltac:(lia) ltac:(lia) ltac:(vm_compute; lia) _).
  repeat constructor; [by exists 3 | by exists 5].
Defined.

(** X11.  [AttentionBlock.forward] returns a tensor of the shape of its
    input, for any number of spatial axes, with either attention order. *)
Theorem AttentionBlock_forward_keeps_shape c heads nhc ck nw s a s' n sp :
  AttentionBlock.__init__ c heads nhc ck nw s = Ok (a, s') ->
  heads_ok nhc heads c -> 0 < n -> Forall (lt 0) sp ->
  AttentionBlock.forward a (n :: c :: sp) = Ok (n :: c :: sp).
Proof.
  intros H Hok Hn Hsp.
  exact (AttentionBlock_forward_shape _ _ _ _ _ _ _ _ n sp H Hok Hn Hsp).
Qed.

Lemma AttentionBlock_forward_keeps_shape_witness :
  exists a s',
    AttentionBlock.__init__ 12 4 (-1) false true 0 = Ok (a, s') /\
    AttentionBlock.forward a [2; 12; 3; 5; 7] = Ok [2; 12; 3; 5; 7].
Proof.
  destruct (AttentionBlock.__init__ 12 4 (-1) false true 0) as [[a s']|e] eqn:H;
    [|vm_compute in H; discriminate].
  exists a, s'. split; [reflexivity|].
  refine (AttentionBlock_forward_keeps_shape 12 4 (-1) false true 0 a s' 2 [3; 5; 7] H
            _ ltac:(lia) ltac:(repeat constructor; lia)).
  split; [lia|]. split; [lia|]. by exists 3%Z.
Defined.

(** X12.  With [num_head_channels = -1] the constructor of [AttentionBlock]
    checks nothing about [num_heads]: a positive head count that does not
    divide the channels is accepted, and it is the first forward pass that
    fails, on the assertion of the attention kernel. *)
Theorem AttentionBlock_heads_checked_at_forward c heads ck nw s n sp :
  (0 < heads)%Z -> ~ (heads | Z.of_nat c)%Z ->
  0 < n -> 0 < c -> Forall (lt 0) sp ->
  exists a s',
    AttentionBlock.__init__ c heads (-1) ck nw s = Ok (a, s') /\
    AttentionBlock.forward a (n :: c :: sp) = Raise (AssertionError "").
Proof.
  intros Hh Hnd Hn Hc Hsp.
  pose proof (prod_list_positive sp Hsp) as HT.
  unfold AttentionBlock.__init__. change (-1 =? -1)%Z with true. cbv iota.
  unfold mbind at 1. unfold Build_bind at 1. cbn [mret Build_ret].
  unfold normalization. unfold mbind at 1. unfold Build_bind at 1. cbn [mret Build_ret].
  rewrite (Build_bind_step _ _ _ _ _ (conv_nd_Ok 1 _ _ _ _ _ s ltac:(lia))).
  rewrite (Build_bind_step _ _ _ _ _ (conv_nd_Ok 1 _ _ _ _ _ (S s) ltac:(lia))).
  eexists _, _. split; [reflexivity|].
  unfold AttentionBlock.forward, AttentionBlock._forward.
  cbn [AttentionBlock.norm AttentionBlock.qkv AttentionBlock.attention
       AttentionBlock.proj_out].
  replace (prod_list (n :: c :: sp)) with (n * c * prod_list sp)
    by (unfold prod_list; simpl; lia).
  rewrite infer_axis_Ok by nia. simpl.
  rewrite Norm_forward_Ok by done. simpl.
  rewrite (Conv_forward_same _ n c [prod_list sp]); simpl; auto.
  assert (E : forall order, head_width order heads n (c * 3) = Raise (AssertionError "")).
  { intros order. unfold head_width. destruct (Z.eqb_spec heads 0); [lia|].
    replace (Z.of_nat (c * 3)) with (3 * Z.of_nat c)%Z by lia.
    rewrite Z.mul_mod_distr_l by lia.
    destruct (Z.eqb_spec (3 * (Z.of_nat c `mod` heads)) 0) as [E|_]; [|reflexivity].
    exfalso. apply Hnd. apply Z.mod_divide; lia. }
  destruct nw; cbn [AttentionBlock.attention_forward];
    unfold QKVAttention.forward, QKVAttentionLegacy.forward;
    cbn [QKVAttention.n_heads QKVAttentionLegacy.n_heads]; by rewrite E.
Qed.

Lemma AttentionBlock_heads_checked_at_forward_witness :
  exists a s',
    AttentionBlock.__init__ 6 4 (-1) false false 0 = Ok (a, s') /\
    AttentionBlock.forward a [2; 6; 8; 8] = Raise (AssertionError "").
Proof.
  refine (AttentionBlock_heads_checked_at_forward 6 4 false false 0 2 [8; 8]
            ltac:(lia) _ ltac:(lia) ltac:(lia) ltac:(repeat constructor; lia)).
  intros [k Hk]. simpl in Hk. lia.
Defined.

(** X13.  Both attention kernels take an [N x (3 * H * C) x T] tensor to
    [N x (H * C) x T]: a third of the width.  A width that is not a
    multiple of [3 * n_heads] fails the assertion instead. *)
Theorem attention_kernels_return_a_third (h : Z) bs width len :
  (0 < h)%Z -> 0 < bs -> 0 < width -> 0 < len ->
  let expected :=
    if (Z.of_nat width `mod` (3 * h) =? 0)%Z then Ok [bs; width `div` 3; len]
    else Raise (AssertionError "") in
  QKVAttention.forward (QKVAttention.mk h) [bs; width; len] = expected /\
  QKVAttentionLegacy.forward (QKVAttentionLegacy.mk h) [bs; width; len] = expected.
Proof.
  intros Hh Hbs Hw Hlen expected.
  assert (E : forall order,
            ('(h0, ch) ← head_width order h bs width;
             c ← infer_axis (prod_list [bs * h0; ch; len]) (bs * len);
             Ok [bs; c; len]) = expected).
  { intros order. subst expected.
    destruct (Z.eqb_spec (Z.of_nat width `mod` (3 * h)) 0) as [Hm|Hm].
    - apply Z.mod_divide in Hm as [k Hk]; [|lia].
      assert (Hk0 : (0 < k)%Z) by nia.
      assert (Hwk : width = Z.to_nat h * Z.to_nat k * 3) by nia.
      rewrite Hwk, head_width_Ok by lia. cbn [mbind result_bind].
      replace (prod_list [bs * Z.to_nat h; Z.to_nat k; len])
        with (bs * len * (Z.to_nat h * Z.to_nat k)) by (unfold prod_list; simpl; nia).
      rewrite infer_axis_Ok by nia. cbn [mbind result_bind].
      by rewrite Nat.div_mul by lia.
    - unfold head_width. destruct (Z.eqb_spec h 0); [lia|].
      destruct (Z.eqb_spec (Z.of_nat width `mod` (3 * h)) 0); [done|]. reflexivity. }
  split; [exact (E QKVFirst) | exact (E HeadsFirst)].
Qed.

Lemma attention_kernels_return_a_third_witness :
  QKVAttention.forward (QKVAttention.mk 2) [4; 24; 9] = Ok [4; 8; 9] /\
  QKVAttentionLegacy.forward (QKVAttentionLegacy.mk 2) [4; 24; 9] = Ok [4; 8; 9].
Proof.
  exact (attention_kernels_return_a_third 2 4 24 9
           ltac:(lia) ltac:(lia) ltac:(lia) ltac:(lia)).
Defined.

(** ** [TimestepEmbedSequential] *)

(** X14.  A [TimestepEmbedSequential] passes [emb] to its [TimestepBlock]
    children only: one without a [ResBlock] among its layers returns the
    same result for every embedding. *)
Theorem sequential_without_ResBlock_ignores_emb (blk : TimestepEmbedSequential.t)
    (x emb emb' : Shape) :
  (forall b, LResBlock b ∉ TimestepEmbedSequential.layers blk) ->
  TimestepEmbedSequential.forward blk x emb = TimestepEmbedSequential.forward blk x emb'.
Proof.
  unfold TimestepEmbedSequential.forward.
  generalize (TimestepEmbedSequential.layers blk). intros ls. revert x.
  induction ls as [|l ls IH]; intros x H; [reflexivity|].
  cbn [TimestepEmbedSequential.run].
  assert (E : TimestepEmbedSequential.layer_forward l x emb
              = TimestepEmbedSequential.layer_forward l x emb').
  { destruct l as [c|b|a|d|u]; try reflexivity.
    exfalso. apply (H b). apply list_elem_of_here. }
  rewrite E. destruct (TimestepEmbedSequential.layer_forward l x emb') as [y|e];
    [|reflexivity].
  cbn [mbind result_bind]. apply IH. intros b Hb. apply (H b).
  by apply list_elem_of_further.
Qed.

Lemma sequential_without_ResBlock_ignores_emb_witness :
  TimestepEmbedSequential.forward
    (TimestepEmbedSequential.mk [LUpsample (Upsample.mk 8 8 false 2 None)] 1)
    [2; 8; 4; 4] [2; 16]
  = TimestepEmbedSequential.forward
    (TimestepEmbedSequential.mk [LUpsample (Upsample.mk 8 8 false 2 None)] 1)
    [2; 8; 4; 4] [].
Proof.
  refine (sequential_without_ResBlock_ignores_emb
            (TimestepEmbedSequential.mk [LUpsample (Upsample.mk 8 8 false 2 None)] 1)
            [2; 8; 4; 4] [2; 16] [] _).
  intros b Hb. cbn in Hb. apply list_elem_of_singleton in Hb. discriminate.
Defined.

(** X15.  A [TimestepEmbedSequential] applies its layers in order, each to
    the result of the one before, with the same embedding: the layers
    [ls1 ++ ls2] act as [ls1] followed by [ls2], an error of [ls1] is the
    error of the whole, and the empty sequence returns its input. *)
Theorem sequential_composes ls1 ls2 d1 d2 d (x emb : Shape) :
  TimestepEmbedSequential.forward (TimestepEmbedSequential.mk (ls1 ++ ls2) d) x emb
  = match TimestepEmbedSequential.forward (TimestepEmbedSequential.mk ls1 d1) x emb with
    | Ok y => TimestepEmbedSequential.forward (TimestepEmbedSequential.mk ls2 d2) y emb
    | Raise e => Raise e
    end /\
  TimestepEmbedSequential.forward (TimestepEmbedSequential.mk [] d) x emb = Ok x.
Proof.
  unfold TimestepEmbedSequential.forward. cbn [TimestepEmbedSequential.layers].
  split; [|reflexivity]. rewrite run_app.
  by destruct (TimestepEmbedSequential.run ls1 x emb).
Qed.

(** ** The attention kernels on values *)

Lemma nth_scaled (s : R) (row : list R) t :
  nth t ((fun v => Rmult v s) <$> row) 0%R = Rmult (nth t row 0%R) s.
Proof.
  revert t. induction row as [|a row IH]; intros [|t]; simpl; try lra. apply IH.
Qed.

Lemma zip_with_fmap_result {A B C D} (f : A -> B -> C) (g : A -> B -> D) (h : D -> C)
    (l1 : list A) (l2 : list B) :
  (forall a b, f a b = h (g a b)) -> zip_with f l1 l2 = h <$> zip_with g l1 l2.
Proof.
  intros E. revert l2. induction l1 as [|a l1 IH]; intros [|b l2]; simpl; try done.
  by rewrite E, IH.
Qed.

Lemma Rsum_scaled_products (s : R) t u (qb kb : list (list R)) :
  Rsum (zip_with (fun qc kc => Rmult (nth t qc 0%R) (nth u kc 0%R))
          ((fun row : list R => (fun v => Rmult v s) <$> row) <$> qb)
          ((fun row : list R => (fun v => Rmult v s) <$> row) <$> kb))
  = Rmult (Rsum (zip_with (fun qc kc => Rmult (nth t qc 0%R) (nth u kc 0%R)) qb kb))
          (Rmult s s).
Proof.
  revert kb. induction qb as [|qc qb IH]; intros [|kc kb]; simpl; try lra.
  rewrite IH, !nth_scaled. lra.
Qed.

Lemma attention_scale_squared ch :
  Rmult (attention_scale ch) (attention_scale ch) = Rinv (sqrt (INR ch)).
Proof.
  unfold attention_scale, Rdiv. rewrite !Rmult_1_l, <- Rinv_mult.
  by rewrite sqrt_sqrt by apply sqrt_pos.
Qed.

(** X16.  Scaling [q] and [k] by [1 / sqrt(sqrt(ch))] each before the
    product, as both kernels do, gives the attention logits [q . k]
    divided by [sqrt(ch)]: the two are equal over the reals, whatever the
    tensors are. *)
Theorem prescaling_divides_logits_by_sqrt_ch (ch len : nat) (q k : Batch) :
  einsum_bct_bcs_bts len (scale_by (attention_scale ch) q) (scale_by (attention_scale ch) k)
  = scale_by (Rinv (sqrt (INR ch))) (einsum_bct_bcs_bts len q k).
Proof.
  unfold einsum_bct_bcs_bts, scale_by.
  rewrite zip_with_fmap_l, zip_with_fmap_r.
  apply zip_with_fmap_result. intros qb kb.
  rewrite <- list_fmap_compose. apply list_fmap_ext. intros _ t _. simpl.
  rewrite <- list_fmap_compose. apply list_fmap_ext. intros _ u _. simpl.
  by rewrite Rsum_scaled_products, attention_scale_squared.
Qed.

(** ** The two pathways in lockstep *)

Section Lockstep.
Variable HRNet_forward : HRNet.t -> Shape -> result (list Shape * Shape).

Lemma encoder_loop_lockstep net anch inds st st' :
  EchoDNDUNet.input_blocks_bernoulli net = EchoDNDUNet.input_blocks_gaussian net ->
  h_bernoulli st = h_gaussian st -> hs_bernoulli st = hs_gaussian st ->
  encoder_loop net anch inds st = Ok st' ->
  h_bernoulli st' = h_gaussian st' /\ hs_bernoulli st' = hs_gaussian st'.
Proof.
  intros Hb. revert st. induction inds as [|ind inds IH]; intros st Hh Hhs H.
  - cbn [encoder_loop] in H. by injection H as <-.
  - cbn [encoder_loop] in H. rewrite Hb, Hh, Hhs in H.
    apply result_bind_Ok in H as (bg & Hbg & H). rewrite Hbg in H.
    apply result_bind_Ok in H as (hg & Hg & H).
    cbn [mbind result_bind] in H. rewrite Hg in H. cbn [mbind result_bind] in H.
    apply result_bind_Ok in H as ([hg' hb'] & Hanch & H).
    apply IH in H; [done| |]; cbn [h_bernoulli h_gaussian hs_bernoulli hs_gaussian].
    + destruct (ind =? 0); [|by injection Hanch as <- <-].
      apply result_bind_Ok in Hanch as (a1 & Ha1 & Hanch). rewrite Ha1 in Hanch.
      cbn [mbind result_bind] in Hanch. by injection Hanch as <- <-.
    + f_equal. f_equal.
      destruct (ind =? 0); [|by injection Hanch as <- <-].
      apply result_bind_Ok in Hanch as (a1 & Ha1 & Hanch). rewrite Ha1 in Hanch.
      cbn [mbind result_bind] in Hanch. by injection Hanch as <- <-.
Qed.

Lemma decoder_loop_lockstep net inds st st' :
  EchoDNDUNet.output_blocks_bernoulli net = EchoDNDUNet.output_blocks_gaussian net ->
  h_bernoulli st = h_gaussian st -> hs_bernoulli st = hs_gaussian st ->
  decoder_loop net inds st = Ok st' ->
  h_bernoulli st' = h_gaussian st'.
Proof.
  intros Hb. revert st. induction inds as [|ind inds IH]; intros st Hh Hhs H.
  - cbn [decoder_loop] in H. by injection H as <-.
  - cbn [decoder_loop] in H. rewrite Hb, Hh, Hhs in H.
    apply result_bind_Ok in H as ([skip hs'] & Hpop & H). rewrite Hpop in H.
    cbn [mbind result_bind] in H.
    apply result_bind_Ok in H as (hg & Hcat & H). rewrite Hcat in H.
    apply result_bind_Ok in H as (bg & Hbg & H). rewrite Hbg in H.
    apply result_bind_Ok in H as (hg' & Hg & H).
    cbn [mbind result_bind] in H. rewrite Hg in H. cbn [mbind result_bind] in H.
    by apply IH in H.
Qed.

(** X20.  The Gaussian and the Bernoulli pathway run in lockstep: for any
    constructed network and any input on which [forward] returns, the two
    outputs have the same batch and spatial extents and differ in the
    channel axis only, which holds [out_channels_gaussian] and
    [out_channels_bernoulli] channels. *)
Theorem outputs_differ_in_channels_only cfg s net s' (x timesteps : Shape)
    (y : option Shape) (out_gaussian out_bernoulli cal : Shape) :
  EchoDNDUNet.__init__ cfg s = Ok (net, s') ->
  forward HRNet_forward net x timesteps y = Ok (out_gaussian, out_bernoulli, cal) ->
  exists n sp,
    out_gaussian = n :: Config.out_channels_gaussian cfg :: sp /\
    out_bernoulli = n :: Config.out_channels_bernoulli cfg :: sp.
Proof.
  intros Hinit Hf.
  apply init_inv in Hinit
    as (l1 & l2 & stem & w & s1 & enc & s2 & middle & s3 & dec & s4 & og & s5 & ob & Hinv).
  cbv zeta in Hinv.
  destruct Hinv as (_ & _ & _ & _ & _ & _ & _ & _ & Hog & Hob &
                    Hibg & Hmbg & Hobg & Houtg & Hibb & Hmbb & Hobb & Houtb & _).
  unfold forward in Hf.
  apply result_bind_Ok in Hf as ([st cal'] & Htrunk & Hf).
  apply result_bind_Ok in Hf as (og' & Hogf & Hf).
  apply result_bind_Ok in Hf as (ob' & Hobf & Hf).
  injection Hf as -> -> ->.
  assert (Hlock : h_bernoulli st = h_gaussian st).
  { unfold forward_trunk in Htrunk.
    apply result_bind_Ok in Htrunk as (c & Hc & Htrunk).
    apply result_bind_Ok in Htrunk as ([] & Hc3 & Htrunk).
    destruct (Nat.eqb_spec c 3) as [->|]; [|discriminate].
    apply result_bind_Ok in Htrunk as (x_img & Himg & Htrunk).
    apply result_bind_Ok in Htrunk as (ng & Hng & Htrunk).
    apply result_bind_Ok in Htrunk as (nb & Hnb & Htrunk).
    apply result_bind_Ok in Htrunk as ([] & _ & Htrunk).
    apply result_bind_Ok in Htrunk as (te & _ & Htrunk).
    apply result_bind_Ok in Htrunk as (e1 & _ & Htrunk).
    apply result_bind_Ok in Htrunk as (emb0 & _ & Htrunk).
    case_bool_decide; [discriminate|].
    apply result_bind_Ok in Htrunk as ([anch cal''] & _ & Htrunk).
    apply result_bind_Ok in Htrunk as (hg0 & Hg0 & Htrunk).
    apply result_bind_Ok in Htrunk as (hb0 & Hb0 & Htrunk).
    apply result_bind_Ok in Htrunk as (st1 & Hencl & Htrunk).
    apply result_bind_Ok in Htrunk as (hg & Hmg & Htrunk).
    apply result_bind_Ok in Htrunk as (hb & Hmb & Htrunk).
    apply result_bind_Ok in Htrunk as (st2 & Hdecl & Htrunk).
    injection Htrunk as -> _.
    assert (E0 : hb0 = hg0).
    { destruct x as [|n [|c0 sp]]; try discriminate.
      cbn [slice1] in Himg, Hng, Hnb. injection Himg as <-. injection Hng as <-.
      injection Hnb as <-. cbn [getitem] in Hc.
      assert (c0 = 3) as ->.
      { simpl in Hc. by injection Hc as ->. }
      clear Hc Hc3.
      revert Hg0 Hb0. cbn [cat1_list mbind result_bind].
      change (3 - 2) with (2 - 1). congruence. }
    subst hb0.
    apply encoder_loop_lockstep in Hencl as [Eh Ehs];
      [|by rewrite Hibb, Hibg|reflexivity|reflexivity].
    rewrite Hmbb, <- Hmbg, Eh in Hmb. rewrite Hmb in Hmg. injection Hmg as ->.
    apply decoder_loop_lockstep in Hdecl; [done|by rewrite Hobb, Hobg|done|done]. }
  rewrite Hlock in Hobf.
  apply out_projection_inv in Hog as [Eog _]. apply out_projection_inv in Hob as [Eob _].
  rewrite Houtg, Eog in Hogf. rewrite Houtb, Eob in Hobf.
  unfold OutProjection.forward in Hogf, Hobf.
  cbn [OutProjection.norm OutProjection.conv] in Hogf, Hobf.
  apply result_bind_Ok in Hogf as (h1 & Hn1 & Hcv1).
  apply result_bind_Ok in Hobf as (h2 & Hn2 & Hcv2).
  rewrite Hn1 in Hn2. injection Hn2 as <-.
  unfold Conv.forward in Hcv1, Hcv2.
  destruct h1 as [|n [|c1 sp1]]; try discriminate.
  cbn [Conv.in_channels Conv.dims Conv.kernel_size Conv.padding Conv.stride
       Conv.out_channels] in Hcv1, Hcv2.
  case_bool_decide; [|discriminate].
  apply result_bind_Ok in Hcv1 as (sp' & Hw & Hcv1). rewrite Hw in Hcv2.
  cbn [mbind result_bind] in Hcv2. injection Hcv1 as <-. injection Hcv2 as <-.
  by exists n, sp'.
Qed.
End Lockstep.


Lemma outputs_differ_in_channels_only_witness :
  exists net s',
    EchoDNDUNet.__init__ example_config 0 = Ok (net, s') /\
    forward example_mfcm net [2; 3; 64; 64] [2] None
    = Ok ([2; 2; 64; 64], [2; 1; 64; 64], [2; 1; 64; 64]) /\
    exists n sp,
      [2; 2; 64; 64] = n :: Config.out_channels_gaussian example_config :: sp /\
      [2; 1; 64; 64] = n :: Config.out_channels_bernoulli example_config :: sp.
Proof.
  destruct (EchoDNDUNet.__init__ example_config 0) as [[net s']|e] eqn:H;
    [|vm_compute in H; discriminate].
  assert (Hf : forward example_mfcm net [2; 3; 64; 64] [2] None
               = Ok ([2; 2; 64; 64], [2; 1; 64; 64], [2; 1; 64; 64])).
  { pose proof H as H'. vm_compute in H'. injection H' as <- _. vm_compute. reflexivity. }
  exists net, s'. split; [reflexivity|]. split; [exact Hf|].
  exact (outputs_differ_in_channels_only example_mfcm example_config 0 net s'
           [2; 3; 64; 64] [2] None _ _ _ H Hf).
Defined.

(** ** Half precision *)

Section HalfPrecision.
Variable HRNet_forward : HRNet.t -> Shape -> result (list Shape * Shape).

End HalfPrecision.


(** ** The residual block right after construction *)

Lemma operand_index_in_range s idx : in_range s idx -> operand_index s idx = idx.
Proof.
  unfold in_range, operand_index. intros H.
  rewrite (Forall2_length _ _ _ H), Nat.sub_diag, drop_0.
  induction H as [|i d idx s Hlt _ IH]; [done|]. simpl. rewrite IH. f_equal.
  destruct (Nat.eqb_spec d 1); lia.
Qed.

(** Zeros of either sign add up to [+0]. *)
Lemma Fsum_zeros (l : list f32) :
  Forall (fun v => exists s, v = S754_zero s) l -> Fsum l = f32_zero.
Proof.
  unfold Fsum. induction 1 as [|v l [s ->] _ IH]; [done|].
  cbn [foldr]. rewrite IH. by destruct s.
Qed.

Lemma f32_mul_zero_finite v :
  is_finite v = true -> exists s, f32_mul f32_zero v = S754_zero s.
Proof. destruct v; try discriminate; intros _; cbn; eauto. Qed.

(** Adding [+0] changes no number; it turns [-0] into [+0]. *)
Lemma f32_add_zero_r v : same_value (f32_add v f32_zero) v.
Proof.
  destruct v as [[|]| | |]; cbn; first [by left | right; eauto].
Qed.

Lemma tap_in_range pad p s k n q : tap pad p s k n = Some q -> q < n.
Proof.
  unfold tap. cbv zeta.
  destruct (Nat.leb_spec pad (p * s + k)); [|discriminate].
  destruct (Nat.ltb_spec (p * s + k - pad) n); [|discriminate].
  cbn. intros [= <-]. done.
Qed.

Lemma taps_in_range pad ps ss ks ns q :
  taps pad ps ss ks ns = Some q -> Forall2 lt q ns.
Proof.
  revert ss ks ns q.
  induction ps as [|p ps IH]; intros [|s ss] [|k ks] [|n ns] q H; try discriminate.
  - injection H as <-. constructor.
  - cbn [taps] in H.
    destruct (tap pad p s k n) as [q1|] eqn:E1; [|discriminate].
    cbn [mbind option_bind] in H.
    destruct (taps pad ps ss ks ns) as [qs|] eqn:E2; [|discriminate].
    cbn [mbind option_bind] in H. injection H as <-.
    constructor; [by eapply tap_in_range | by eapply IH].
Qed.

Lemma halved_positive ss sp :
  Forall (fun s => s = 1 \/ s = 2) ss -> Forall2 le ss sp ->
  Forall (lt 0) (zip_with Nat.div sp ss).
Proof.
  intros Hc H. induction H as [|s e ss sp Hle _ IH]; [constructor|].
  apply Forall_cons in Hc as [Hs Hc]. cbn [zip_with]. constructor; [|by apply IH].
  apply Nat.div_str_pos. lia.
Qed.

Lemma resample_accepts_ok up down dims sp :
  1 <= dims <= 3 -> resample_accepts up down dims sp ->
  length (resampled up down dims sp) = dims /\ Forall (lt 0) (resampled up down dims sp).
Proof.
  intros Hd [Hl H]. unfold resampled. destruct up; [|destruct down].
  - by apply double_ok.
  - unfold halve. split.
    + rewrite length_zip_with, stride_of_length by done. lia.
    + apply halved_positive; [apply stride_of_cases | done].
  - done.
Qed.

Lemma resample_forward_shape_any up down dims cin n sp :
  1 <= dims <= 3 -> 0 < n -> 0 < cin ->
  resample_accepts up down dims sp ->
  ResBlock.resample_forward (built_resample up down dims cin) (n :: cin :: sp)
  = Ok (n :: cin :: resampled up down dims sp).
Proof.
  intros Hd Hn Hc [Hl H]. destruct up; [|destruct down].
  - by apply (resample_forward_shape true down dims cin n sp).
  - unfold built_resample, resampled, halve. cbn [ResBlock.resample_forward].
    unfold Downsample.forward. cbn [Downsample.channels Downsample.op].
    simpl. rewrite Nat.eqb_refl. simpl.
    unfold AvgPool.forward. simpl. rewrite bool_decide_true by done.
    rewrite pool_spatial_any by (by rewrite stride_of_length).
    by rewrite bool_decide_true.
  - by apply (resample_forward_shape false false dims cin n sp).
Qed.

Section ResBlockInitial.
Variable initial_value : nat -> list nat -> f32.
Variable norm_values : Norm.t -> Tensor -> list nat -> f32.
Variable silu_value : f32 -> f32.
Variable dropout_values : Q -> Tensor -> list nat -> f32.

(** A zero-initialised convolution returns [+0] wherever the features it
    reads are finite. *)
Lemma conv_at_zero cv (x : Tensor) n sp b o p :
  Conv.weight cv = Zeros ->
  shape x = n :: Conv.in_channels cv :: sp ->
  (forall idx, in_range (shape x) idx -> is_finite (at_ x idx) = true) ->
  b < n ->
  conv_at initial_value cv x (b :: o :: p) = f32_zero.
Proof.
  intros Hw Hx Hfin Hb. unfold conv_at. rewrite Hw, Hx. cbn [param].
  rewrite Fsum_zeros; [done|].
  apply Forall_bind, Forall_forall. intros c Hc. apply elem_of_seq in Hc.
  apply Forall_bind, Forall_forall. intros k _.
  constructor; [|constructor].
  destruct (taps (Conv.padding cv) p (Conv.stride cv) k sp) as [q|] eqn:Eq.
  - apply f32_mul_zero_finite, Hfin. rewrite Hx.
    constructor; [done|]. constructor; [lia|]. by eapply taps_in_range.
  - by exists false.
Qed.

Lemma Conv_forward_v_Ok cv x s :
  Conv.forward cv (shape x) = Ok s ->
  Conv_forward_v initial_value cv x = Ok (mkT s (conv_at initial_value cv x)).
Proof. intros H. unfold Conv_forward_v. by rewrite H. Qed.

Lemma Norm_forward_v_Ok g x n c sp :
  shape x = n :: c :: sp -> Norm.channels g = c ->
  Norm_forward_v norm_values g x = Ok (mkT (n :: c :: sp) (norm_values g x)).
Proof. intros Hx Hc. unfold Norm_forward_v. by rewrite Hx, Norm_forward_Ok. Qed.

Lemma Linear_forward_v_Ok l x n :
  shape x = [n; Linear.in_features l] ->
  Linear_forward_v initial_value l x
  = Ok (mkT [n; Linear.out_features l] (linear_at initial_value l x)).
Proof. intros Hx. unfold Linear_forward_v. by rewrite Hx, Linear_forward_Ok. Qed.

Lemma zip_values_Ok f a b s :
  broadcast (shape a) (shape b) = Ok s ->
  exists out, zip_values f a b = Ok out /\ shape out = s /\
    forall idx, at_ out idx = f (at_ a (operand_index (shape a) idx))
                                (at_ b (operand_index (shape b) idx)).
Proof. intros H. unfold zip_values. rewrite H. simpl. eauto. Qed.

(** The resampling units of a block act on values as they act on shapes. *)
Lemma resample_forward_v_shape up down dims cin n sp x :
  1 <= dims <= 3 -> 0 < n -> 0 < cin ->
  resample_accepts up down dims sp ->
  shape x = n :: cin :: sp ->
  exists y, resample_forward_v initial_value (built_resample up down dims cin) x = Ok y /\
    shape y = n :: cin :: resampled up down dims sp.
Proof.
  intros Hd Hn Hc Hsp Hx.
  pose proof (resample_forward_shape_any up down dims cin n sp Hd Hn Hc Hsp) as Hrs.
  unfold built_resample, resampled in *.
  destruct up; [|destruct down]; simpl in *.
  - unfold Upsample.forward in Hrs. unfold Upsample_forward_v.
    rewrite Hx. simpl in *. rewrite Nat.eqb_refl in *. simpl in *.
    unfold interpolate_inner2_v, interpolate_x2_v. rewrite Hx.
    destruct (dims =? 3).
    + destruct (interpolate_inner2 (n :: cin :: sp)) as [s|e]; [|discriminate].
      simpl in *. injection Hrs as ->. eauto.
    + destruct (interpolate_x2 (n :: cin :: sp)) as [s|e]; [|discriminate].
      simpl in *. injection Hrs as ->. eauto.
  - unfold Downsample.forward in Hrs. unfold Downsample_forward_v.
    rewrite Hx. simpl in *. rewrite Nat.eqb_refl in *. simpl in *.
    unfold AvgPool_forward_v. rewrite Hx, Hrs. simpl. eauto.
  - eauto.
Qed.

(** C4.  Right after construction, for every input [x] and every
    embedding [emb] of the shapes the block expects (a down block takes odd
    extents too), the forward pass of a residual block succeeds, and its
    result is the result of the skip path on [x] (the input, resampled when
    the block resamples, through [skip_connection]), entry by entry,
    provided the features that reach the zero-initialised last convolution
    of [out_layers] are finite: the convolution then returns zero
    everywhere.  This holds with additive conditioning and with scale-shift
    conditioning ([use_scale_shift_norm]), for every initial value of the
    other parameters and whatever normalisation, SiLU and dropout
    return. *)
Theorem ResBlock_output_is_skip_path
    cin ted dr out_opt uc ssn dims ck up down s rb s' n sp x emb :
  ResBlock.__init__ cin ted dr out_opt uc ssn dims ck up down s = Ok (rb, s') ->
  0 < n -> 0 < cin -> 0 < py_or out_opt cin ->
  resample_accepts up down dims sp ->
  shape x = n :: cin :: sp -> shape emb = [n; ted] ->
  (forall f,
     out_conv_input_v initial_value norm_values silu_value dropout_values rb x emb = Ok f ->
     forall idx, in_range (shape f) idx -> is_finite (at_ f idx) = true) ->
  exists out skipx,
    ResBlock_forward_v initial_value norm_values silu_value dropout_values rb x emb
    = Ok out /\
    skip_path_v initial_value rb x = Ok skipx /\
    shape skipx = n :: py_or out_opt cin :: resampled up down dims sp /\
    teq out skipx.
Proof.
  intros H Hn Hc Ho Hsp Hx Hemb Hfinite.
  apply ResBlock_init_inv in H as (Hd & s1 & s2 & ->). cbv zeta in *.
  set (out := py_or out_opt cin) in *.
  pose proof (resample_accepts_ok up down dims sp Hd Hsp) as [Hl' Hp'].
  set (sp' := resampled up down dims sp) in *.
  unfold out_conv_input_v in Hfinite.
  unfold ResBlock_forward_v, skip_path_v, out_rest_v, out_middle_v in *.
  cbn [ResBlock.updown ResBlock.in_norm ResBlock.h_upd ResBlock.dropout
    ResBlock.x_upd ResBlock.in_conv ResBlock.emb_linear ResBlock.use_scale_shift_norm
    ResBlock.out_norm ResBlock.out_conv ResBlock.skip_connection] in *.
  assert (Hconv : forall h, shape h = n :: cin :: sp' ->
            Conv_forward_v initial_value
              (Conv.mk dims cin out 3 (every_axis dims 1) 1 (Drawn s)) h
            = Ok (mkT (n :: out :: sp')
                    (conv_at initial_value
                       (Conv.mk dims cin out 3 (every_axis dims 1) 1 (Drawn s)) h))).
  { intros h Hh. apply Conv_forward_v_Ok. rewrite Hh.
    apply Conv_forward_same; simpl; auto. }
  assert (Hout : forall f, shape f = n :: out :: sp' ->
            (forall idx, in_range (shape f) idx -> is_finite (at_ f idx) = true) ->
            exists z, Conv_forward_v initial_value
              (Conv.mk dims out out 3 (every_axis dims 1) 1 Zeros) f = Ok z /\
              shape z = n :: out :: sp' /\
              forall b o p, b < n -> at_ z (b :: o :: p) = f32_zero).
  { intros f Hf Hfin. eexists. split; [|split].
    - apply Conv_forward_v_Ok. rewrite Hf. apply Conv_forward_same; simpl; auto.
    - done.
    - intros b o p Hb. cbn [at_]. by apply (conv_at_zero _ f n sp'). }
  assert (Hskip : forall x', shape x' = n :: cin :: sp' ->
            exists sx, skip_forward_v initial_value
              (if out =? cin then ResBlock.SkipIdentity
               else ResBlock.SkipConv
                      (Conv.mk dims cin out (if uc then 3 else 1) (every_axis dims 1)
                         (if uc then 1 else 0) (Drawn s2))) x' = Ok sx /\
              shape sx = n :: out :: sp').
  { intros x' Hx'. destruct (Nat.eqb_spec out cin) as [E|Hne].
    - exists x'. split; [done|]. by rewrite Hx', E.
    - simpl. eexists. split;
        [apply Conv_forward_v_Ok; rewrite Hx';
         apply Conv_forward_same; simpl; auto; destruct uc; auto
        | reflexivity]. }
  assert (Hsum : forall sx z, shape sx = n :: out :: sp' -> shape z = n :: out :: sp' ->
            (forall b o p, b < n -> at_ z (b :: o :: p) = f32_zero) ->
            exists o, add_v sx z = Ok o /\ teq o sx).
  { intros sx z Hsx Hz Hzero.
    destruct (zip_values_Ok f32_add sx z (n :: out :: sp')) as (o & Hadd & Hso & Hat).
    { rewrite Hsx, Hz. apply broadcast_same. }
    exists o. split; [exact Hadd|]. split; [by rewrite Hso, Hsx|].
    intros idx Hidx. rewrite Hat, Hsx, Hz.
    rewrite Hso in Hidx. rewrite operand_index_in_range by done.
    apply Forall2_cons_inv_r in Hidx as (b & idx1 & Hb & Hidx & ->).
    destruct idx1 as [|o' p]; [by apply Forall2_nil_inv_l in Hidx|].
    rewrite Hzero by done. apply f32_add_zero_r. }
  (* the two branches of [if self.updown] *)
  assert (Hin : exists h x',
            (if up || down
             then h ← Norm_forward_v norm_values (Norm.mk cin) x;
                  h ← resample_forward_v initial_value (built_resample up down dims cin)
                        (map_values silu_value h);
                  x0 ← resample_forward_v initial_value (built_resample up down dims cin) x;
                  h ← Conv_forward_v initial_value
                        (Conv.mk dims cin out 3 (every_axis dims 1) 1 (Drawn s)) h;
                  Ok (h, x0)
             else h ← Norm_forward_v norm_values (Norm.mk cin) x;
                  h ← Conv_forward_v initial_value
                        (Conv.mk dims cin out 3 (every_axis dims 1) 1 (Drawn s))
                        (map_values silu_value h);
                  Ok (h, x)) = Ok (h, x') /\
            shape h = n :: out :: sp' /\ shape x' = n :: cin :: sp' /\
            (if up || down
             then resample_forward_v initial_value (built_resample up down dims cin) x
             else Ok x) = Ok x').
  { rewrite (Norm_forward_v_Ok _ x n cin sp) by done.
    destruct (up || down) eqn:Hud.
    - cbn [mbind result_bind].
      destruct (resample_forward_v_shape up down dims cin n sp
                  (map_values silu_value
                     (mkT (n :: cin :: sp) (norm_values (Norm.mk cin) x))))
        as (hy & Hhy & Hsh); try done.
      destruct (resample_forward_v_shape up down dims cin n sp x)
        as (xy & Hxy & Hsx); try done.
      rewrite Hhy, Hxy. cbn [mbind result_bind]. rewrite Hconv by done.
      cbn [mbind result_bind]. eauto 10.
    - assert (sp' = sp) as Hsame by (subst sp'; unfold resampled; by destruct up, down).
      cbn [mbind result_bind]. rewrite Hsame in *. rewrite Hconv by done.
      cbn [mbind result_bind]. eauto 10. }
  destruct Hin as (h & x' & Hin1 & Hh & Hx' & Hxp). rewrite Hxp.
  rewrite Hin1 in Hfinite |- *.
  cbn [mbind result_bind] in Hfinite |- *.
  rewrite (Linear_forward_v_Ok _ _ n) in Hfinite |- * by done.
  cbn [mbind result_bind Linear.out_features] in Hfinite |- *.
  destruct (Hskip x' Hx') as (sx & Hsx & Hssx). rewrite Hsx.
  set (emb_out := append_axes_v
                    (mkT [n; if ssn then 2 * out else out]
                       (linear_at initial_value
                          (Linear.mk ted (if ssn then 2 * out else out) (Drawn s1))
                          (map_values silu_value emb))) h) in *.
  assert (Hbody : exists f,
            (if ssn
             then '(scale, shift) ← chunk2_1_v emb_out;
                  h0 ← Norm_forward_v norm_values (Norm.mk out) h;
                  h1 ← mul_v h0 (map_values (f32_add f32_one) scale);
                  h2 ← add_v h1 shift;
                  Ok (Dropout_forward_v dropout_values dr (map_values silu_value h2))
             else h0 ← add_v h emb_out;
                  h1 ← Norm_forward_v norm_values (Norm.mk out) h0;
                  Ok (Dropout_forward_v dropout_values dr (map_values silu_value h1)))
            = Ok f /\
            (if ssn
             then '(scale, shift) ← chunk2_1_v emb_out;
                  h0 ← Norm_forward_v norm_values (Norm.mk out) h;
                  h1 ← mul_v h0 (map_values (f32_add f32_one) scale);
                  h2 ← add_v h1 shift;
                  Conv_forward_v initial_value
                    (Conv.mk dims out out 3 (every_axis dims 1) 1 Zeros)
                    (Dropout_forward_v dropout_values dr (map_values silu_value h2))
             else h0 ← add_v h emb_out;
                  h1 ← Norm_forward_v norm_values (Norm.mk out) h0;
                  Conv_forward_v initial_value
                    (Conv.mk dims out out 3 (every_axis dims 1) 1 Zeros)
                    (Dropout_forward_v dropout_values dr (map_values silu_value h1)))
            = Conv_forward_v initial_value
                (Conv.mk dims out out 3 (every_axis dims 1) 1 Zeros) f /\
            shape f = n :: out :: sp').
  { subst emb_out. destruct ssn.
    - unfold chunk2_1_v, append_axes_v. cbn [shape]. rewrite Hh.
      rewrite append_axes_channel_vector, chunk2_1_even by done.
      cbn [mbind result_bind].
      rewrite (Norm_forward_v_Ok _ h n out sp') by done.
      cbn [mbind result_bind].
      edestruct (zip_values_Ok f32_mul) as (h1 & Hh1 & Hs1 & _);
        [|unfold mul_v; rewrite Hh1].
      { cbn [shape map_values]. apply broadcast_channel_vector. }
      cbn [mbind result_bind].
      edestruct (zip_values_Ok f32_add h1) as (h2 & Hh2 & Hs2 & _);
        [|unfold add_v; rewrite Hh2].
      { rewrite Hs1. cbn [shape]. apply broadcast_channel_vector. }
      cbn [mbind result_bind]. eexists. split; [reflexivity|]. split; [reflexivity|].
      cbn [shape Dropout_forward_v map_values]. by rewrite Hs2.
    - unfold append_axes_v.
      edestruct (zip_values_Ok f32_add h) as (h0 & Hh0 & Hs0 & _);
        [|unfold add_v; rewrite Hh0].
      { cbn [shape]. rewrite Hh, append_axes_channel_vector.
        apply broadcast_channel_vector. }
      cbn [mbind result_bind].
      rewrite (Norm_forward_v_Ok _ h0 n out sp') by done.
      cbn [mbind result_bind]. eexists. split; [reflexivity|]. split; [reflexivity|].
      done. }
  destruct Hbody as (f & Hf1 & Hf2 & Hfs).
  rewrite Hf2. specialize (Hfinite f Hf1).
  destruct (Hout f Hfs Hfinite) as (z & -> & Hz & Hzero). cbn [mbind result_bind].
  destruct (Hsum sx z Hssx Hz Hzero) as (o & -> & Hteq).
  exists o, sx. done.
Qed.
End ResBlockInitial.

Lemma indices_complete s idx : in_range s idx -> idx ∈ indices s.
Proof.
  unfold in_range. induction 1 as [|i d idx s Hlt _ IH].
  - apply list_elem_of_here.
  - cbn [indices]. apply list_elem_of_bind. exists i. split.
    + apply list_elem_of_fmap. by exists idx.
    + apply elem_of_seq. lia.
Qed.

Lemma finite_on_indices (f : Tensor) :
  forallb (fun idx => is_finite (at_ f idx)) (indices (shape f)) = true ->
  forall idx, in_range (shape f) idx -> is_finite (at_ f idx) = true.
Proof.
  intros H idx Hidx. rewrite forallb_forall in H. apply H.
  apply list_elem_of_In. by apply indices_complete.
Qed.

Lemma ResBlock_output_is_skip_path_witness :
  exists rb s' out skipx,
    ResBlock.__init__ 2 8 0%Q (Some 3) false true 2 false false true 0 = Ok (rb, s') /\
    ResBlock_forward_v ones_init pass_through_norm pass_through_silu pass_through_dropout
      rb counting_input counting_embedding = Ok out /\
    skip_path_v ones_init rb counting_input = Ok skipx /\
    shape skipx = [1; 3; 2; 1] /\ teq out skipx.
Proof.
  destruct (ResBlock.__init__ 2 8 0%Q (Some 3) false true 2 false false true 0)
    as [[rb s']|e] eqn:H; [|vm_compute in H; discriminate].
  assert (Hsp : resample_accepts false true 2 [5; 3]).
  { split; [reflexivity|]. repeat constructor. }
  assert (Hfin : forall f,
            out_conv_input_v ones_init pass_through_norm pass_through_silu
              pass_through_dropout rb counting_input counting_embedding = Ok f ->
            forall idx, in_range (shape f) idx -> is_finite (at_ f idx) = true).
  { intros f Hf. apply finite_on_indices.
    pose proof (f_equal
                  (fun r => match r with
                            | Ok t => forallb (fun idx => is_finite (at_ t idx))
                                        (indices (shape t))
                            | Raise _ => false
                            end) Hf) as Hv.
    cbv beta iota in Hv. rewrite <- Hv.
    pose proof H as H'. vm_compute in H'. injection H' as <- _.
    vm_compute. reflexivity. }
  destruct (ResBlock_output_is_skip_path ones_init pass_through_norm pass_through_silu
              pass_through_dropout
              2 8 0%Q (Some 3) false true 2 false false true 0 rb s' 1 [5; 3]
              counting_input counting_embedding
              H ltac:(lia) ltac:(lia) ltac:(vm_compute; lia) Hsp eq_refl eq_refl Hfin)
    as (out & skipx & Hf & Hs & Hshape & Hteq).
  exists rb, s', out, skipx. repeat split; try done. apply Hteq. apply Hteq.
Defined.

(** A NaN among the features is not multiplied away by the zero weights:
    with one NaN in the input, the output of a freshly built block is NaN
    at [[0, 1, 1]], where the skip path holds the input's 1. *)
Lemma ResBlock_output_is_NaN_on_NaN_features :
  exists rb s' out skipx,
    ResBlock.__init__ 32 4 0%Q None false false 1 false false false 0 = Ok (rb, s') /\
    ResBlock_forward_v ones_init pass_through_norm pass_through_silu pass_through_dropout
      rb nan_input zero_embedding = Ok out /\
    skip_path_v ones_init rb nan_input = Ok skipx /\
    at_ skipx [0; 1; 1] = f32_one /\
    at_ out [0; 1; 1] = S754_nan /\
    ~ teq out skipx.
Proof.
  destruct (ResBlock.__init__ 32 4 0%Q None false false 1 false false false 0)
    as [[rb s']|e] eqn:H; [|vm_compute in H; discriminate].
  pose proof H as H'. vm_compute in H'. injection H' as Hrb _.
  destruct (ResBlock_forward_v ones_init pass_through_norm pass_through_silu
              pass_through_dropout rb nan_input zero_embedding) as [out|e] eqn:Ef.
  2:{ exfalso.
      pose proof (f_equal (fun r => match r with Ok _ => true | Raise _ => false end) Ef)
        as Hv.
      rewrite <- Hrb in Hv. vm_compute in Hv. discriminate. }
  destruct (skip_path_v ones_init rb nan_input) as [skipx|e] eqn:Es.
  2:{ exfalso.
      pose proof (f_equal (fun r => match r with Ok _ => true | Raise _ => false end) Es)
        as Hv.
      rewrite <- Hrb in Hv. vm_compute in Hv. discriminate. }
  assert (Hsk : at_ skipx [0; 1; 1] = f32_one).
  { pose proof (f_equal (fun r => match r with
                                  | Ok t => at_ t [0; 1; 1]
                                  | Raise _ => f32_zero
                                  end) Es) as Hv.
    cbv beta iota in Hv. rewrite <- Hv, <- Hrb. vm_compute. reflexivity. }
  assert (Hout : at_ out [0; 1; 1] = S754_nan).
  { pose proof (f_equal (fun r => match r with
                                  | Ok t => at_ t [0; 1; 1]
                                  | Raise _ => f32_zero
                                  end) Ef) as Hv.
    cbv beta iota in Hv. rewrite <- Hv, <- Hrb. vm_compute. reflexivity. }
  assert (Hshape : shape out = [1; 32; 2]).
  { pose proof (f_equal (fun r => match r with
                                  | Ok t => shape t
                                  | Raise _ => []
                                  end) Ef) as Hv.
    cbv beta iota in Hv. rewrite <- Hv, <- Hrb. vm_compute. reflexivity. }
  exists rb, s', out, skipx. do 5 (split; [done|]).
  intros [_ Hv]. specialize (Hv [0; 1; 1]). rewrite Hshape, Hout, Hsk in Hv.
  destruct Hv as [Hv|(s1 & s2 & Hv & _)]; [|discriminate|discriminate].
  repeat constructor.
Qed.

(** ** The output projections at initialisation *)

(** X18.  At initialisation an output projection returns zero everywhere,
    provided the normalised, activated features it convolves are finite: its
    convolution went through [zero_module], so the result depends on no
    other parameter of the network.  (An infinity or a NaN among the
    features is not multiplied away: [0 * inf] and [0 * NaN] are NaN.) *)
Theorem output_projection_is_zero_at_init
    (initial_value : nat -> list nat -> f32)
    (norm_values : Norm.t -> Tensor -> list nat -> f32)
    (silu_value : f32 -> f32)
    cfg ch out_channels s o s' (h : Tensor) n sp :
  EchoDNDUNet.out_projection cfg ch out_channels s = Ok (o, s') ->
  ch = Config.model_channels cfg ->
  shape h = n :: ch :: sp -> length sp = Config.dims cfg -> Forall (lt 0) sp ->
  (forall f, projection_conv_input_v norm_values silu_value o h = Ok f ->
     forall idx, in_range (shape f) idx -> is_finite (at_ f idx) = true) ->
  exists y,
    OutProjection_forward_v initial_value norm_values silu_value o h = Ok y /\
    shape y = n :: out_channels :: sp /\
    forall idx, in_range (shape y) idx -> at_ y idx = f32_zero.
Proof.
  intros H Hch Hh Hl Hp Hfin. apply out_projection_inv in H as [-> Hd].
  unfold OutProjection_forward_v, projection_conv_input_v in *.
  cbn [OutProjection.norm OutProjection.conv] in *.
  rewrite (Norm_forward_v_Ok norm_values (Norm.mk ch) h n ch sp Hh eq_refl) in Hfin |- *.
  cbn [mbind result_bind] in Hfin |- *. specialize (Hfin _ eq_refl).
  rewrite (Conv_forward_v_Ok initial_value _ _ (n :: out_channels :: sp)).
  - eexists. split; [reflexivity|]. split; [reflexivity|].
    cbn [shape at_]. intros idx Hidx.
    apply Forall2_cons_inv_r in Hidx as (b & idx1 & Hb & Hidx & ->).
    destruct idx1 as [|o p]; [by apply Forall2_nil_inv_l in Hidx|].
    apply (conv_at_zero initial_value _ _ n sp); [done| |exact Hfin|done].
    cbn [shape map_values Conv.in_channels]. by subst ch.
  - cbn [map_values shape]. subst ch.
    rewrite (Conv_forward_same _ n (Config.model_channels cfg) sp); simpl; auto.
Qed.

Lemma output_projection_is_zero_at_init_witness :
  exists y,
    OutProjection_forward_v ones_init pass_through_norm pass_through_silu
      (OutProjection.mk (Norm.mk 32) (Conv.mk 2 32 2 3 [1; 1] 1 Zeros))
      (mkT [2; 32; 4; 4] (fun idx => f32_of_nat (sum_list idx))) = Ok y /\
    shape y = [2; 2; 4; 4] /\
    forall idx, in_range (shape y) idx -> at_ y idx = f32_zero.
Proof.
  refine (output_projection_is_zero_at_init ones_init pass_through_norm pass_through_silu
            example_config 32 2 0
            (OutProjection.mk (Norm.mk 32) (Conv.mk 2 32 2 3 [1; 1] 1 Zeros)) 1
            (mkT [2; 32; 4; 4] (fun idx => f32_of_nat (sum_list idx))) 2 [4; 4]
            eq_refl eq_refl eq_refl eq_refl ltac:(repeat constructor; lia) _).
  intros f Hf. apply finite_on_indices.
  pose proof (f_equal
                (fun r => match r with
                          | Ok t => forallb (fun idx => is_finite (at_ t idx))
                                      (indices (shape t))
                          | Raise _ => false
                          end) Hf) as Hv.
  cbv beta iota in Hv. rewrite <- Hv. vm_compute. reflexivity.
Defined.
